(** * mikrosevice: user, product and order services

    A shallow embedding of the three backend services of the repository
    (user-service and order-service in TypeScript/Express, product-service
    in Go/Gin), and of the PostgreSQL tables they own, followed by the
    properties of the specification that are settled on it.

    Conventions of the model.
    - A request handler is a function from its input and the state of the
      service's database to an HTTP response and the next state.
    - Money (SQL [DECIMAL(10,2)], Go [float64], JS [number]) is carried as an
      integer number of hundredths.
    - Timestamps are integers; [NOW()] reads a clock passed to the handler.
    - Every database call can fail for reasons outside the program
      (connection lost, server down): a [fault] oracle says which calls do.
      A call that fails leaves the stored rows as they are.  Failures that
      follow from the schema (CHECK constraints, column sizes) are computed
      by the model of the table.
    - Path parameters ([:id], [:userId]) are integers, of any size.
      PostgreSQL does not execute a statement whose id is out of the range
      of INTEGER: this is a call that fails, and the oracle says so.
    - A string is the UTF-8 text of the value: its characters are counted as
      PostgreSQL and JavaScript count them, not as bytes.  A value longer
      than its [VARCHAR(n)] column makes the statement fail; the one case
      where PostgreSQL stores it instead, cut to [n] characters, is when all
      that exceeds the size is spaces, and it is not modelled. *)

From stdpp Require Import base option list gmap strings pretty.
From Stdlib Require Import ZArith Lia.

Open Scope string_scope.
Open Scope list_scope.
Open Scope Z_scope.

(** ** JSON values and HTTP responses *)

#[local] Unset Elimination Schemes.
Inductive Json :=
| JNull
| JBool (b : bool)
| JInt (n : Z)
| JDec (hundredths : Z)
| JTime (t : Z)
| JStr (s : string)
| JArr (xs : list Json)
| JObj (fields : list (string * Json)).
#[local] Set Elimination Schemes.

Record Response := mkResponse { statusCode : Z; body : Json }.

(** [res.status(code).json({ error: msg })], [c.JSON(code, gin.H{"error": msg})] *)
Definition errorJson (code : Z) (msg : string) : Response :=
  mkResponse code (JObj [("error", JStr msg)]).

(** Does an object key [k] occur anywhere inside the value? *)
Fixpoint hasKey (k : string) (j : Json) : bool :=
  match j with
  | JArr xs =>
      (fix inArr (l : list Json) : bool :=
         match l with
         | [] => false
         | x :: l' => hasKey k x || inArr l'
         end) xs
  | JObj fields =>
      (fix inObj (l : list (string * Json)) : bool :=
         match l with
         | [] => false
         | (k', v) :: l' => bool_decide (k' = k) || hasKey k v || inObj l'
         end) fields
  | _ => false
  end.

(** What an [axios.get] gives the caller: the promise resolves with the
    response data on a 2xx status, is rejected with the response attached on
    any other status, and is rejected without a response when the service
    cannot be reached. *)
Inductive HttpResult (A : Type) :=
| HttpOk (data : A)
| HttpStatus (code : Z)
| HttpNoResponse.
Arguments HttpOk {A} data.
Arguments HttpStatus {A} code.
Arguments HttpNoResponse {A}.

(** [ORDER BY created_at DESC]: rows with the larger key first; rows with
    equal keys keep the order of the table. *)
Fixpoint insertDesc {A : Type} (key : A -> Z) (x : A) (l : list A) : list A :=
  match l with
  | [] => [x]
  | y :: l' => if key y <? key x then x :: l else y :: insertDesc key x l'
  end.

Definition orderByDesc {A : Type} (key : A -> Z) (l : list A) : list A :=
  foldr (insertDesc key) [] l.

(** Lengths of a text given as UTF-8.  A byte [10xxxxxx] continues a
    character; a byte [11110xxx] starts a character outside the Basic
    Multilingual Plane. *)
Definition continues (c : Ascii.ascii) : bool :=
  match c with
  | Ascii.Ascii _ _ _ _ _ _ b6 b7 => b7 && negb b6
  end.

Definition startsAstral (c : Ascii.ascii) : bool :=
  match c with
  | Ascii.Ascii _ _ _ _ b4 b5 b6 b7 => b7 && b6 && b5 && b4
  end.

(** The number of characters: what PostgreSQL compares with the [n] of
    [VARCHAR(n)]. *)
Fixpoint charLength (s : string) : nat :=
  match s with
  | EmptyString => 0
  | String c rest => ((if continues c then 0 else 1) + charLength rest)%nat
  end.

(** JavaScript's [s.length], the number of UTF-16 code units: a character
    outside the Basic Multilingual Plane counts for two. *)
Fixpoint jsLength (s : string) : nat :=
  match s with
  | EmptyString => 0
  | String c rest =>
      ((if continues c then 0 else if startsAstral c then 2 else 1) + jsLength rest)%nat
  end.

(** Column types of the schemas. *)
Definition fitsVarchar (n : nat) (s : string) : bool :=
  bool_decide (charLength s <= n)%nat.
Definition fitsDecimal_10_2 (hundredths : Z) : bool :=
  (-10000000000 <? hundredths) && (hundredths <? 10000000000).
Definition fitsInteger (n : Z) : bool :=
  (-2147483648 <=? n) && (n <=? 2147483647).

(** ** Product service (Go, Gin) *)

Module ProductService.

Module Product.
Record t := mk {
  ID : Z;
  Name : string;
  Description : string;
  Price : Z;
  Stock : Z;
  Category : string;
  CreatedAt : Z;
  UpdatedAt : Z
}.
End Product.

Module CreateProductRequest.
Record t := mk {
  Name : string;
  Description : string;
  Price : Z;
  Stock : Z;
  Category : string
}.
End CreateProductRequest.

Module UpdateProductRequest.
Record t := mk {
  Name : string;
  Description : string;
  Price : Z;
  Stock : Z;
  Category : string
}.
End UpdateProductRequest.

(** A JSON object with the keys the two request structs declare; a key may
    be absent. *)
Record ProductBody := mkBody {
  name : option string;
  description : option string;
  price : option Z;
  stock : option Z;
  category : option string
}.

(** The body of a request as [encoding/json] finds it: such an object, or a
    text it cannot decode into the struct, with the error it reports. *)
Inductive RequestBody :=
| Keys (j : ProductBody)
| Undecodable (err : string).

(** The [products] table and its id sequence. *)
Record Db := mkDb {
  products : list Product.t;
  products_id_seq : Z
}.

Inductive Stmt := SelectAll | SelectOne | Insert | Update | Delete.

(** [c.JSON(..., product)] with the struct's json tags. *)
Definition productJson (p : Product.t) : Json :=
  JObj [("id", JInt (Product.ID p));
        ("name", JStr (Product.Name p));
        ("description", JStr (Product.Description p));
        ("price", JDec (Product.Price p));
        ("stock", JInt (Product.Stock p));
        ("category", JStr (Product.Category p));
        ("created_at", JTime (Product.CreatedAt p));
        ("updated_at", JTime (Product.UpdatedAt p))].

(** Decoding leaves the zero value in every field whose key is absent. *)
Definition decodeCreate (b : ProductBody) : CreateProductRequest.t :=
  CreateProductRequest.mk (default "" (name b)) (default "" (description b))
    (default 0 (price b)) (default 0 (stock b)) (default "" (category b)).

Definition decodeUpdate (b : ProductBody) : UpdateProductRequest.t :=
  UpdateProductRequest.mk (default "" (name b)) (default "" (description b))
    (default 0 (price b)) (default 0 (stock b)) (default "" (category b)).

(** The [binding:"..."] tags of [CreateProductRequest].  [required] fails on
    the zero value of the field's type; the first failing tag of a field is
    the one reported. *)
Definition fieldError (field tag : string) : string :=
  "Key: 'CreateProductRequest." +:+ field +:+ "' Error:Field validation for '"
    +:+ field +:+ "' failed on the '" +:+ tag +:+ "' tag".

Definition requiredString (field : string) (v : string) : list string :=
  if bool_decide (v = "") then [fieldError field "required"] else [].

Definition validateCreate (r : CreateProductRequest.t) : list string :=
  requiredString "Name" (CreateProductRequest.Name r)
  ++ requiredString "Description" (CreateProductRequest.Description r)
  ++ (if CreateProductRequest.Price r =? 0 then [fieldError "Price" "required"]
      else if CreateProductRequest.Price r >? 0 then []
      else [fieldError "Price" "gt"])
  ++ (if CreateProductRequest.Stock r =? 0 then [fieldError "Stock" "required"]
      else if CreateProductRequest.Stock r >=? 0 then []
      else [fieldError "Stock" "gte"])
  ++ requiredString "Category" (CreateProductRequest.Category r).

Definition newline : string := String (Ascii.ascii_of_nat 10) EmptyString.

Fixpoint joinWith (sep : string) (l : list string) : string :=
  match l with
  | [] => ""
  | [s] => s
  | s :: l' => s +:+ sep +:+ joinWith sep l'
  end.

(** [c.ShouldBindJSON(&req)] for the two request types: [err.Error()] of the
    decoder or of the validator, or the bound struct. *)
Definition ShouldBindJSON_create (b : RequestBody)
  : string + CreateProductRequest.t :=
  match b with
  | Undecodable err => inl err
  | Keys j =>
      let req := decodeCreate j in
      match validateCreate req with
      | [] => inr req
      | errs => inl (joinWith newline errs)
      end
  end.

Definition ShouldBindJSON_update (b : RequestBody)
  : string + UpdateProductRequest.t :=
  match b with
  | Undecodable err => inl err
  | Keys j => inr (decodeUpdate j)
  end.

(** The constraints of the [products] table. *)
Definition rowOk (p : Product.t) : bool :=
  fitsVarchar 255 (Product.Name p)
  && fitsDecimal_10_2 (Product.Price p) && (0 <? Product.Price p)
  && fitsInteger (Product.Stock p) && (0 <=? Product.Stock p)
  && fitsVarchar 100 (Product.Category p).

Definition hasId (id : Z) (p : Product.t) : bool := Product.ID p =? id.

(** One assignment of the [SET] clause built by [updateProduct]. *)
Inductive Assign :=
| SetName (v : string)
| SetDescription (v : string)
| SetPrice (v : Z)
| SetStock (v : Z)
| SetCategory (v : string)
| SetUpdatedAtNow.

Section Handlers.
Variable fault : Stmt -> bool.
Variable now : Z.

Definition assign (p : Product.t) (a : Assign) : Product.t :=
  match a with
  | SetName v =>
      Product.mk (Product.ID p) v (Product.Description p) (Product.Price p)
        (Product.Stock p) (Product.Category p) (Product.CreatedAt p) (Product.UpdatedAt p)
  | SetDescription v =>
      Product.mk (Product.ID p) (Product.Name p) v (Product.Price p)
        (Product.Stock p) (Product.Category p) (Product.CreatedAt p) (Product.UpdatedAt p)
  | SetPrice v =>
      Product.mk (Product.ID p) (Product.Name p) (Product.Description p) v
        (Product.Stock p) (Product.Category p) (Product.CreatedAt p) (Product.UpdatedAt p)
  | SetStock v =>
      Product.mk (Product.ID p) (Product.Name p) (Product.Description p) (Product.Price p)
        v (Product.Category p) (Product.CreatedAt p) (Product.UpdatedAt p)
  | SetCategory v =>
      Product.mk (Product.ID p) (Product.Name p) (Product.Description p) (Product.Price p)
        (Product.Stock p) v (Product.CreatedAt p) (Product.UpdatedAt p)
  | SetUpdatedAtNow =>
      Product.mk (Product.ID p) (Product.Name p) (Product.Description p) (Product.Price p)
        (Product.Stock p) (Product.Category p) (Product.CreatedAt p) now
  end.

(** The row after [SET a1, a2, ...]. *)
Definition assignAll (updates : list Assign) (p : Product.t) : Product.t :=
  foldl assign p updates.

(** [SELECT ... FROM products ORDER BY created_at DESC] *)
Definition querySelectAll (db : Db) : option (list Product.t) :=
  if fault SelectAll then None
  else Some (orderByDesc Product.CreatedAt (products db)).

(** [SELECT ... FROM products WHERE id = $1]: the error, or the rows. *)
Definition querySelectOne (id : Z) (db : Db) : option (list Product.t) :=
  if fault SelectOne then None
  else Some (filter (fun p => hasId id p = true) (products db)).

(** [INSERT INTO products (...) VALUES ($1, ..., NOW(), NOW()) RETURNING ...] *)
Definition queryInsert (r : CreateProductRequest.t) (db : Db)
  : option Product.t * Db :=
  if fault Insert then (None, db)
  else
    let id := products_id_seq db + 1 in
    let row := Product.mk id (CreateProductRequest.Name r)
                 (CreateProductRequest.Description r) (CreateProductRequest.Price r)
                 (CreateProductRequest.Stock r) (CreateProductRequest.Category r) now now in
    if rowOk row then (Some row, mkDb (products db ++ [row]) id)
    else (None, mkDb (products db) id).

(** [UPDATE products SET ... WHERE id = $n RETURNING ...]: the error, or the
    rows that were updated. *)
Definition queryUpdate (updates : list Assign) (id : Z) (db : Db)
  : option (list Product.t) * Db :=
  if fault Update then (None, db)
  else
    let changed := assignAll updates <$> filter (fun p => hasId id p = true) (products db) in
    if forallb rowOk changed then
      (Some changed,
       mkDb ((fun p => if hasId id p then assignAll updates p else p) <$> products db)
            (products_id_seq db))
    else (None, db).

(** [DELETE FROM products WHERE id = $1]: the error, or [RowsAffected]. *)
Definition queryDelete (id : Z) (db : Db) : option Z * Db :=
  if fault Delete then (None, db)
  else
    (Some (Z.of_nat (length (filter (fun p => hasId id p = true) (products db)))),
     mkDb (filter (fun p => hasId id p = false) (products db)) (products_id_seq db)).

Definition getProducts (db : Db) : Response * Db :=
  match querySelectAll db with
  | None => (errorJson 500 "Failed to fetch products", db)
  | Some [] => (mkResponse 200 (JObj [("products", JNull)]), db)
  | Some rows => (mkResponse 200 (JObj [("products", JArr (productJson <$> rows))]), db)
  end.

Definition getProduct (id : Z) (db : Db) : Response * Db :=
  match querySelectOne id db with
  | Some [] => (errorJson 404 "Product not found", db)
  | None => (errorJson 500 "Failed to fetch product", db)
  | Some (product :: _) => (mkResponse 200 (JObj [("product", productJson product)]), db)
  end.

Definition createProduct (b : RequestBody) (db : Db) : Response * Db :=
  match ShouldBindJSON_create b with
  | inl err => (errorJson 400 err, db)
  | inr req =>
      match queryInsert req db with
      | (None, db') => (errorJson 500 "Failed to create product", db')
      | (Some product, db') =>
          (mkResponse 201 (JObj [("message", JStr "Product created successfully");
                                 ("product", productJson product)]), db')
      end
  end.

(** The dynamic [SET] clause: one assignment per field the request is taken
    to carry, in the order of the source. *)
Definition buildUpdates (req : UpdateProductRequest.t) : list Assign :=
  let updates : list Assign := [] in
  let updates :=
    if bool_decide (UpdateProductRequest.Name req ≠ "")
    then updates ++ [SetName (UpdateProductRequest.Name req)] else updates in
  let updates :=
    if bool_decide (UpdateProductRequest.Description req ≠ "")
    then updates ++ [SetDescription (UpdateProductRequest.Description req)] else updates in
  let updates :=
    if UpdateProductRequest.Price req >? 0
    then updates ++ [SetPrice (UpdateProductRequest.Price req)] else updates in
  let updates :=
    if UpdateProductRequest.Stock req >=? 0
    then updates ++ [SetStock (UpdateProductRequest.Stock req)] else updates in
  let updates :=
    if bool_decide (UpdateProductRequest.Category req ≠ "")
    then updates ++ [SetCategory (UpdateProductRequest.Category req)] else updates in
  updates.

Definition updateProduct (id : Z) (b : RequestBody) (db : Db) : Response * Db :=
  match ShouldBindJSON_update b with
  | inl err => (errorJson 400 err, db)
  | inr req =>
      let updates := buildUpdates req in
      if bool_decide (length updates = 0%nat)
      then (errorJson 400 "No fields to update", db)
      else
        let updates := updates ++ [SetUpdatedAtNow] in
        match queryUpdate updates id db with
        | (Some [], db') => (errorJson 404 "Product not found", db')
        | (None, db') => (errorJson 500 "Failed to update product", db')
        | (Some (product :: _), db') =>
            (mkResponse 200 (JObj [("message", JStr "Product updated successfully");
                                   ("product", productJson product)]), db')
        end
  end.

Definition deleteProduct (id : Z) (db : Db) : Response * Db :=
  match queryDelete id db with
  | (None, db') => (errorJson 500 "Failed to delete product", db')
  | (Some rowsAffected, db') =>
      if rowsAffected =? 0 then (errorJson 404 "Product not found", db')
      else (mkResponse 200 (JObj [("message", JStr "Product deleted successfully")]), db')
  end.

(** The routes of the [/api/products] group. *)
Inductive Request :=
| GET_products
| GET_product (id : Z)
| POST_products (b : RequestBody)
| PUT_product (id : Z) (b : RequestBody)
| DELETE_product (id : Z).

Definition serve (r : Request) (db : Db) : Response * Db :=
  match r with
  | GET_products => getProducts db
  | GET_product id => getProduct id db
  | POST_products b => createProduct b db
  | PUT_product id b => updateProduct id b db
  | DELETE_product id => deleteProduct id db
  end.
End Handlers.

End ProductService.

(** ** User service (TypeScript, Express) *)

Module UserService.

(** A row of the [users] table. *)
Record UserRow := mkUser {
  id : Z;
  email : string;
  password : string;
  name : string;
  created_at : Z;
  updated_at : Z
}.

Record Db := mkDb {
  users : list UserRow;
  users_id_seq : Z
}.

(** [req.body] of the routes that read one: the keys the handlers look at,
    each possibly absent. *)
Record Body := mkBody {
  b_email : option string;
  b_password : option string;
  b_name : option string
}.

(** The [pool.query] calls, one name per call site. *)
Inductive Stmt :=
| RegisterSelect | RegisterInsert | LoginSelect | SelectAll | SelectOne | Update | Delete.

Definition dq : string := String (Ascii.ascii_of_nat 34) EmptyString.
Definition label (key : string) : string := dq +:+ key +:+ dq.

(** Joi's [string()] rules on one key, reporting the first that fails:
    [required()], a string may not be empty, [min(n)] on the length of the
    JavaScript string, [email()]. *)
Definition joiString (key : string) (minLen : nat) (valid : string -> bool)
    (what : string) (v : option string) : option string :=
  match v with
  | None => Some (label key +:+ " is required")
  | Some s =>
      if bool_decide (s = "") then Some (label key +:+ " is not allowed to be empty")
      else if negb (valid s) then Some (label key +:+ " must be a valid " +:+ what)
      else if bool_decide (jsLength s < minLen)%nat
      then Some (label key +:+ " length must be at least " +:+ pretty minLen
                   +:+ " characters long")
      else None
  end.

(** A key the schema does not declare. *)
Definition joiUnknown (key : string) (v : option string) : option string :=
  match v with
  | Some _ => Some (label key +:+ " is not allowed")
  | None => None
  end.

(** The first error among the checks, in order. *)
Fixpoint firstError (checks : list (option string)) : option string :=
  match checks with
  | [] => None
  | Some e :: _ => Some e
  | None :: rest => firstError rest
  end.

Definition userJson (u : UserRow) (stamp : string) (t : Z) : Json :=
  JObj [("id", JInt (id u)); ("email", JStr (email u)); ("name", JStr (name u));
        (stamp, JTime t)].

Definition emailTaken (e : string) (except : Z) (rows : list UserRow) : bool :=
  existsb (fun u => bool_decide (email u = e) && negb (id u =? except)) rows.

(** Column sizes of the [users] table: of a new row, and of the two columns
    an update assigns. *)
Definition rowOk (u : UserRow) : bool :=
  fitsVarchar 255 (email u) && fitsVarchar 255 (password u) && fitsVarchar 255 (name u).

Definition assignedOk (u : UserRow) : bool :=
  fitsVarchar 255 (email u) && fitsVarchar 255 (name u).

Section Handlers.
Variable fault : Stmt -> bool.
Variable now : Z.
(** [Joi.string().email()], [bcrypt.hash(_, 10)] with the salt it draws,
    [bcrypt.compare] and [jwt.sign] with the configured secret. *)
Variable isEmail : string -> bool.
Variable bcrypt_hash : string -> string.
Variable bcrypt_compare : string -> string -> bool.
Variable jwt_sign : Z -> string -> string.

Definition userSchema (b : Body) : option string :=
  firstError [joiString "email" 0 isEmail "email" (b_email b);
              joiString "password" 6 (fun _ => true) "" (b_password b);
              joiString "name" 2 (fun _ => true) "" (b_name b)].

Definition loginSchema (b : Body) : option string :=
  firstError [joiString "email" 0 isEmail "email" (b_email b);
              joiString "password" 0 (fun _ => true) "" (b_password b);
              joiUnknown "name" (b_name b)].

(** [SELECT ... FROM users WHERE email = $1] *)
Definition selectByEmail (s : Stmt) (e : string) (db : Db) : option (list UserRow) :=
  if fault s then None
  else Some (filter (fun u => email u = e) (users db)).

(** [INSERT INTO users (email, password, name, created_at) VALUES (...)
    RETURNING id, email, name, created_at] *)
Definition insertUser (e p n : string) (db : Db) : option UserRow * Db :=
  if fault RegisterInsert then (None, db)
  else
    let i := users_id_seq db + 1 in
    let row := mkUser i e p n now now in
    if rowOk row && negb (emailTaken e i (users db))
    then (Some row, mkDb (users db ++ [row]) i)
    else (None, mkDb (users db) i).

Definition register (b : Body) (db : Db) : Response * Db :=
  match userSchema b with
  | Some msg => (errorJson 400 msg, db)
  | None =>
      let e := default "" (b_email b) in
      let p := default "" (b_password b) in
      let n := default "" (b_name b) in
      match selectByEmail RegisterSelect e db with
      | None => (errorJson 500 "Internal server error", db)
      | Some (_ :: _) => (errorJson 409 "User already exists", db)
      | Some [] =>
          let hashedPassword := bcrypt_hash p in
          match insertUser e hashedPassword n db with
          | (None, db') => (errorJson 500 "Internal server error", db')
          | (Some user, db') =>
              (mkResponse 201
                 (JObj [("message", JStr "User created successfully");
                        ("user", userJson user "createdAt" (created_at user))]), db')
          end
      end
  end.

Definition login (b : Body) (db : Db) : Response * Db :=
  match loginSchema b with
  | Some msg => (errorJson 400 msg, db)
  | None =>
      let e := default "" (b_email b) in
      let p := default "" (b_password b) in
      match selectByEmail LoginSelect e db with
      | None => (errorJson 500 "Internal server error", db)
      | Some [] => (errorJson 401 "Invalid credentials", db)
      | Some (user :: _) =>
          if negb (bcrypt_compare p (password user))
          then (errorJson 401 "Invalid credentials", db)
          else
            let token := jwt_sign (id user) (email user) in
            (mkResponse 200
               (JObj [("message", JStr "Login successful");
                      ("token", JStr token);
                      ("user", JObj [("id", JInt (id user));
                                     ("email", JStr (email user));
                                     ("name", JStr (name user))])]), db)
      end
  end.

Definition getUsers (db : Db) : Response * Db :=
  if fault SelectAll then (errorJson 500 "Internal server error", db)
  else
    let rows := orderByDesc created_at (users db) in
    (mkResponse 200
       (JObj [("users", JArr ((fun u => userJson u "createdAt" (created_at u)) <$> rows))]),
     db).

Definition getUser (i : Z) (db : Db) : Response * Db :=
  if fault SelectOne then (errorJson 500 "Internal server error", db)
  else
    match filter (fun u => id u = i) (users db) with
    | [] => (errorJson 404 "User not found", db)
    | user :: _ =>
        (mkResponse 200 (JObj [("user", userJson user "createdAt" (created_at user))]), db)
    end.

(** A JS value used as a condition: an absent key and the empty string are
    both falsy. *)
Definition truthy (v : option string) : option string :=
  match v with
  | Some s => if bool_decide (s = "") then None else Some s
  | None => None
  end.

Definition setFields (newName newEmail : option string) (u : UserRow) : UserRow :=
  mkUser (id u) (default (email u) newEmail) (password u) (default (name u) newName)
    (created_at u) now.

(** [UPDATE users SET ..., updated_at = NOW() WHERE id = $n RETURNING ...] *)
Definition updateRows (newName newEmail : option string) (i : Z) (db : Db)
  : option (list UserRow) * Db :=
  if fault Update then (None, db)
  else
    let changed := setFields newName newEmail <$> filter (fun u => id u = i) (users db) in
    if forallb (fun u => assignedOk u && negb (emailTaken (email u) i (users db))) changed
    then (Some changed,
          mkDb ((fun u => if id u =? i then setFields newName newEmail u else u) <$> users db)
               (users_id_seq db))
    else (None, db).

Definition updateUser (i : Z) (b : Body) (db : Db) : Response * Db :=
  match truthy (b_name b), truthy (b_email b) with
  | None, None => (errorJson 400 "Name or email is required", db)
  | newName, newEmail =>
      match updateRows newName newEmail i db with
      | (None, db') => (errorJson 500 "Internal server error", db')
      | (Some [], db') => (errorJson 404 "User not found", db')
      | (Some (user :: _), db') =>
          (mkResponse 200
             (JObj [("message", JStr "User updated successfully");
                    ("user", userJson user "updatedAt" (updated_at user))]), db')
      end
  end.

(** [DELETE FROM users WHERE id = $1 RETURNING id] *)
Definition deleteRows (i : Z) (db : Db) : option (list Z) * Db :=
  if fault Delete then (None, db)
  else (Some (id <$> filter (fun u => id u = i) (users db)),
        mkDb (filter (fun u => id u ≠ i) (users db)) (users_id_seq db)).

Definition deleteUser (i : Z) (db : Db) : Response * Db :=
  match deleteRows i db with
  | (None, db') => (errorJson 500 "Internal server error", db')
  | (Some [], db') => (errorJson 404 "User not found", db')
  | (Some (_ :: _), db') =>
      (mkResponse 200 (JObj [("message", JStr "User deleted successfully")]), db')
  end.

Inductive Request :=
| POST_register (b : Body)
| POST_login (b : Body)
| GET_users
| GET_user (i : Z)
| PUT_user (i : Z) (b : Body)
| DELETE_user (i : Z).

Definition serve (r : Request) (db : Db) : Response * Db :=
  match r with
  | POST_register b => register b db
  | POST_login b => login b db
  | GET_users => getUsers db
  | GET_user i => getUser i db
  | PUT_user i b => updateUser i b db
  | DELETE_user i => deleteUser i db
  end.
End Handlers.

End UserService.

(** ** Order service (TypeScript, Express) *)

Module OrderService.

(** One validated line of [items]. *)
Module Item.
Record t := mk { productId : Z; quantity : Z }.
End Item.

(** What the handler reads of [productResponse.data.product], and the value
    it keeps per product id in [productDetails]. *)
Module Product.
Record t := mk { price : Z; name : string; stock : Z }.
End Product.

(** What the read routes use of [userResponse.data.user]. *)
Module User.
Record t := mk { name : string }.
End User.

(** A row of [orders]. *)
Module Order.
Record t := mk {
  id : Z;
  user_id : Z;
  total_amount : Z;
  status : string;
  created_at : Z;
  updated_at : Z
}.
End Order.

(** A row of [order_items]. *)
Module OrderItem.
Record t := mk {
  id : Z;
  order_id : Z;
  product_id : Z;
  quantity : Z;
  price : Z;
  product_name : string;
  created_at : Z
}.
End OrderItem.

(** The rows a statement sees: both tables. *)
Definition Tables : Type := list Order.t * list OrderItem.t.

(** The committed content of the database and its two id sequences.
    Sequences are not transactional. *)
Record Db := mkDb {
  orders : list Order.t;
  order_items : list OrderItem.t;
  orders_id_seq : Z;
  order_items_id_seq : Z
}.

(** [req.body]: the keys the two schemas know, each possibly absent. *)
Record ItemBody := mkItemBody { b_productId : option Z; b_quantity : option Z }.
Record Body := mkBody {
  b_userId : option Z;
  b_items : option (list ItemBody);
  b_status : option string
}.

(** The value [orderSchema.validate] returns. *)
Record OrderValue := mkValue { userId : Z; items : list Item.t }.

(** Calls on the pool or on the client taken from it, one name per call
    site; [InsertItem k] is the insert of line [k]. *)
Inductive DbOp :=
| Connect | Begin | InsertOrder | InsertItem (k : nat) | Commit | Rollback | Release
| SelectOrders | SelectOrder | SelectItems (order_id : Z) | UpdateStatus | SelectUserOrders.

(** What a request does to the outside, in the order it does it. *)
Inductive Event :=
| HttpGetUser (userId : Z) (r : HttpResult User.t)
| HttpGetProduct (productId : Z) (r : HttpResult Product.t)
| DbCall (op : DbOp).

(** The three ways a step of a handler ends: it goes on with a value, it
    sends a response and returns, or it throws. *)
Inductive Step (A : Type) :=
| Next (a : A)
| Reply (r : Response)
| Throw.
Arguments Next {A} a.
Arguments Reply {A} r.
Arguments Throw {A}.

Definition dq : string := String (Ascii.ascii_of_nat 34) EmptyString.
Definition label (key : string) : string := dq +:+ key +:+ dq.

(** [Joi.number().integer().positive().required()] *)
Definition joiPositiveInt (key : string) (v : option Z) : string + Z :=
  match v with
  | None => inl (label key +:+ " is required")
  | Some n =>
      if 9007199254740991 <? Z.abs n then inl (label key +:+ " must be a safe number")
      else if 0 <? n then inr n
      else inl (label key +:+ " must be a positive number")
  end.

Definition itemKey (i : nat) (key : string) : string :=
  "items[" +:+ pretty i +:+ "]." +:+ key.

Fixpoint validateItems (i : nat) (l : list ItemBody) : string + list Item.t :=
  match l with
  | [] => inr []
  | it :: rest =>
      match joiPositiveInt (itemKey i "productId") (b_productId it) with
      | inl e => inl e
      | inr p =>
          match joiPositiveInt (itemKey i "quantity") (b_quantity it) with
          | inl e => inl e
          | inr q =>
              match validateItems (S i) rest with
              | inl e => inl e
              | inr its => inr (Item.mk p q :: its)
              end
          end
      end
  end.

Definition orderSchema (b : Body) : string + OrderValue :=
  match joiPositiveInt "userId" (b_userId b) with
  | inl e => inl e
  | inr uid =>
      match b_items b with
      | None => inl (label "items" +:+ " is required")
      | Some l =>
          match validateItems 0 l with
          | inl e => inl e
          | inr its =>
              if bool_decide (length its < 1)%nat
              then inl (label "items" +:+ " must contain at least 1 items")
              else match b_status b with
                   | Some _ => inl (label "status" +:+ " is not allowed")
                   | None => inr (mkValue uid its)
                   end
          end
      end
  end.

Definition statuses : list string :=
  ["pending"; "confirmed"; "shipped"; "delivered"; "cancelled"].

Definition updateOrderSchema (b : Body) : string + string :=
  match b_status b with
  | None => inl (label "status" +:+ " is required")
  | Some s =>
      if bool_decide (s ∈ statuses) then
        match b_userId b, b_items b with
        | Some _, _ => inl (label "userId" +:+ " is not allowed")
        | None, Some _ => inl (label "items" +:+ " is not allowed")
        | None, None => inr s
        end
      else inl (label "status"
                  +:+ " must be one of [pending, confirmed, shipped, delivered, cancelled]")
  end.

(** The constraints of the two tables. *)
Definition orderOk (o : Order.t) : bool :=
  fitsInteger (Order.user_id o)
  && fitsDecimal_10_2 (Order.total_amount o) && (0 <? Order.total_amount o)
  && fitsVarchar 50 (Order.status o) && bool_decide (Order.status o ∈ statuses).

Definition itemOk (visible : list Order.t) (r : OrderItem.t) : bool :=
  existsb (fun o => Order.id o =? OrderItem.order_id r) visible
  && fitsInteger (OrderItem.product_id r)
  && fitsInteger (OrderItem.quantity r) && (0 <? OrderItem.quantity r)
  && fitsDecimal_10_2 (OrderItem.price r) && (0 <? OrderItem.price r)
  && fitsVarchar 255 (OrderItem.product_name r).

Definition itemJson (r : OrderItem.t) : Json :=
  JObj [("productId", JInt (OrderItem.product_id r));
        ("quantity", JInt (OrderItem.quantity r));
        ("price", JDec (OrderItem.price r));
        ("productName", JStr (OrderItem.product_name r))].

(** The fields every route returns of an order row. *)
Definition orderFields (o : Order.t) (extra : list (string * Json)) : Json :=
  JObj ([("id", JInt (Order.id o)); ("userId", JInt (Order.user_id o))]
        ++ extra
        ++ [("totalAmount", JDec (Order.total_amount o));
            ("status", JStr (Order.status o));
            ("createdAt", JTime (Order.created_at o));
            ("updatedAt", JTime (Order.updated_at o))]).

Definition withItems (o : Order.t) (extra : list (string * Json)) (rows : list OrderItem.t)
  : Json :=
  match orderFields o extra with
  | JObj fs => JObj (fs ++ [("items", JArr (itemJson <$> rows))])
  | j => j
  end.

Definition insufficientStock (product : Product.t) (item : Item.t) : string :=
  "Insufficient stock for product " +:+ Product.name product
    +:+ ". Available: " +:+ pretty (Product.stock product)
    +:+ ", Requested: " +:+ pretty (Item.quantity item).

Definition productNotFound (item : Item.t) : string :=
  "Product with ID " +:+ pretty (Item.productId item) +:+ " not found".

(** A request as the router sees it.  The path is given already split: the
    [:id] and [:userId] segments are integers.  HEAD and OPTIONS requests,
    which Express and the cors middleware answer before the routes, are not
    among the methods. *)
Inductive Method := GET | POST | PUT | DELETE | PATCH.

Inductive Path :=
| Health
| Orders
| OrderById (id : Z)
| OrdersByUser (userId : Z)
| Elsewhere.

Record Request := mkRequest { method : Method; path : Path; reqBody : Body }.

Section Handlers.
(** The other services, seen from this one: [W] is whatever state they
    have, [getUser] and [getProduct] are the two GET requests this service
    sends them. *)
Variable W : Type.
Variable getUser : Z -> W -> HttpResult User.t * W.
Variable getProduct : Z -> W -> HttpResult Product.t * W.
Variable fault : DbOp -> bool.
Variable now : Z.

(** The state a handler runs in: the other services, the committed
    database, the rows as the transaction open on the client sees them (if
    one is open), and the calls made so far. *)
Record State := mkState {
  world : W;
  db : Db;
  txn : option Tables;
  log : list Event
}.

Definition M (A : Type) : Type := State -> Step A * State.

Definition ret {A} (a : A) : M A := fun s => (Next a, s).
Definition reply {A} (r : Response) : M A := fun s => (Reply r, s).
Definition throw {A} : M A := fun s => (Throw, s).

Definition bind {A B} (m : M A) (k : A -> M B) : M B :=
  fun s =>
    match m s with
    | (Next a, s') => k a s'
    | (Reply r, s') => (Reply r, s')
    | (Throw, s') => (Throw, s')
    end.

Notation "'let*' x := m 'in' k" := (bind m (fun x => k))
  (at level 10, x name, m at level 100, k at level 200).

Definition emit (e : Event) (s : State) : State :=
  mkState (world s) (db s) (txn s) (log s ++ [e]).

(** [await axios.get(`${userServiceUrl}/api/users/${userId}`)] *)
Definition axios_get_user (userId : Z) (s : State) : HttpResult User.t * State :=
  let '(r, w) := getUser userId (world s) in
  (r, mkState w (db s) (txn s) (log s ++ [HttpGetUser userId r])).

(** [await axios.get(`${productServiceUrl}/api/products/${item.productId}`)] *)
Definition axios_get_product (productId : Z) (s : State) : HttpResult Product.t * State :=
  let '(r, w) := getProduct productId (world s) in
  (r, mkState w (db s) (txn s) (log s ++ [HttpGetProduct productId r])).

(** Verify user exists *)
Definition verifyUser (userId : Z) : M unit :=
  fun s =>
    let '(r, s1) := axios_get_user userId s in
    match r with
    | HttpOk _ => (Next tt, s1)
    | HttpStatus code =>
        if code =? 404 then (Reply (errorJson 400 "User not found"), s1)
        else (Throw, s1)
    | HttpNoResponse => (Throw, s1)
    end.

(** Verify products exist and get prices *)
Fixpoint verifyProducts (items : list Item.t) (productDetails : gmap Z Product.t)
  : M (gmap Z Product.t) :=
  fun s =>
    match items with
    | [] => (Next productDetails, s)
    | item :: rest =>
        let '(r, s1) := axios_get_product (Item.productId item) s in
        match r with
        | HttpOk product =>
            if Product.stock product <? Item.quantity item
            then (Reply (errorJson 400 (insufficientStock product item)), s1)
            else
              verifyProducts rest
                (<[Item.productId item :=
                     Product.mk (Product.price product) (Product.name product)
                       (Product.stock product)]> productDetails) s1
        | HttpStatus code =>
            if code =? 404 then (Reply (errorJson 400 (productNotFound item)), s1)
            else (Throw, s1)
        | HttpNoResponse => (Throw, s1)
        end
    end.

(** Calculate total amount.  [None] is the [TypeError] of reading [.price]
    of a product id that is not in [productDetails]. *)
Definition addLine (productDetails : gmap Z Product.t) (total : option Z) (item : Item.t)
  : option Z :=
  match total, productDetails !! Item.productId item with
  | Some t, Some d => Some (t + Product.price d * Item.quantity item)
  | _, _ => None
  end.

Definition reduceTotal (productDetails : gmap Z Product.t) (items : list Item.t) : option Z :=
  foldl (addLine productDetails) (Some 0) items.

Definition visible (s : State) : Tables :=
  match txn s with
  | Some t => t
  | None => (orders (db s), order_items (db s))
  end.

(** [await pool.connect()]: a client with no transaction open. *)
Definition pool_connect : M unit :=
  fun s =>
    let s1 := mkState (world s) (db s) None (log s ++ [DbCall Connect]) in
    if fault Connect then (Throw, s1) else (Next tt, s1).

(** [client.release()]: the client goes back to the pool as it is. *)
Definition release (s : State) : State :=
  mkState (world s) (db s) (txn s) (log s ++ [DbCall Release]).

(** [await client.query('BEGIN')] *)
Definition query_begin : M unit :=
  fun s =>
    let s1 := emit (DbCall Begin) s in
    if fault Begin then (Throw, s1)
    else (Next tt, mkState (world s1) (db s1) (Some (visible s1)) (log s1)).

(** [INSERT INTO orders (user_id, total_amount, status, created_at,
    updated_at) VALUES ($1, $2, $3, NOW(), NOW()) RETURNING ...] *)
Definition query_insert_order (userId totalAmount : Z) (st : string) : M Order.t :=
  fun s =>
    let s1 := emit (DbCall InsertOrder) s in
    if fault InsertOrder then (Throw, s1)
    else
      let i := orders_id_seq (db s1) + 1 in
      let d := mkDb (orders (db s1)) (order_items (db s1)) i (order_items_id_seq (db s1)) in
      let row := Order.mk i userId totalAmount st now now in
      if orderOk row then
        match txn s1 with
        | Some (os, its) =>
            (Next row, mkState (world s1) d (Some (os ++ [row], its)) (log s1))
        | None =>
            (Next row,
             mkState (world s1)
               (mkDb (orders d ++ [row]) (order_items d) (orders_id_seq d)
                  (order_items_id_seq d))
               None (log s1))
        end
      else (Throw, mkState (world s1) d (txn s1) (log s1)).

(** [INSERT INTO order_items (order_id, product_id, quantity, price,
    product_name) VALUES ($1, $2, $3, $4, $5) RETURNING *] *)
Definition query_insert_item (k : nat) (orderId productId quantity price : Z)
    (productName : string) : M OrderItem.t :=
  fun s =>
    let s1 := emit (DbCall (InsertItem k)) s in
    if fault (InsertItem k) then (Throw, s1)
    else
      let i := order_items_id_seq (db s1) + 1 in
      let d := mkDb (orders (db s1)) (order_items (db s1)) (orders_id_seq (db s1)) i in
      let row := OrderItem.mk i orderId productId quantity price productName now in
      if itemOk (fst (visible s1)) row then
        match txn s1 with
        | Some (os, its) =>
            (Next row, mkState (world s1) d (Some (os, its ++ [row])) (log s1))
        | None =>
            (Next row,
             mkState (world s1)
               (mkDb (orders d) (order_items d ++ [row]) (orders_id_seq d)
                  (order_items_id_seq d))
               None (log s1))
        end
      else (Throw, mkState (world s1) d (txn s1) (log s1)).

(** [await client.query('COMMIT')] *)
Definition query_commit : M unit :=
  fun s =>
    let s1 := emit (DbCall Commit) s in
    if fault Commit then (Throw, s1)
    else
      match txn s1 with
      | Some (os, its) =>
          (Next tt,
           mkState (world s1)
             (mkDb os its (orders_id_seq (db s1)) (order_items_id_seq (db s1)))
             None (log s1))
      | None => (Next tt, s1)
      end.

(** [await client.query('ROLLBACK')].  The open transaction ends whether
    the statement is answered or the connection turns out to be gone. *)
Definition query_rollback : M unit :=
  fun s =>
    let s1 := mkState (world s) (db s) None (log s ++ [DbCall Rollback]) in
    if fault Rollback then (Throw, s1) else (Next tt, s1).

(** Insert order items *)
Fixpoint insertItems (k : nat) (orderId : Z) (items : list Item.t)
    (productDetails : gmap Z Product.t) (orderItems : list OrderItem.t)
  : M (list OrderItem.t) :=
  match items with
  | [] => ret orderItems
  | item :: rest =>
      match productDetails !! Item.productId item with
      | None => throw
      | Some d =>
          let* row := query_insert_item k orderId (Item.productId item) (Item.quantity item)
                   (Product.price d) (Product.name d) in
          insertItems (S k) orderId rest productDetails (orderItems ++ [row])
      end
  end.

Definition created (order : Order.t) (orderItems : list OrderItem.t) : Response :=
  mkResponse 201
    (JObj [("message", JStr "Order created successfully");
           ("order", withItems order [] orderItems)]).

(** The body of the inner [try]. *)
Definition transactionBody (userId totalAmount : Z) (items : list Item.t)
    (productDetails : gmap Z Product.t) : M Empty_set :=
  let* _ := query_begin in
  let* order := query_insert_order userId totalAmount "pending" in
  let* orderItems := insertItems 0 (Order.id order) items productDetails [] in
  let* _ := query_commit in
  reply (created order orderItems).

(** Create order in database: [try { ... } catch { ROLLBACK; throw }
    finally { release }] around the body. *)
Definition transaction (userId totalAmount : Z) (items : list Item.t)
    (productDetails : gmap Z Product.t) : M Empty_set :=
  fun s =>
    match pool_connect s with
    | (Next _, s1) =>
        match transactionBody userId totalAmount items productDetails s1 with
        | (Throw, s2) => (Throw, release (snd (query_rollback s2)))
        | (r, s2) => (r, release s2)
        end
    | (Reply r, s1) => (Reply r, s1)
    | (Throw, s1) => (Throw, s1)
    end.

(** The outer [try/catch] of a route: what was thrown becomes a 500.  The
    body of a route has no way to end but a response or a throw. *)
Definition handle (m : M Empty_set) (s : State) : Response * State :=
  match m s with
  | (Reply r, s') => (r, s')
  | (Next nothing, s') => match nothing with end
  | (Throw, s') => (errorJson 500 "Internal server error", s')
  end.

(** [app.post('/api/orders', ...)] *)
Definition createOrder (b : Body) : State -> Response * State :=
  handle
    match orderSchema b with
    | inl message => reply (errorJson 400 message)
    | inr value =>
        let* _ := verifyUser (userId value) in
        let* productDetails := verifyProducts (items value) ∅ in
        match reduceTotal productDetails (items value) with
        | None => throw
        | Some totalAmount =>
            transaction (userId value) totalAmount (items value) productDetails
        end
    end.

(** [pool.query('SELECT ... FROM order_items WHERE order_id = $1', [id])] *)
Definition query_items (orderId : Z) : M (list OrderItem.t) :=
  fun s =>
    let s1 := emit (DbCall (SelectItems orderId)) s in
    if fault (SelectItems orderId) then (Throw, s1)
    else (Next (filter (fun r => OrderItem.order_id r = orderId) (order_items (db s1))), s1).

(** Get user name: any failure of the lookup leaves ['Unknown User']. *)
Definition fetchUserName (userId : Z) : M string :=
  fun s =>
    let '(r, s1) := axios_get_user userId s in
    match r with
    | HttpOk user => (Next (User.name user), s1)
    | _ => (Next "Unknown User", s1)
    end.

(** The loop of [GET /api/orders]. *)
Fixpoint enrichWithUser (rows : list Order.t) (acc : list Json) : M (list Json) :=
  match rows with
  | [] => ret acc
  | order :: rest =>
      let* itemRows := query_items (Order.id order) in
      let* userName := fetchUserName (Order.user_id order) in
      enrichWithUser rest (acc ++ [withItems order [("userName", JStr userName)] itemRows])
  end.

(** The loop of [GET /api/orders/user/:userId]. *)
Fixpoint enrich (rows : list Order.t) (acc : list Json) : M (list Json) :=
  match rows with
  | [] => ret acc
  | order :: rest =>
      let* itemRows := query_items (Order.id order) in
      enrich rest (acc ++ [withItems order [] itemRows])
  end.

(** [pool.query] of a [SELECT ... FROM orders ...] at call site [op]. *)
Definition query_orders (op : DbOp) (keep : Order.t -> bool) : M (list Order.t) :=
  fun s =>
    let s1 := emit (DbCall op) s in
    if fault op then (Throw, s1)
    else (Next (filter (fun o => keep o = true) (orders (db s1))), s1).

(** [app.get('/api/orders', ...)] *)
Definition getOrders : State -> Response * State :=
  handle
    (let* rows := query_orders SelectOrders (fun _ => true) in
     let* out := enrichWithUser (orderByDesc Order.created_at rows) [] in
     reply (mkResponse 200 (JObj [("orders", JArr out)]))).

(** [app.get('/api/orders/:id', ...)] *)
Definition getOrder (id : Z) : State -> Response * State :=
  handle
    (let* rows := query_orders SelectOrder (fun o => Order.id o =? id) in
     match rows with
     | [] => reply (errorJson 404 "Order not found")
     | order :: _ =>
         let* itemRows := query_items id in
         let* userName := fetchUserName (Order.user_id order) in
         reply (mkResponse 200
                  (JObj [("order", withItems order [("userName", JStr userName)] itemRows)]))
     end).

Definition setStatus (st : string) (o : Order.t) : Order.t :=
  Order.mk (Order.id o) (Order.user_id o) (Order.total_amount o) st (Order.created_at o) now.

(** [UPDATE orders SET status = $1, updated_at = NOW() WHERE id = $2
    RETURNING ...] *)
Definition query_update_status (st : string) (id : Z) : M (list Order.t) :=
  fun s =>
    let s1 := emit (DbCall UpdateStatus) s in
    if fault UpdateStatus then (Throw, s1)
    else
      let changed := setStatus st <$> filter (fun o => Order.id o = id) (orders (db s1)) in
      if forallb orderOk changed then
        (Next changed,
         mkState (world s1)
           (mkDb ((fun o => if Order.id o =? id then setStatus st o else o) <$> orders (db s1))
              (order_items (db s1)) (orders_id_seq (db s1)) (order_items_id_seq (db s1)))
           (txn s1) (log s1))
      else (Throw, s1).

(** [app.put('/api/orders/:id', ...)] *)
Definition updateOrder (id : Z) (b : Body) : State -> Response * State :=
  handle
    match updateOrderSchema b with
    | inl message => reply (errorJson 400 message)
    | inr st =>
        let* rows := query_update_status st id in
        match rows with
        | [] => reply (errorJson 404 "Order not found")
        | order :: _ =>
            reply (mkResponse 200
                     (JObj [("message", JStr "Order status updated successfully");
                            ("order", orderFields order [])]))
        end
    end.

(** [app.get('/api/orders/user/:userId', ...)] *)
Definition getUserOrders (userId : Z) : State -> Response * State :=
  handle
    (let* rows := query_orders SelectUserOrders (fun o => Order.user_id o =? userId) in
     let* out := enrich (orderByDesc Order.created_at rows) [] in
     reply (mkResponse 200 (JObj [("orders", JArr out)]))).

(** [app.get('/health', ...)] *)
Definition health (s : State) : Response * State :=
  (mkResponse 200
     (JObj [("status", JStr "OK"); ("service", JStr "Order Service");
            ("timestamp", JTime now)]), s).

(** 404 handler *)
Definition notFound (s : State) : Response * State :=
  (errorJson 404 "Route not found", s).

(** The routes in the order they are registered; the first that matches
    the method and the path serves the request, and [app.use('*', ...)]
    takes what none matches. *)
Definition app (r : Request) : State -> Response * State :=
  match method r, path r with
  | GET, Health => health
  | POST, Orders => createOrder (reqBody r)
  | GET, Orders => getOrders
  | GET, OrderById id => getOrder id
  | PUT, OrderById id => updateOrder id (reqBody r)
  | GET, OrdersByUser userId => getUserOrders userId
  | _, _ => notFound
  end.
End Handlers.

Arguments mkState {W} world db txn log.
Arguments world {W} s.
Arguments db {W} s.
Arguments txn {W} s.
Arguments log {W} s.

End OrderService.

(** ** The three services together

    The order service reaches the other two over HTTP only.  Here its two
    outbound GET requests are answered by the user service and the product
    service themselves, each on its own database. *)

Module System.

Record Services := mkServices {
  userDb : UserService.Db;
  productDb : ProductService.Db
}.

(** [value[k]] of a JSON object. *)
Definition field (k : string) (j : Json) : option Json :=
  match j with
  | JObj fs => snd <$> find (fun kv => bool_decide (fst kv = k)) fs
  | _ => None
  end.

(** [productResponse.data.product] with the three fields the order service
    reads. *)
Definition decodeProduct (data : Json) : option OrderService.Product.t :=
  match field "product" data with
  | Some product =>
      match field "price" product, field "name" product, field "stock" product with
      | Some (JDec p), Some (JStr n), Some (JInt s) => Some (OrderService.Product.mk p n s)
      | _, _, _ => None
      end
  | None => None
  end.

(** [userResponse.data.user] *)
Definition decodeUser (data : Json) : option OrderService.User.t :=
  match field "user" data with
  | Some user =>
      match field "name" user with
      | Some (JStr n) => Some (OrderService.User.mk n)
      | _ => None
      end
  | None => None
  end.

(** The promise of an [axios.get], from the response the service sent: it
    resolves on a 2xx status and is rejected on the others. *)
Definition settle {A} (decode : Json -> option A) (res : Response) : HttpResult A :=
  if (200 <=? statusCode res) && (statusCode res <? 300) then
    match decode (body res) with
    | Some a => HttpOk a
    | None => HttpNoResponse
    end
  else HttpStatus (statusCode res).

Section Wiring.
Variable userFault : UserService.Stmt -> bool.
Variable productFault : ProductService.Stmt -> bool.
Variable orderFault : OrderService.DbOp -> bool.
(** Whether the user service and the product service can be reached. *)
Variable userUp productUp : bool.
Variable now : Z.
Variable isEmail : string -> bool.
Variable bcrypt_hash : string -> string.
Variable bcrypt_compare : string -> string -> bool.
Variable jwt_sign : Z -> string -> string.

(** GET [/api/users/:id] on the user service. *)
Definition getUser (userId : Z) (w : Services)
  : HttpResult OrderService.User.t * Services :=
  if userUp then
    let '(res, udb) :=
      UserService.serve userFault now isEmail bcrypt_hash bcrypt_compare jwt_sign
        (UserService.GET_user userId) (userDb w) in
    (settle decodeUser res, mkServices udb (productDb w))
  else (HttpNoResponse, w).

(** GET [/api/products/:id] on the product service. *)
Definition getProduct (productId : Z) (w : Services)
  : HttpResult OrderService.Product.t * Services :=
  if productUp then
    let '(res, pdb) :=
      ProductService.serve productFault now (ProductService.GET_product productId)
        (productDb w) in
    (settle decodeProduct res, mkServices (userDb w) pdb)
  else (HttpNoResponse, w).

Definition orderApp (r : OrderService.Request)
  : OrderService.State Services -> Response * OrderService.State Services :=
  OrderService.app Services getUser getProduct orderFault now r.

Definition createOrder (b : OrderService.Body)
  : OrderService.State Services -> Response * OrderService.State Services :=
  OrderService.createOrder Services getUser getProduct orderFault now b.
End Wiring.

End System.

(** * Sample data *)

Module Samples.

Definition noFault {A : Type} : A -> bool := fun _ => false.

Definition widget : ProductService.Product.t :=
  ProductService.Product.mk 1 "Widget" "A widget" 1000 5 "Tools" 7 7.

Definition widgetDb : ProductService.Db := ProductService.mkDb [widget] 1.

(** The body [{"price": 150}]. *)
Definition priceOnly : ProductService.ProductBody :=
  ProductService.mkBody None None (Some 15000) None None.


(** A user service that knows every user, one that knows none, and a product
    service whose every product is the widget above; none of them has state. *)
Definition knownUser (userId : Z) (w : unit) : HttpResult OrderService.User.t * unit :=
  (HttpOk (OrderService.User.mk "Alice"), w).

Definition unknownUser (userId : Z) (w : unit) : HttpResult OrderService.User.t * unit :=
  (HttpStatus 404, w).

Definition widgetLookup (productId : Z) (w : unit)
  : HttpResult OrderService.Product.t * unit :=
  (HttpOk (OrderService.Product.mk 1000 "Widget" 5), w).

Definition noOrders : OrderService.State unit :=
  OrderService.mkState tt (OrderService.mkDb [] [] 0 0) None [].

(** The body [{"userId": u, "items": [{"productId": 1, "quantity": q}]}]. *)
Definition orderWidgets (u q : Z) : OrderService.Body :=
  OrderService.mkBody (Some u)
    (Some [OrderService.mkItemBody (Some 1) (Some q)]) None.

(** Two lines of the same product, the second asking for [q]. *)
Definition orderTwoLines (u q : Z) : OrderService.Body :=
  OrderService.mkBody (Some u)
    (Some [OrderService.mkItemBody (Some 1) (Some 3);
           OrderService.mkItemBody (Some 1) (Some q)]) None.

(** A first line for one unit of product 2, then a line for [q] widgets. *)
Definition orderMissingFirst (u q : Z) : OrderService.Body :=
  OrderService.mkBody (Some u)
    (Some [OrderService.mkItemBody (Some 2) (Some 1);
           OrderService.mkItemBody (Some 1) (Some q)]) None.

(** The registration of the end-to-end scenario, and stand-ins for the
    hashing, comparing and signing functions. *)
Definition alice : UserService.Body :=
  UserService.mkBody (Some "a@x.com") (Some "secret1") (Some "Alice").

(** The same registration with another password, and another hashing
    function. *)
Definition aliceOtherPassword : UserService.Body :=
  UserService.mkBody (Some "a@x.com") (Some "another password") (Some "Alice").

Definition hashOther (p : string) : string := "#".

Definition anyEmail (s : string) : bool := true.
Definition hashOf (p : string) : string := "$" +:+ p.
Definition hashMatches (p h : string) : bool := bool_decide (hashOf p = h).
Definition tokenOf (userId : Z) (email : string) : string := "token:" +:+ email.

Definition newWidget : ProductService.ProductBody :=
  ProductService.mkBody (Some "Widget") (Some "A widget") (Some 1000) (Some 5) (Some "Tools").

(** The three services with one user and one product, and no order yet. *)
Definition oneUser : UserService.Db :=
  (UserService.register noFault 3 anyEmail hashOf alice (UserService.mkDb [] 0)).2.

Definition oneProduct : ProductService.Db :=
  (ProductService.createProduct noFault 7 (ProductService.Keys newWidget) (ProductService.mkDb [] 0)).2.

Definition shop : OrderService.State System.Services :=
  OrderService.mkState (System.mkServices oneUser oneProduct)
    (OrderService.mkDb [] [] 0 0) None [].


(** Runs of [createOrder] on the stateless services: a first order of three
    widgets by a known user; an order of ten by an unknown user; an order of
    three and then ten by a known user. *)
Definition firstOrder : Response * OrderService.State unit :=
  OrderService.createOrder unit knownUser widgetLookup noFault 11 (orderWidgets 1 3) noOrders.

Definition strangerOrder : Response * OrderService.State unit :=
  OrderService.createOrder unit unknownUser widgetLookup noFault 11 (orderWidgets 2 10)
    noOrders.

Definition greedyOrder : Response * OrderService.State unit :=
  OrderService.createOrder unit knownUser widgetLookup noFault 11 (orderTwoLines 1 10)
    noOrders.

(** A database on which the insert of the second line fails, and only it. *)
Definition failSecondInsert (op : OrderService.DbOp) : bool :=
  match op with
  | OrderService.InsertItem 1 => true
  | _ => false
  end.

(** The table of [oneUser] with another hash stored for Alice. *)
Definition oneUserRehashed : UserService.Db :=
  UserService.mkDb [UserService.mkUser 1 "a@x.com" "$another" "Alice" 3 3] 1.

(** Order creation on the three services together. *)
Definition shopOrder (b : OrderService.Body) (s : OrderService.State System.Services)
  : Response * OrderService.State System.Services :=
  System.createOrder noFault noFault noFault true true 11 anyEmail hashOf hashMatches
    tokenOf b s.

End Samples.


(** * Vocabulary of the properties *)

Module Vocabulary.

(** The [users] table with the password column blanked. *)
Definition hidePassword (u : UserService.UserRow) : UserService.UserRow :=
  UserService.mkUser (UserService.id u) (UserService.email u) ""
    (UserService.name u) (UserService.created_at u) (UserService.updated_at u).

Definition hidePasswords (db : UserService.Db) : UserService.Db :=
  UserService.mkDb (hidePassword <$> UserService.users db) (UserService.users_id_seq db).

(** PostgreSQL does not execute a statement whose parameter for an INTEGER
    column is out of the range of INTEGER.  The database of a request of
    the user service, or of the product service, that names the id [i]: the
    statements that take the id fail when [i] is out of that range, and
    every other call is answered. *)
Definition userDbFor (i : Z) (st : UserService.Stmt) : bool :=
  match st with
  | UserService.SelectOne | UserService.Update | UserService.Delete => negb (fitsInteger i)
  | _ => false
  end.

Definition productDbFor (i : Z) (st : ProductService.Stmt) : bool :=
  match st with
  | ProductService.SelectOne | ProductService.Update | ProductService.Delete =>
      negb (fitsInteger i)
  | _ => false
  end.

Definition isLogin (r : UserService.Request) : bool :=
  match r with
  | UserService.POST_login _ => true
  | _ => false
  end.


(** Outbound HTTP calls and database calls among the events of a request. *)
Definition isHttp (e : OrderService.Event) : bool :=
  match e with
  | OrderService.HttpGetUser _ _ | OrderService.HttpGetProduct _ _ => true
  | OrderService.DbCall _ => false
  end.

Definition isDbCall (e : OrderService.Event) : bool :=
  match e with
  | OrderService.DbCall _ => true
  | _ => false
  end.

(** What the product service answered to the last successful lookup of
    product [productId] among the events. *)
Fixpoint fetched (productId : Z) (evs : list OrderService.Event)
  : option OrderService.Product.t :=
  match evs with
  | [] => None
  | e :: rest =>
      match fetched productId rest with
      | Some p => Some p
      | None =>
          match e with
          | OrderService.HttpGetProduct i (HttpOk p) =>
              if i =? productId then Some p else None
          | _ => None
          end
      end
  end.

Definition sumZ (l : list Z) : Z := foldr Z.add 0 l.

(** Price times quantity of a stored line. *)
Definition lineAmount (r : OrderService.OrderItem.t) : Z :=
  OrderService.OrderItem.price r * OrderService.OrderItem.quantity r.

(** The row stored for a line of the request: it belongs to the order, names
    the product and the quantity of the line, and carries the price and the
    name found in [productDetails]. *)
Definition snapshot (productDetails : gmap Z OrderService.Product.t) (orderId : Z)
    (item : OrderService.Item.t) (row : OrderService.OrderItem.t) : Prop :=
  OrderService.OrderItem.order_id row = orderId
  ∧ OrderService.OrderItem.product_id row = OrderService.Item.productId item
  ∧ OrderService.OrderItem.quantity row = OrderService.Item.quantity item
  ∧ ∃ d, productDetails !! OrderService.Item.productId item = Some d
         ∧ OrderService.OrderItem.price row = OrderService.Product.price d
         ∧ OrderService.OrderItem.product_name row = OrderService.Product.name d.

(** The same, with the price and the name traced back to what the product
    service answered during the request. *)
Definition stored (evs : list OrderService.Event) (orderId : Z)
    (item : OrderService.Item.t) (row : OrderService.OrderItem.t) : Prop :=
  OrderService.OrderItem.order_id row = orderId
  ∧ OrderService.OrderItem.product_id row = OrderService.Item.productId item
  ∧ OrderService.OrderItem.quantity row = OrderService.Item.quantity item
  ∧ ∃ p, fetched (OrderService.Item.productId item) evs = Some p
         ∧ OrderService.OrderItem.price row = OrderService.Product.price p
         ∧ OrderService.OrderItem.product_name row = OrderService.Product.name p.

(** What of an order row is fixed when the order is created. *)
Definition frozen (o : OrderService.Order.t) : Z * Z * Z * Z :=
  (OrderService.Order.id o, OrderService.Order.user_id o,
   OrderService.Order.total_amount o, OrderService.Order.created_at o).


(** A step of a handler that leaves the committed database as it found it. *)
Definition keepsDb {W A : Type} (m : OrderService.State W -> OrderService.Step A * OrderService.State W) : Prop :=
  forall s, OrderService.db (m s).2 = OrderService.db s.

(** A line of the request and the event of its lookup: the product service
    answered, with enough stock for the line. *)
Definition lookupOf (item : OrderService.Item.t) (e : OrderService.Event) : Prop :=
  ∃ p, e = OrderService.HttpGetProduct (OrderService.Item.productId item) (HttpOk p)
       ∧ OrderService.Item.quantity item <= OrderService.Product.stock p.

(** None of the calls of a transaction over [n] lines fails. *)
Definition noFaultIn (fault : OrderService.DbOp -> bool) (n : nat) : Prop :=
  fault OrderService.Connect = false
  ∧ fault OrderService.Begin = false
  ∧ fault OrderService.InsertOrder = false
  ∧ (forall j, (j < n)%nat -> fault (OrderService.InsertItem j) = false)
  ∧ fault OrderService.Commit = false.

(** The lookups of the lines [lines], made one after the other from the
    state [w] of the product service, all find the product with enough
    stock; the result is the state they leave. *)
Fixpoint linesPass {W : Type} (getProduct : Z -> W -> HttpResult OrderService.Product.t * W)
    (lines : list OrderService.Item.t) (w : W) : option W :=
  match lines with
  | [] => Some w
  | item :: rest =>
      match getProduct (OrderService.Item.productId item) w with
      | (HttpOk p, w') =>
          if OrderService.Product.stock p <? OrderService.Item.quantity item then None
          else linesPass getProduct rest w'
      | _ => None
      end
  end.

(** The request that took the order service from [s] to [s'] made HTTP
    lookups only, and left the database, its id sequences and the
    transaction state as they were. *)
Definition lookupsOnly {W : Type} (s s' : OrderService.State W) : Prop :=
  OrderService.db s' = OrderService.db s
  ∧ OrderService.txn s' = OrderService.txn s
  ∧ ∃ evs, OrderService.log s' = OrderService.log s ++ evs
           ∧ Forall (fun e => isHttp e = true) evs.

(** How a run of [createOrder] on body [b] from state [s] may end, [res] being
    the response and the state it leaves: the events of the request are HTTP
    lookups followed by database calls; database calls are made only once
    the payload, the user and every line have passed, and the first of them
    takes the connection from the pool; and either no call of
    the transaction failed and the order and one row per line are committed,
    with the prices and names the lookups returned and their total, or the
    two tables are as before. *)
Definition createOrderOutcome {W : Type} (fault : OrderService.DbOp -> bool)
    (b : OrderService.Body) (s : OrderService.State W)
    (res : Response * OrderService.State W) : Prop :=
  ∃ httpEvs dbEvs,
    OrderService.log res.2 = OrderService.log s ++ httpEvs ++ dbEvs
    ∧ Forall (fun e => isHttp e = true) httpEvs
    ∧ Forall (fun e => isDbCall e = true) dbEvs
    ∧ (dbEvs ≠ [] ->
       ∃ value user evs rest,
         OrderService.orderSchema b = inr value
         ∧ httpEvs = OrderService.HttpGetUser (OrderService.userId value) (HttpOk user) :: evs
         ∧ Forall2 lookupOf (OrderService.items value) evs
         ∧ dbEvs = OrderService.DbCall OrderService.Connect :: rest)
    ∧ ((∃ value order rows,
          OrderService.orderSchema b = inr value
          ∧ res.1 = OrderService.created order rows
          ∧ OrderService.orders (OrderService.db res.2)
            = OrderService.orders (OrderService.db s) ++ [order]
          ∧ OrderService.order_items (OrderService.db res.2)
            = OrderService.order_items (OrderService.db s) ++ rows
          ∧ Forall2 (stored httpEvs (OrderService.Order.id order))
              (OrderService.items value) rows
          ∧ OrderService.Order.user_id order = OrderService.userId value
          ∧ OrderService.Order.total_amount order = sumZ (lineAmount <$> rows)
          ∧ OrderService.Order.status order = "pending"
          ∧ noFaultIn fault (length (OrderService.items value)))
       ∨ (statusCode res.1 ≠ 201
          ∧ OrderService.orders (OrderService.db res.2)
            = OrderService.orders (OrderService.db s)
          ∧ OrderService.order_items (OrderService.db res.2)
            = OrderService.order_items (OrderService.db s))).

(** The inserts among the database calls, and the calls that may lie
    between BEGIN and a ROLLBACK. *)
Definition isInsert (e : OrderService.Event) : bool :=
  match e with
  | OrderService.DbCall OrderService.InsertOrder
  | OrderService.DbCall (OrderService.InsertItem _) => true
  | _ => false
  end.

Definition isInsertOrCommit (e : OrderService.Event) : bool :=
  match e with
  | OrderService.DbCall OrderService.Commit => true
  | _ => isInsert e
  end.

(** The database calls of one run of the transaction of [createOrder], with
    the way the run ends: the pool gives no client; or the inserts are
    committed and the client released; or the transaction is rolled back
    and the client released. *)
Definition transactionCalls (fault : OrderService.DbOp -> bool)
    (evs : list OrderService.Event) (committed : bool) : Prop :=
  (fault OrderService.Connect = true
   ∧ evs = [OrderService.DbCall OrderService.Connect] ∧ committed = false)
  ∨ (∃ ins, Forall (fun e => isInsert e = true) ins
            ∧ evs = OrderService.DbCall OrderService.Connect
                    :: OrderService.DbCall OrderService.Begin
                    :: ins ++ [OrderService.DbCall OrderService.Commit;
                               OrderService.DbCall OrderService.Release]
            ∧ committed = true)
  ∨ (∃ mid, Forall (fun e => isInsertOrCommit e = true) mid
            ∧ evs = OrderService.DbCall OrderService.Connect
                    :: OrderService.DbCall OrderService.Begin
                    :: mid ++ [OrderService.DbCall OrderService.Rollback;
                               OrderService.DbCall OrderService.Release]
            ∧ committed = false).

End Vocabulary.

(** * Vocabulary of the further properties *)

Module Invariants.

(** What the [products] table keeps: ids are unique and were drawn from the
    sequence, and every row satisfies the constraints of the table. *)
Definition productsOk (db : ProductService.Db) : Prop :=
  NoDup (ProductService.Product.ID <$> ProductService.products db)
  ∧ Forall (fun p => ProductService.Product.ID p <= ProductService.products_id_seq db)
      (ProductService.products db)
  ∧ Forall (fun p => ProductService.rowOk p = true) (ProductService.products db).

(** The create bodies that pass the binding: every string present and not
    empty, price and stock present and positive. *)
Definition createAccepted (b : ProductService.ProductBody) : bool :=
  negb (bool_decide (default "" (ProductService.name b) = ""))
  && negb (bool_decide (default "" (ProductService.description b) = ""))
  && (0 <? default 0 (ProductService.price b))
  && (0 <? default 0 (ProductService.stock b))
  && negb (bool_decide (default "" (ProductService.category b) = "")).

(** The row an update leaves in place of [p]: a string replaces the stored
    one when it is not empty, the price when it is positive, and the stock
    whenever it is not negative. *)
Definition updatedProduct (now : Z) (req : ProductService.UpdateProductRequest.t)
    (p : ProductService.Product.t) : ProductService.Product.t :=
  ProductService.Product.mk (ProductService.Product.ID p)
    (if bool_decide (ProductService.UpdateProductRequest.Name req = "")
     then ProductService.Product.Name p else ProductService.UpdateProductRequest.Name req)
    (if bool_decide (ProductService.UpdateProductRequest.Description req = "")
     then ProductService.Product.Description p
     else ProductService.UpdateProductRequest.Description req)
    (if 0 <? ProductService.UpdateProductRequest.Price req
     then ProductService.UpdateProductRequest.Price req else ProductService.Product.Price p)
    (if 0 <=? ProductService.UpdateProductRequest.Stock req
     then ProductService.UpdateProductRequest.Stock req else ProductService.Product.Stock p)
    (if bool_decide (ProductService.UpdateProductRequest.Category req = "")
     then ProductService.Product.Category p
     else ProductService.UpdateProductRequest.Category req)
    (ProductService.Product.CreatedAt p) now.

(** The update bodies that name no field to set. *)
Definition nothingToSet (req : ProductService.UpdateProductRequest.t) : bool :=
  bool_decide (ProductService.UpdateProductRequest.Name req = "")
  && bool_decide (ProductService.UpdateProductRequest.Description req = "")
  && negb (0 <? ProductService.UpdateProductRequest.Price req)
  && negb (0 <=? ProductService.UpdateProductRequest.Stock req)
  && bool_decide (ProductService.UpdateProductRequest.Category req = "").

(** What the [users] table keeps: ids are unique and were drawn from the
    sequence, emails are unique, and every column fits its size. *)
Definition usersOk (db : UserService.Db) : Prop :=
  NoDup (UserService.id <$> UserService.users db)
  ∧ NoDup (UserService.email <$> UserService.users db)
  ∧ Forall (fun u => UserService.id u <= UserService.users_id_seq db) (UserService.users db)
  ∧ Forall (fun u => UserService.rowOk u = true) (UserService.users db).

(** The register bodies that pass [userSchema]: the three keys present, an
    email that is not empty and has the form of one, a password of length
    six or more and a name of length two or more, lengths being those of
    the JavaScript strings. *)
Definition registerAccepted (isEmail : string -> bool) (b : UserService.Body) : bool :=
  match UserService.b_email b, UserService.b_password b, UserService.b_name b with
  | Some e, Some p, Some n =>
      negb (bool_decide (e = "")) && isEmail e
      && (6 <=? jsLength p)%nat && (2 <=? jsLength n)%nat
  | _, _, _ => false
  end.

(** A line of a create-order payload and the line the schema returns for
    it: both keys present, both positive safe integers. *)
Definition validLine (it : OrderService.ItemBody) (item : OrderService.Item.t) : Prop :=
  OrderService.b_productId it = Some (OrderService.Item.productId item)
  ∧ OrderService.b_quantity it = Some (OrderService.Item.quantity item)
  ∧ 0 < OrderService.Item.productId item <= 9007199254740991
  ∧ 0 < OrderService.Item.quantity item <= 9007199254740991.

(** The name the read routes show for the owner of an order. *)
Definition shownName (r : HttpResult OrderService.User.t) : string :=
  match r with
  | HttpOk user => OrderService.User.name user
  | _ => "Unknown User"
  end.

(** What the two tables of the order service keep, for given values of the
    two id sequences: ids are unique and were drawn from the sequences,
    every order satisfies the constraints of [orders], and every line those
    of [order_items], the reference to a stored order among them. *)
Definition tablesOk (t : OrderService.Tables) (orderSeq itemSeq : Z) : Prop :=
  NoDup (OrderService.Order.id <$> t.1)
  ∧ Forall (fun o => OrderService.Order.id o <= orderSeq) t.1
  ∧ Forall (fun o => OrderService.orderOk o = true) t.1
  ∧ NoDup (OrderService.OrderItem.id <$> t.2)
  ∧ Forall (fun r => OrderService.OrderItem.id r <= itemSeq) t.2
  ∧ Forall (fun r => OrderService.itemOk t.1 r = true) t.2.

(** The same of a state of the service: of the committed tables and, when a
    transaction is open, of the tables as the transaction sees them. *)
Definition stateOk {W : Type} (s : OrderService.State W) : Prop :=
  tablesOk (OrderService.orders (OrderService.db s),
            OrderService.order_items (OrderService.db s))
    (OrderService.orders_id_seq (OrderService.db s))
    (OrderService.order_items_id_seq (OrderService.db s))
  ∧ forall t, OrderService.txn s = Some t ->
      tablesOk t (OrderService.orders_id_seq (OrderService.db s))
        (OrderService.order_items_id_seq (OrderService.db s)).

(** A step of a handler that keeps the tables well formed. *)
Definition keepsOk {W A : Type}
    (m : OrderService.State W -> OrderService.Step A * OrderService.State W) : Prop :=
  forall s, stateOk s -> stateOk (m s).2.

(** The product a lookup found, if it found one. *)
Definition found {A : Type} (r : HttpResult A) : option A :=
  match r with
  | HttpOk a => Some a
  | _ => None
  end.

(** What the product service answers for each product id while it is in
    state [w]. *)
Definition productAt {W : Type}
    (getProduct : Z -> W -> HttpResult OrderService.Product.t * W) (w : W)
  : Z -> option OrderService.Product.t :=
  fun i => found (getProduct i w).1.

(** A line whose product is found with enough stock, and whose row fits the
    columns of [order_items] with a positive price. *)
Definition lineOk (product : Z -> option OrderService.Product.t)
    (item : OrderService.Item.t) : bool :=
  match product (OrderService.Item.productId item) with
  | Some p =>
      (OrderService.Item.quantity item <=? OrderService.Product.stock p)
      && fitsInteger (OrderService.Item.productId item)
      && fitsInteger (OrderService.Item.quantity item)
      && fitsDecimal_10_2 (OrderService.Product.price p)
      && (0 <? OrderService.Product.price p)
      && fitsVarchar 255 (OrderService.Product.name p)
  | None => false
  end.

(** The rows stored for the lines of an order, with ids from [firstId] on. *)
Fixpoint lineRows (now orderId : Z) (product : Z -> option OrderService.Product.t)
    (firstId : Z) (items : list OrderService.Item.t) : list OrderService.OrderItem.t :=
  match items with
  | [] => []
  | item :: rest =>
      match product (OrderService.Item.productId item) with
      | Some p =>
          [OrderService.OrderItem.mk firstId orderId (OrderService.Item.productId item)
             (OrderService.Item.quantity item) (OrderService.Product.price p)
             (OrderService.Product.name p) now]
      | None => []
      end ++ lineRows now orderId product (firstId + 1) rest
  end.

(** Price times quantity, summed over the lines. *)
Definition orderTotal (product : Z -> option OrderService.Product.t)
    (items : list OrderService.Item.t) : Z :=
  Vocabulary.sumZ
    ((fun item =>
        match product (OrderService.Item.productId item) with
        | Some p => OrderService.Product.price p * OrderService.Item.quantity item
        | None => 0
        end) <$> items).

(** What the order service reads of the product and of the user stored
    under an id, if one is. *)
Definition storedProduct (pdb : ProductService.Db) (i : Z) : option OrderService.Product.t :=
  match filter (fun p => ProductService.hasId i p = true) (ProductService.products pdb) with
  | p :: _ =>
      Some (OrderService.Product.mk (ProductService.Product.Price p)
              (ProductService.Product.Name p) (ProductService.Product.Stock p))
  | [] => None
  end.

Definition storedUser (udb : UserService.Db) (i : Z) : option OrderService.User.t :=
  match filter (fun u => UserService.id u = i) (UserService.users udb) with
  | u :: _ => Some (OrderService.User.mk (UserService.name u))
  | [] => None
  end.

(** Timestamps from the newest to the oldest. *)
Fixpoint newestFirst (ts : list Z) : Prop :=
  match ts with
  | [] => True
  | t :: rest => Forall (fun u => u <= t) rest ∧ newestFirst rest
  end.

End Invariants.

(** * More sample data *)

Module Cases.

(** A users table with Alice and Bob. *)
Definition aliceRow : UserService.UserRow :=
  UserService.mkUser 1 "a@x.com" "$secret1" "Alice" 3 3.

Definition bobRow : UserService.UserRow :=
  UserService.mkUser 2 "b@x.com" "$secret2" "Bob" 5 5.

Definition twoUsers : UserService.Db := UserService.mkDb [aliceRow; bobRow] 2.

(** The bodies [{"name": "Alicia"}] and [{"email": "a@x.com"}]. *)
Definition renameAlice : UserService.Body := UserService.mkBody None None (Some "Alicia").
Definition takeAliceEmail : UserService.Body :=
  UserService.mkBody (Some "a@x.com") None None.

Definition aliceLogin : UserService.Body :=
  UserService.mkBody (Some "a@x.com") (Some "secret1") None.

(** An order database with one delivered order of three widgets. *)
Definition deliveredOrder : OrderService.Order.t :=
  OrderService.Order.mk 1 1 3000 "delivered" 11 11.

Definition oneOrder : OrderService.State unit :=
  OrderService.mkState tt
    (OrderService.mkDb [deliveredOrder]
       [OrderService.OrderItem.mk 1 1 1 3 1000 "Widget" 11] 1 1)
    None [].

(** The body [{"status": st}]. *)
Definition setTo (st : string) : OrderService.Body :=
  OrderService.mkBody None None (Some st).

Definition postOrder (b : OrderService.Body) : OrderService.Request :=
  OrderService.mkRequest OrderService.POST OrderService.Orders b.

(** The order service of the samples, on stateless neighbours. *)
Definition widgetShop (b : OrderService.Body) (s : OrderService.State unit)
  : Response * OrderService.State unit :=
  OrderService.createOrder unit Samples.knownUser Samples.widgetLookup Samples.noFault 11 b s.

(** A product service that knows no product. *)
Definition noProduct (productId : Z) (w : unit)
  : HttpResult OrderService.Product.t * unit :=
  (HttpStatus 404, w).

End Cases.
(** * Properties *)

(** ** Lists *)

Section Lists.
Context {A : Type}.

Lemma filter_none (P : A -> Prop) `{!∀ x, Decision (P x)} (l : list A) :
  Forall (fun x => ¬ P x) l -> filter P l = [].
Proof.
  induction 1 as [|x l Hx _ IH]; [done|].
  by rewrite filter_cons_False.
Qed.

Lemma filter_fmap_comm (P : A -> Prop) `{!∀ x, Decision (P x)} (f : A -> A) (l : list A) :
  (forall x, P (f x) <-> P x) -> filter P (f <$> l) = f <$> filter P l.
Proof.
  intros Hf. induction l as [|x l IH]; [done|].
  rewrite fmap_cons, !filter_cons.
  destruct (decide (P (f x))) as [Hy|Hn], (decide (P x)) as [Hx|Hx];
    rewrite ?fmap_cons, IH; try done.
  - exfalso. apply Hx. by apply Hf.
  - exfalso. apply Hn. by apply Hf.
Qed.

Lemma insertDesc_fmap (key : A -> Z) (f : A -> A) (x : A) (l : list A) :
  (forall y, key (f y) = key y) ->
  insertDesc key (f x) (f <$> l) = f <$> insertDesc key x l.
Proof.
  intros Hk. induction l as [|y l IH]; [done|].
  rewrite fmap_cons. simpl. rewrite !Hk.
  destruct (key y <? key x); [done|]. by rewrite IH.
Qed.

Lemma orderByDesc_fmap (key : A -> Z) (f : A -> A) (l : list A) :
  (forall y, key (f y) = key y) ->
  orderByDesc key (f <$> l) = f <$> orderByDesc key l.
Proof.
  intros Hk. unfold orderByDesc. induction l as [|y l IH]; [done|].
  rewrite fmap_cons. simpl. rewrite IH. by apply insertDesc_fmap.
Qed.

Lemma forallb_pointwise (P Q : A -> bool) (l : list A) :
  (forall x, P x = Q x) -> forallb P l = forallb Q l.
Proof.
  intros Hf. induction l as [|x l IH]; [done|]. simpl. by rewrite Hf, IH.
Qed.

Lemma forallb_fmap_same (P : A -> bool) (f : A -> A) (l : list A) :
  (forall x, P (f x) = P x) -> forallb P (f <$> l) = forallb P l.
Proof.
  intros Hf. induction l as [|x l IH]; [done|].
  rewrite fmap_cons. simpl. by rewrite Hf, IH.
Qed.
End Lists.

(** ** Product service *)

Section ProductServiceProperties.
Import ProductService.
Variable fault : Stmt -> bool.
Variable now : Z.

Lemma validateCreate_stock_zero (r : CreateProductRequest.t) :
  CreateProductRequest.Stock r = 0 ->
  fieldError "Stock" "required" ∈ validateCreate r.
Proof.
  intros Hz. unfold validateCreate. rewrite Hz. simpl.
  rewrite !elem_of_app. right. right. right. apply list_elem_of_here.
Qed.

Lemma ShouldBindJSON_create_stock_zero (b : ProductBody) :
  default 0 (stock b) = 0 ->
  exists err, ShouldBindJSON_create (Keys b) = inl err.
Proof.
  intros Hz. unfold ShouldBindJSON_create.
  pose proof (validateCreate_stock_zero (decodeCreate b) Hz) as Hin.
  destruct (validateCreate (decodeCreate b)) as [|e errs] eqn:E.
  - by apply elem_of_nil in Hin.
  - eauto.
Qed.

(** A request that carries the price alone makes [updateProduct] build a
    [SET] clause that assigns the price and also assigns 0 to the stock. *)
Lemma buildUpdates_price_only (v : Z) :
  0 < v ->
  buildUpdates (decodeUpdate (mkBody None None (Some v) None None))
  = [SetPrice v; SetStock 0].
Proof.
  intros Hv. unfold buildUpdates, decodeUpdate. simpl.
  destruct (v >? 0) eqn:E; [done | lia].
Qed.

(** On a table that holds one product, whatever it is, the update that
    carries a price alone stores that price and a stock of 0, and keeps the
    name, the description and the category. *)
Lemma updateProduct_price_only (id v seq : Z) (p : Product.t) :
  fault Update = false ->
  0 < v ->
  Product.ID p = id ->
  rowOk (Product.mk id (Product.Name p) (Product.Description p) v 0 (Product.Category p)
           (Product.CreatedAt p) now) = true ->
  updateProduct fault now id (Keys (mkBody None None (Some v) None None)) (mkDb [p] seq)
  = (mkResponse 200
       (JObj [("message", JStr "Product updated successfully");
              ("product",
               productJson
                 (Product.mk id (Product.Name p) (Product.Description p) v 0
                    (Product.Category p) (Product.CreatedAt p) now))]),
     mkDb [Product.mk id (Product.Name p) (Product.Description p) v 0
             (Product.Category p) (Product.CreatedAt p) now] seq).
Proof.
  intros Hf Hv Hid Hok. unfold updateProduct. simpl ShouldBindJSON_update.
  cbv beta iota. rewrite (buildUpdates_price_only v Hv). simpl bool_decide.
  cbv beta iota. unfold queryUpdate. rewrite Hf. simpl products.
  rewrite filter_cons_True by (unfold hasId; lia). rewrite filter_nil.
  destruct p as [i n d pr st c t u]. simpl in *. subst i.
  unfold hasId. simpl. rewrite Z.eqb_refl. unfold assignAll. simpl.
  rewrite Hok. reflexivity.
Qed.

Lemma deleteProduct_no_row (id : Z) (db : Db) :
  fault Delete = false ->
  Forall (fun p => Product.ID p ≠ id) (products db) ->
  deleteProduct fault id db = (errorJson 404 "Product not found", db).
Proof.
  intros Hf Hno. unfold deleteProduct, queryDelete. rewrite Hf.
  rewrite (filter_none (fun p => hasId id p = true)).
  2:{ eapply Forall_impl; [exact Hno|]. intros p Hp. unfold hasId. simpl in *. lia. }
  simpl. f_equal. destruct db as [ps sq]. simpl in *. f_equal.
  induction Hno as [|p l Hp _ IH]; [done|].
  rewrite filter_cons_True; [by f_equal|]. unfold hasId. lia.
Qed.

(** C10.  A create request whose [stock] is exactly 0 is answered 400 and
    stores nothing: the [required] tag of the binding fails on the zero
    value, so the request is treated as one without a [stock] key, although
    the [products] table accepts a stock of 0 like any other non-negative
    stock. *)
Theorem createProduct_stock_zero_rejected
    (n d : option string) (p : option Z) (c : option string) (db : Db) :
  statusCode (createProduct fault now (Keys (mkBody n d p (Some 0) c)) db).1 = 400
  ∧ (createProduct fault now (Keys (mkBody n d p (Some 0) c)) db).2 = db
  ∧ fieldError "Stock" "required"
      ∈ validateCreate (decodeCreate (mkBody n d p (Some 0) c))
  ∧ createProduct fault now (Keys (mkBody n d p (Some 0) c)) db
    = createProduct fault now (Keys (mkBody n d p None c)) db
  ∧ (forall row : Product.t,
       Product.Stock row = 0 ->
       rowOk row = fitsVarchar 255 (Product.Name row)
                   && fitsDecimal_10_2 (Product.Price row) && (0 <? Product.Price row)
                   && fitsVarchar 100 (Product.Category row)).
Proof.
  destruct (ShouldBindJSON_create_stock_zero (mkBody n d p (Some 0) c) eq_refl)
    as [err Herr].
  assert (Hres : createProduct fault now (Keys (mkBody n d p (Some 0) c)) db
                 = (errorJson 400 err, db)).
  { unfold createProduct. by rewrite Herr. }
  split; [by rewrite Hres|]. split; [by rewrite Hres|].
  split; [by apply validateCreate_stock_zero|].
  split.
  - reflexivity.
  - intros row Hrow. unfold rowOk. rewrite Hrow. simpl.
    by rewrite !andb_true_r.
Qed.
End ProductServiceProperties.

(** C1, on the code.  The product of [Samples.widgetDb] has a stock of 5; the
    update [{"price": 150}] is answered 200, and the stored row has the new
    price and a stock of 0: the zero value of the absent [stock] key passes
    the test [req.Stock >= 0] and is written. *)
Theorem updateProduct_price_only_resets_stock :
  ProductService.updateProduct Samples.noFault 9 1 (ProductService.Keys Samples.priceOnly)
    Samples.widgetDb
  = (mkResponse 200
       (JObj [("message", JStr "Product updated successfully");
              ("product",
               ProductService.productJson
                 (ProductService.Product.mk 1 "Widget" "A widget" 15000 0 "Tools" 7 9))]),
     ProductService.mkDb
       [ProductService.Product.mk 1 "Widget" "A widget" 15000 0 "Tools" 7 9] 1)
  ∧ ProductService.Product.Stock Samples.widget = 5.
Proof. split; reflexivity. Qed.

(** ** User service *)

Section JsonKeys.
Lemma hasKey_arr_cons (k : string) (x : Json) (l : list Json) :
  hasKey k (JArr (x :: l)) = hasKey k x || hasKey k (JArr l).
Proof. reflexivity. Qed.

Lemma hasKey_arr_fmap {A : Type} (k : string) (f : A -> Json) (l : list A) :
  (forall x, hasKey k (f x) = false) -> hasKey k (JArr (f <$> l)) = false.
Proof.
  intros Hf. induction l as [|x l IH]; [done|].
  rewrite fmap_cons, hasKey_arr_cons, Hf, IH. done.
Qed.
End JsonKeys.

Section UserServiceProperties.
Import UserService Vocabulary.
Variable fault : Stmt -> bool.
Variable now : Z.
Variable isEmail : string -> bool.
Variable bcrypt_hash : string -> string.
Variable bcrypt_compare : string -> string -> bool.
Variable jwt_sign : Z -> string -> string.

Local Abbreviation serve := (serve fault now isEmail bcrypt_hash bcrypt_compare jwt_sign).

Lemma hasKey_userJson (u : UserRow) (stamp : string) (t : Z) :
  stamp ≠ "password" -> hasKey "password" (userJson u stamp t) = false.
Proof.
  intros Hs. simpl. rewrite (bool_decide_eq_false_2 (stamp = "password")); done.
Qed.

Lemma serve_no_password_key (r : Request) (db : Db) :
  hasKey "password" (body (serve r db).1) = false.
Proof.
  destruct r as [b|b| |i|i b|i]; simpl.
  - unfold register, insertUser.
    repeat (case_match; simplify_eq; try reflexivity).
  - unfold login.
    repeat (case_match; simplify_eq; try reflexivity).
  - unfold getUsers. case_match; [reflexivity|].
    simpl. rewrite orb_false_r.
    apply (hasKey_arr_fmap "password"). intros u. by apply hasKey_userJson.
  - unfold getUser. repeat (case_match; simplify_eq; try reflexivity).
  - unfold updateUser, updateRows.
    repeat (case_match; simplify_eq; try reflexivity).
  - unfold deleteUser, deleteRows.
    repeat (case_match; simplify_eq; try reflexivity).
Qed.

Lemma selectByEmail_hide (s : Stmt) (e : string) (db : Db) :
  selectByEmail fault s e (hidePasswords db)
  = fmap (M := list) hidePassword <$> selectByEmail fault s e db.
Proof.
  unfold selectByEmail. destruct (fault s); [done|]. simpl. f_equal.
  by apply filter_fmap_comm.
Qed.

Lemma emailTaken_hide (e : string) (i : Z) (l : list UserRow) :
  emailTaken e i (hidePassword <$> l) = emailTaken e i l.
Proof.
  unfold emailTaken. induction l as [|u l IH]; [done|].
  rewrite fmap_cons. simpl. by rewrite IH.
Qed.

Lemma insertUser_hide (e p n : string) (db : Db) :
  (insertUser fault now e p n (hidePasswords db)).1 = (insertUser fault now e p n db).1.
Proof.
  unfold insertUser. destruct (fault RegisterInsert); [done|].
  simpl. rewrite emailTaken_hide. by case_match.
Qed.

Lemma updateRows_hide (newName newEmail : option string) (i : Z) (db : Db) :
  (updateRows fault now newName newEmail i (hidePasswords db)).1
  = fmap (M := list) hidePassword <$> (updateRows fault now newName newEmail i db).1.
Proof.
  unfold updateRows. destruct (fault Update); [done|]. simpl.
  rewrite (filter_fmap_comm (fun u => id u = i)) by done.
  rewrite <- !list_fmap_compose.
  rewrite (list_fmap_ext (setFields now newName newEmail ∘ hidePassword)
             (hidePassword ∘ setFields now newName newEmail)) by done.
  rewrite (list_fmap_compose (setFields now newName newEmail) hidePassword).
  rewrite (forallb_fmap_same _ hidePassword) by done.
  rewrite (forallb_pointwise _
             (fun u => assignedOk u && negb (emailTaken (email u) i (users db))))
    by (intros u; by rewrite emailTaken_hide).
  by case_match.
Qed.

Lemma deleteRows_hide (i : Z) (db : Db) :
  (deleteRows fault i (hidePasswords db)).1 = (deleteRows fault i db).1.
Proof.
  unfold deleteRows. destruct (fault Delete); [done|]. simpl. f_equal.
  rewrite (filter_fmap_comm (fun u => id u = i)) by done.
  by rewrite <- list_fmap_compose.
Qed.

(** What a route other than login answers does not depend on the stored
    password hashes. *)
Lemma serve_hides_passwords (r : Request) (db : Db) :
  isLogin r = false ->
  (serve r (hidePasswords db)).1 = (serve r db).1.
Proof.
  intros Hr. destruct r as [b|b| |i|i b|i]; simpl in *; try done.
  - unfold register. destruct (userSchema isEmail b); [done|].
    rewrite selectByEmail_hide.
    destruct (selectByEmail fault RegisterSelect _ db) as [[|u l]|]; simpl; try done.
    pose proof (insertUser_hide (default "" (b_email b))
                  (bcrypt_hash (default "" (b_password b)))
                  (default "" (b_name b)) db) as Hins.
    destruct (insertUser _ _ _ _ _ (hidePasswords db)) as [[u1|] d1],
             (insertUser _ _ _ _ _ db) as [[u2|] d2]; simpl in *; by simplify_eq.
  - unfold getUsers. destruct (fault SelectAll); [done|]. simpl.
    rewrite (orderByDesc_fmap created_at hidePassword) by done.
    by rewrite <- list_fmap_compose.
  - unfold getUser. destruct (fault SelectOne); [done|]. simpl.
    rewrite (filter_fmap_comm (fun u => id u = i)) by done.
    by destruct (filter _ (users db)).
  - unfold updateUser.
    pose proof (updateRows_hide (truthy (b_name b)) (truthy (b_email b)) i db) as Hup.
    destruct (truthy (b_name b)), (truthy (b_email b)); try done;
      destruct (updateRows _ _ _ _ _ (hidePasswords db)) as [[[|u1 l1]|] d1],
               (updateRows _ _ _ _ _ db) as [[[|u2 l2]|] d2];
      simpl in *; by simplify_eq.
  - unfold deleteUser.
    pose proof (deleteRows_hide i db) as Hdel.
    destruct (deleteRows _ _ (hidePasswords db)) as [[[|u1 l1]|] d1],
             (deleteRows _ _ db) as [[[|u2 l2]|] d2];
      simpl in *; by simplify_eq.
Qed.

(** Login either refuses, or answers what it would answer on the blanked
    table to a caller whose password is accepted. *)
Lemma login_hides_passwords (b : Body) (db : Db) :
  statusCode (login fault isEmail bcrypt_compare jwt_sign b db).1 = 401
  ∨ (login fault isEmail bcrypt_compare jwt_sign b db).1
    = (login fault isEmail (fun _ _ => true) jwt_sign b (hidePasswords db)).1.
Proof.
  unfold login. destruct (loginSchema isEmail b); [by right|].
  rewrite selectByEmail_hide.
  destruct (selectByEmail fault LoginSelect _ db) as [[|u l]|]; simpl; try by right.
  destruct (bcrypt_compare _ _); simpl; [by right|by left].
Qed.

Lemma deleteUser_no_row (i : Z) (db : Db) :
  fault Delete = false ->
  Forall (fun u => id u ≠ i) (users db) ->
  deleteUser fault i db = (errorJson 404 "User not found", db).
Proof.
  intros Hf Hno. unfold deleteUser, deleteRows. rewrite Hf.
  rewrite (filter_none (fun u => id u = i)).
  2:{ eapply Forall_impl; [exact Hno|]. by intros u Hu. }
  simpl. f_equal. destruct db as [us sq]. simpl in *. f_equal.
  induction Hno as [|u l Hu _ IH]; [done|].
  rewrite filter_cons_True; [by f_equal|done].
Qed.

(** Registration with any hashing function answers the same on the blanked
    table. *)
Lemma register_hide (hash : string -> string) (b : Body) (db : Db) :
  (register fault now isEmail hash b (hidePasswords db)).1
  = (register fault now isEmail hash b db).1.
Proof.
  unfold register. destruct (userSchema isEmail b); [done|].
  rewrite selectByEmail_hide.
  destruct (selectByEmail fault RegisterSelect _ db) as [[|u l]|]; simpl; try done.
  pose proof (insertUser_hide (default "" (b_email b))
                (hash (default "" (b_password b)))
                (default "" (b_name b)) db) as Hins.
  destruct (insertUser _ _ _ _ _ (hidePasswords db)) as [[u1|] d1],
           (insertUser _ _ _ _ _ db) as [[u2|] d2]; simpl in *; by simplify_eq.
Qed.

(** What registration answers depends on the password of the request and on
    its hash through two decisions only: whether the password passes the
    validation, and whether the hash fits its column. *)
Lemma register_password_free (hash : string -> string) (b b' : Body) (db db' : Db) :
  b_email b' = b_email b ->
  b_name b' = b_name b ->
  joiString "password" 6 (fun _ => true) "" (b_password b')
  = joiString "password" 6 (fun _ => true) "" (b_password b) ->
  fitsVarchar 255 (hash (default "" (b_password b')))
  = fitsVarchar 255 (bcrypt_hash (default "" (b_password b))) ->
  hidePasswords db' = hidePasswords db ->
  (register fault now isEmail hash b' db').1
  = (register fault now isEmail bcrypt_hash b db).1.
Proof.
  intros He Hn Hjoi Hfits Hdb.
  rewrite <- (register_hide hash b' db'), <- (register_hide bcrypt_hash b db), Hdb.
  unfold register, userSchema. rewrite He, Hn, Hjoi.
  destruct (firstError _); [done|].
  destruct (selectByEmail fault RegisterSelect _ _) as [[|u l]|]; try done.
  unfold insertUser. destruct (fault RegisterInsert); [done|].
  unfold rowOk. cbn [email password name]. rewrite Hfits.
  by destruct (_ && _).
Qed.

(** Login, when it does not refuse, answers what it would answer to any
    other password that passes the validation as this one does. *)
Lemma login_password_free (b b' : Body) (db : Db) :
  b_email b' = b_email b ->
  b_name b' = b_name b ->
  joiString "password" 0 (fun _ => true) "" (b_password b')
  = joiString "password" 0 (fun _ => true) "" (b_password b) ->
  (login fault isEmail bcrypt_compare jwt_sign b db).1
  = errorJson 401 "Invalid credentials"
  ∨ (login fault isEmail bcrypt_compare jwt_sign b db).1
    = (login fault isEmail (fun _ _ => true) jwt_sign b' (hidePasswords db)).1.
Proof.
  intros He Hn Hjoi. unfold login, loginSchema. rewrite He, Hn, Hjoi.
  destruct (firstError _); [by right|].
  rewrite selectByEmail_hide.
  destruct (selectByEmail fault LoginSelect _ db) as [[|u l]|]; simpl; try by right.
  destruct (bcrypt_compare _ _); simpl; [by right|by left].
Qed.

(** C8.  Whatever the request, the database and the failures of its calls,
    no key [password] occurs anywhere in the body the user service sends.
    Nor do the stored hashes reach the body by another way: changing them
    changes no answer of register, get-all, get-by-id, update or delete, and
    login uses them for nothing but the decision to refuse with a 401.
    Nor does the password of the request, or its hash: registration answers
    the same for any other password that passes the validation as this one
    does, hashed by any function whose result fits the column as this hash
    does; login either refuses with its one 401, or answers what it would
    answer to any other password that passes the validation as this one
    does, whatever the stored hashes and the hashing function; and update
    does not read the password of its request. *)
Theorem user_service_never_returns_password (r : Request) (db : Db) :
  hasKey "password" (body (serve r db).1) = false
  ∧ (isLogin r = false ->
     forall db' : Db, hidePasswords db' = hidePasswords db ->
                      (serve r db').1 = (serve r db).1)
  ∧ (forall b : Body,
       r = POST_login b ->
       statusCode (serve r db).1 = 401
       ∨ (serve r db).1
         = (UserService.serve fault now isEmail bcrypt_hash (fun _ _ => true) jwt_sign
              r (hidePasswords db)).1)
  ∧ (forall (b b' : Body) (hash : string -> string) (db' : Db),
       r = POST_register b ->
       b_email b' = b_email b ->
       b_name b' = b_name b ->
       joiString "password" 6 (fun _ => true) "" (b_password b')
       = joiString "password" 6 (fun _ => true) "" (b_password b) ->
       fitsVarchar 255 (hash (default "" (b_password b')))
       = fitsVarchar 255 (bcrypt_hash (default "" (b_password b))) ->
       hidePasswords db' = hidePasswords db ->
       (UserService.serve fault now isEmail hash bcrypt_compare jwt_sign
          (POST_register b') db').1
       = (serve r db).1)
  ∧ (forall (b b' : Body) (hash : string -> string),
       r = POST_login b ->
       b_email b' = b_email b ->
       b_name b' = b_name b ->
       joiString "password" 0 (fun _ => true) "" (b_password b')
       = joiString "password" 0 (fun _ => true) "" (b_password b) ->
       (serve r db).1 = errorJson 401 "Invalid credentials"
       ∨ (serve r db).1
         = (UserService.serve fault now isEmail hash (fun _ _ => true) jwt_sign
              (POST_login b') (hidePasswords db)).1)
  ∧ (forall (i : Z) (b b' : Body),
       r = PUT_user i b ->
       b_email b' = b_email b ->
       b_name b' = b_name b ->
       serve (PUT_user i b') db = serve r db).
Proof.
  split; [apply serve_no_password_key|]. split; [|split; [|split; [|split]]].
  - intros Hr db' Hsame.
    rewrite <- (serve_hides_passwords r db'), <- (serve_hides_passwords r db) by done.
    by rewrite Hsame.
  - intros b ->. simpl. apply login_hides_passwords.
  - intros b b' hash db' -> He Hn Hjoi Hfits Hdb. simpl.
    by apply register_password_free.
  - intros b b' hash -> He Hn Hjoi. simpl. by apply login_password_free.
  - intros i b b' -> He Hn. simpl. unfold updateUser. by rewrite He, Hn.
Qed.
End UserServiceProperties.

(** ** Order service *)

Section Events.
Import OrderService Vocabulary.

Lemma product_eta (p : Product.t) :
  Product.mk (Product.price p) (Product.name p) (Product.stock p) = p.
Proof. by destruct p. Qed.

Lemma reduceTotal_from (productDetails : gmap Z Product.t) (orderId : Z)
    (items : list Item.t) (rows : list OrderItem.t) (t : Z) :
  Forall2 (snapshot productDetails orderId) items rows ->
  foldl (addLine productDetails) (Some t) items = Some (t + sumZ (lineAmount <$> rows)).
Proof.
  intros H. revert t. induction H as [|item row items rows Hs _ IH]; intros t.
  - simpl. f_equal. unfold sumZ. simpl. lia.
  - destruct Hs as (_ & _ & Hq & d & Hd & Hp & _).
    cbn [foldl].
    assert (addLine productDetails (Some t) item
            = Some (t + Product.price d * Item.quantity item)) as ->
      by (unfold addLine; by rewrite Hd).
    rewrite IH. f_equal. rewrite fmap_cons. unfold sumZ, lineAmount at 2. simpl.
    rewrite Hp, Hq. lia.
Qed.

Lemma reduceTotal_rows (productDetails : gmap Z Product.t) (orderId : Z)
    (items : list Item.t) (rows : list OrderItem.t) :
  Forall2 (snapshot productDetails orderId) items rows ->
  reduceTotal productDetails items = Some (sumZ (lineAmount <$> rows)).
Proof.
  intros H. unfold reduceTotal. by rewrite (reduceTotal_from _ _ _ _ 0 H).
Qed.
End Events.

Section OrderServiceProperties.
Import OrderService Vocabulary.
Variable W : Type.
Variable getUser : Z -> W -> HttpResult User.t * W.
Variable getProduct : Z -> W -> HttpResult Product.t * W.
Variable fault : DbOp -> bool.
Variable now : Z.

Local Abbreviation verifyUser := (verifyUser W getUser).
Local Abbreviation verifyProducts := (verifyProducts W getProduct).
Local Abbreviation insertItems := (insertItems W fault now).
Local Abbreviation transactionBody := (transactionBody W fault now).
Local Abbreviation transaction := (transaction W fault now).
Local Abbreviation createOrder := (createOrder W getUser getProduct fault now).
Local Abbreviation app := (app W getUser getProduct fault now).

(** The product loop: it leaves the database alone, makes one lookup per
    line it gets to, and when it runs to the end [productDetails] holds,
    for every product id, what the last lookup of that id answered. *)
Lemma verifyProducts_spec (items : list Item.t) :
  forall (details : gmap Z Product.t) (s s' : State W) (step : Step (gmap Z Product.t)),
    verifyProducts items details s = (step, s') ->
    db s' = db s ∧ txn s' = txn s
    ∧ ∃ evs, log s' = log s ++ evs
             ∧ Forall (fun e => isHttp e = true) evs
             ∧ match step with
               | Next d =>
                   Forall2 lookupOf items evs
                   ∧ (forall i, d !! i = match fetched i evs with
                                         | Some p => Some p
                                         | None => details !! i
                                         end)
                   ∧ Forall (fun item => is_Some (fetched (Item.productId item) evs)) items
               | Reply r => statusCode r = 400
               | Throw => True
               end.
Proof.
  induction items as [|item rest IH]; intros details s s' step Hrun.
  - simpl in Hrun. simplify_eq. repeat split; try done.
    exists []. rewrite app_nil_r. by repeat split.
  - simpl in Hrun. unfold axios_get_product in Hrun.
    destruct (getProduct (Item.productId item) (world s)) as [r w] eqn:Hget.
    destruct r as [product|code|].
    + destruct (Product.stock product <? Item.quantity item) eqn:Hstock.
      * simplify_eq. simpl. repeat split; try done.
        eexists [_]. repeat split; try done. by repeat constructor.
      * apply IH in Hrun as (Hdb & Htxn & evs & Hlog & Hhttp & Hstep).
        simpl in *. repeat split; try done.
        exists (HttpGetProduct (Item.productId item) (HttpOk product) :: evs).
        split; [by rewrite Hlog, <- app_assoc|].
        split; [by constructor|].
        destruct step as [d|r|]; try done.
        destruct Hstep as (Hlen & Hd & Hall).
        split; [constructor; [exists product; split; [done|lia]|done]|]. split.
        -- intros i. rewrite Hd. simpl. destruct (fetched i evs); [done|].
           rewrite product_eta.
           destruct (Z.eqb_spec (Item.productId item) i) as [->|Hne].
           ++ by rewrite lookup_insert_eq.
           ++ by rewrite lookup_insert_ne.
        -- constructor.
           ++ simpl. destruct (fetched _ evs); [done|]. by rewrite Z.eqb_refl.
           ++ eapply Forall_impl; [exact Hall|]. intros it [p Hp]. simpl. by rewrite Hp.
    + destruct (code =? 404); simplify_eq; simpl; repeat split; try done;
        eexists [_]; repeat split; try done; by repeat constructor.
    + simplify_eq; simpl; repeat split; try done;
        eexists [_]; repeat split; try done; by repeat constructor.
Qed.

(** The insert loop inside an open transaction: the committed tables stay as
    they are, and when the loop runs to the end the transaction has gained
    one row per line, each a snapshot of [productDetails]. *)
Lemma insertItems_spec (items : list Item.t) (orderId : Z) (details : gmap Z Product.t) :
  forall (k : nat) (acc : list OrderItem.t) (s s' : State W) (os : list Order.t)
         (its : list OrderItem.t) (step : Step (list OrderItem.t)),
    txn s = Some (os, its) ->
    insertItems k orderId items details acc s = (step, s') ->
    world s' = world s
    ∧ orders (db s') = orders (db s) ∧ order_items (db s') = order_items (db s)
    ∧ (∃ evs, log s' = log s ++ evs ∧ Forall (fun e => isDbCall e = true) evs)
    ∧ match step with
      | Next rows =>
          ∃ new, rows = acc ++ new ∧ txn s' = Some (os, its ++ new)
                 ∧ Forall2 (snapshot details orderId) items new
                 ∧ (forall j, (j < length items)%nat -> fault (InsertItem (k + j)) = false)
      | Throw => True
      | Reply _ => False
      end.
Proof.
  induction items as [|item rest IH]; intros k acc s s' os its step Htxn Hrun.
  - simpl in Hrun. unfold ret in Hrun. simplify_eq.
    repeat split; try done.
    + exists []. by rewrite app_nil_r.
    + exists []. rewrite !app_nil_r. repeat split; try done.
      simpl. intros j Hj. lia.
  - simpl in Hrun.
    destruct (details !! Item.productId item) as [d|] eqn:Hd.
    2:{ unfold throw in Hrun. simplify_eq. repeat split; try done.
        exists []. by rewrite app_nil_r. }
    unfold bind, query_insert_item in Hrun.
    destruct (fault (InsertItem k)) eqn:Hfk.
    { simplify_eq. simpl. repeat split; try done.
      eexists [_]. split; [done|]. by repeat constructor. }
    destruct (itemOk _ _).
    2:{ simplify_eq. simpl. repeat split; try done.
        eexists [_]. split; [done|]. by repeat constructor. }
    simpl in Hrun. rewrite Htxn in Hrun.
    eapply IH in Hrun; [|done].
    destruct Hrun as (Hw & Ho & Hi & (evs & Hlog & Hevs) & Hstep). simpl in *.
    repeat split; try done.
    + exists (DbCall (InsertItem k) :: evs).
      split; [by rewrite Hlog, <- app_assoc|]. by constructor.
    + destruct step as [rows| |]; try done.
      destruct Hstep as (new & -> & Htx & Hall & Hnf).
      eexists (_ :: new). rewrite <- !app_assoc in *. simpl in *.
      split; [done|]. split; [done|]. split.
      * constructor; [|done]. repeat split; try done. by exists d.
      * intros [|j] Hj.
        -- by rewrite Nat.add_0_r.
        -- replace (k + S j)%nat with (S k + j)%nat by lia. apply Hnf. lia.
Qed.

(** The body of the inner [try], entered with no transaction open. *)
Lemma transactionBody_spec (userId totalAmount : Z) (items : list Item.t)
    (details : gmap Z Product.t) (s s' : State W) (step : Step Empty_set) :
  txn s = None ->
  transactionBody userId totalAmount items details s = (step, s') ->
  world s' = world s
  ∧ (∃ evs, log s' = log s ++ evs ∧ Forall (fun e => isDbCall e = true) evs)
  ∧ match step with
    | Reply r =>
        ∃ order rows,
          r = created order rows
          ∧ orders (db s') = orders (db s) ++ [order]
          ∧ order_items (db s') = order_items (db s) ++ rows
          ∧ Forall2 (snapshot details (Order.id order)) items rows
          ∧ Order.user_id order = userId
          ∧ Order.total_amount order = totalAmount
          ∧ Order.status order = "pending"
          ∧ fault Begin = false ∧ fault InsertOrder = false
          ∧ (forall j, (j < length items)%nat -> fault (InsertItem j) = false)
          ∧ fault Commit = false
    | Throw =>
        orders (db s') = orders (db s) ∧ order_items (db s') = order_items (db s)
    | Next _ => False
    end.
Proof.
  intros Htxn Hrun. unfold transactionBody, bind in Hrun.
  unfold query_begin in Hrun.
  destruct (fault Begin) eqn:Hfb.
  { simplify_eq. simpl. repeat split; try done.
    eexists [_]. split; [done|]. by repeat constructor. }
  unfold query_insert_order in Hrun. simpl in Hrun.
  destruct (fault InsertOrder) eqn:Hfo.
  { simplify_eq. simpl. repeat split; try done.
    eexists [_; _]. rewrite <- app_assoc. split; [done|]. by repeat constructor. }
  unfold visible in Hrun. simpl in Hrun. rewrite Htxn in Hrun.
  destruct (orderOk _) eqn:Hok.
  2:{ simplify_eq. simpl. repeat split; try done.
      eexists [_; _]. rewrite <- app_assoc. split; [done|]. by repeat constructor. }
  simpl in Hrun.
  match type of Hrun with
  | context [insertItems ?k ?o ?i ?d ?a ?st] =>
      destruct (insertItems k o i d a st) as [stepI sI] eqn:Hins
  end.
  eapply insertItems_spec in Hins; [|done].
  destruct Hins as (Hw & Ho & Hi & (evs & Hlog & Hevs) & HstepI). simpl in *.
  destruct stepI as [rows| |]; try done.
  2:{ simplify_eq. repeat split; try done.
      exists (DbCall Begin :: DbCall InsertOrder :: evs).
      split; [by rewrite Hlog, <- !app_assoc|]. by repeat constructor. }
  destruct HstepI as (new & -> & Htx & Hall & Hnf). simpl in Hrun.
  unfold query_commit in Hrun.
  destruct (fault Commit) eqn:Hfc.
  { simplify_eq. simpl. repeat split; try done.
    exists (DbCall Begin :: DbCall InsertOrder :: evs ++ [DbCall Commit]).
    split; [by rewrite Hlog, <- !app_assoc|].
    repeat constructor. apply Forall_app. split; [done|]. by repeat constructor. }
  simpl in Hrun. rewrite Htx in Hrun. unfold reply in Hrun. simplify_eq. simpl.
  repeat split.
  - done.
  - exists (DbCall Begin :: DbCall InsertOrder :: evs ++ [DbCall Commit]).
    split; [by rewrite Hlog, <- !app_assoc|].
    repeat constructor. apply Forall_app. split; [done|]. by repeat constructor.
  - eexists _, new. repeat split; try done.
Qed.

Lemma query_rollback_state (s : State W) :
  (query_rollback W fault s).2
  = mkState (world s) (db s) None (log s ++ [DbCall Rollback]).
Proof. unfold query_rollback. by destruct (fault Rollback). Qed.

(** The transaction as [createOrder] runs it: connect, the body, a rollback
    when the body throws, release. *)
Lemma transaction_spec (userId totalAmount : Z) (items : list Item.t)
    (details : gmap Z Product.t) (s s' : State W) (step : Step Empty_set) :
  transaction userId totalAmount items details s = (step, s') ->
  world s' = world s
  ∧ (∃ evs, log s' = log s ++ DbCall Connect :: evs
            ∧ Forall (fun e => isDbCall e = true) evs)
  ∧ match step with
    | Reply r =>
        ∃ order rows,
          r = created order rows
          ∧ orders (db s') = orders (db s) ++ [order]
          ∧ order_items (db s') = order_items (db s) ++ rows
          ∧ Forall2 (snapshot details (Order.id order)) items rows
          ∧ Order.user_id order = userId
          ∧ Order.total_amount order = totalAmount
          ∧ Order.status order = "pending"
          ∧ noFaultIn fault (length items)
    | Throw =>
        orders (db s') = orders (db s) ∧ order_items (db s') = order_items (db s)
    | Next _ => False
    end.
Proof.
  intros Hrun. unfold transaction, pool_connect in Hrun.
  destruct (fault Connect) eqn:Hfn.
  { simplify_eq. simpl. repeat split; try done. by exists []. }
  match type of Hrun with
  | context [transactionBody ?u ?t ?i ?d ?st] =>
      destruct (transactionBody u t i d st) as [stepB sB] eqn:Hbody
  end.
  eapply transactionBody_spec in Hbody; [|done].
  destruct Hbody as (Hw & (evs & Hlog & Hevs) & HstepB). simpl in *.
  destruct stepB as [x|r|].
  - done.
  - simplify_eq. simpl. split; [done|]. split.
    + exists (evs ++ [DbCall Release]).
      split; [rewrite Hlog, <- !app_assoc; by simpl|].
      apply Forall_app. split; [done|]. by repeat constructor.
    + destruct HstepB as (order & rows & ? & ? & ? & ? & ? & ? & ? & ? & ? & ? & ?).
      exists order, rows. by repeat split.
  - simplify_eq. rewrite query_rollback_state. simpl. repeat split; try tauto.
    exists (evs ++ [DbCall Rollback; DbCall Release]).
    split; [rewrite Hlog, <- !app_assoc; by simpl|].
    apply Forall_app. split; [done|]. by repeat constructor.
Qed.

Lemma snapshot_stored (details : gmap Z Product.t) (evs : list Event) (orderId : Z)
    (e : Event) (items : list Item.t) (rows : list OrderItem.t) :
  (forall i, details !! i = match fetched i evs with
                            | Some p => Some p
                            | None => None
                            end) ->
  isDbCall e = false ->
  (forall i r, e ≠ HttpGetProduct i r) ->
  Forall2 (snapshot details orderId) items rows ->
  Forall2 (stored (e :: evs) orderId) items rows.
Proof.
  intros Hd He1 He2 Hall. eapply Forall2_impl; [exact Hall|].
  intros item row (H1 & H2 & H3 & d & Hlook & H4 & H5).
  repeat split; try done. exists d. repeat split; try done.
  rewrite Hd in Hlook. simpl.
  destruct (fetched (Item.productId item) evs); [done|done].
Qed.

Lemma createOrder_stops (b : Body) (s s' : State W) (r : Response)
    (httpEvs : list Event) :
  statusCode r ≠ 201 ->
  log s' = log s ++ httpEvs ->
  Forall (fun e => isHttp e = true) httpEvs ->
  db s' = db s ->
  createOrderOutcome fault b s (r, s').
Proof.
  intros Hr Hlog Hhttp Hdb. exists httpEvs, []. simpl.
  rewrite app_nil_r, Hdb. repeat split; try done. by right.
Qed.

Lemma createOrder_spec (b : Body) (s : State W) :
  createOrderOutcome fault b s (createOrder b s).
Proof.
  unfold createOrder, handle.
  destruct (orderSchema b) as [message|value] eqn:Hschema.
  { apply (createOrder_stops _ _ _ _ []); try done. by rewrite app_nil_r. }
  unfold bind at 1. unfold OrderService.verifyUser, axios_get_user.
  destruct (getUser (userId value) (world s)) as [ru w1] eqn:Hu.
  set (s1 := mkState w1 (db s) (txn s) (log s ++ [HttpGetUser (userId value) ru])).
  assert (Hstop : forall r : Response,
             statusCode r ≠ 201 -> createOrderOutcome fault b s (r, s1)).
  { intros r Hr. apply (createOrder_stops _ _ _ _ [HttpGetUser (userId value) ru]);
      try done. by repeat constructor. }
  destruct ru as [user|code|]; [|destruct (code =? 404)|];
    try (cbv beta iota; by apply Hstop).
  clear Hstop. cbv beta iota. unfold bind at 1.
  destruct (verifyProducts (items value) ∅ s1) as [stepP s2] eqn:Hp.
  apply verifyProducts_spec in Hp as (Hdb & Htxn & evs & Hlog & Hhttp & HstepP).
  assert (Hstop : forall r : Response,
             statusCode r ≠ 201 -> createOrderOutcome fault b s (r, s2)).
  { intros r Hr.
    apply (createOrder_stops _ _ _ _ (HttpGetUser (userId value) (HttpOk user) :: evs));
      try done.
    - rewrite Hlog. simpl. by rewrite <- app_assoc.
    - by constructor. }
  destruct stepP as [details|r|]; cbv beta iota;
    [|apply Hstop; by rewrite HstepP|by apply Hstop].
  destruct HstepP as (Hlen & Hd & Hall).
  destruct (reduceTotal details (items value)) as [totalAmount|] eqn:Htotal;
    [|by apply Hstop].
  clear Hstop.
  destruct (transaction (userId value) totalAmount (items value) details s2)
    as [stepT s3] eqn:Ht.
  apply transaction_spec in Ht as (Hw & (devs & Hlog3 & Hdevs) & HstepT).
  exists (HttpGetUser (userId value) (HttpOk user) :: evs), (DbCall Connect :: devs).
  assert (Hlog' : log s3 = log s ++ (HttpGetUser (userId value) (HttpOk user) :: evs)
                             ++ DbCall Connect :: devs).
  { rewrite Hlog3, Hlog. simpl. by rewrite <- !app_assoc. }
  assert (Hdevs' : Forall (fun e => isDbCall e = true) (DbCall Connect :: devs))
    by (by constructor).
  destruct stepT as [x|r|]; [done| |]; simpl.
  - split; [done|]. split; [by constructor|]. split; [done|].
    split; [intros _; by exists value, user, evs, devs|].
    left.
    destruct HstepT as (order & rows & -> & Ho & Hi & Hsnap & Huid & Htot & Hst & Hnf).
    exists value, order, rows. rewrite Ho, Hi, Hdb. simpl.
    do 4 (split; [done|]). split; [|split; [done|split; [|done]]].
    + by apply (snapshot_stored details).
    + rewrite Htot. rewrite (reduceTotal_rows _ _ _ _ Hsnap) in Htotal. congruence.
  - split; [done|]. split; [by constructor|]. split; [done|].
    split; [intros _; by exists value, user, evs, devs|].
    right. destruct HstepT as [Ho Hi]. rewrite Ho, Hi, Hdb. by simpl.
Qed.

(** *** What the requests to the other services can change *)

Section World.
Variable P : W -> Prop.
Hypothesis getUser_keeps : forall i w, P w -> P (getUser i w).2.
Hypothesis getProduct_keeps : forall i w, P w -> P (getProduct i w).2.

Lemma verifyProducts_world (items : list Item.t) :
  forall (details : gmap Z Product.t) (s : State W),
    P (world s) -> P (world (verifyProducts items details s).2).
Proof.
  induction items as [|item rest IH]; intros details s Hs; [done|].
  simpl. unfold axios_get_product.
  pose proof (getProduct_keeps (Item.productId item) _ Hs) as Hw.
  destruct (getProduct (Item.productId item) (world s)) as [[product|code|] w];
    simpl in *; try done.
  - destruct (_ <? _); [done|]. by apply IH.
  - by destruct (code =? 404).
Qed.

Lemma createOrder_world (b : Body) (s : State W) :
  P (world s) -> P (world (createOrder b s).2).
Proof.
  intros Hs. unfold createOrder, handle.
  destruct (orderSchema b) as [message|value]; [done|].
  unfold bind at 1. unfold OrderService.verifyUser, axios_get_user.
  pose proof (getUser_keeps (userId value) _ Hs) as Hw.
  destruct (getUser (userId value) (world s)) as [[user|code|] w1];
    simpl in Hw; [|by destruct (code =? 404)|done].
  cbv beta iota. unfold bind at 1.
  match goal with
  | |- context [verifyProducts ?i ?d ?st] =>
      pose proof (verifyProducts_world i d st Hw) as Hw2;
      destruct (verifyProducts i d st) as [[details|r|] s2]
  end; simpl in Hw2; try done.
  destruct (reduceTotal details (items value)) as [totalAmount|]; [|done].
  destruct (transaction (userId value) totalAmount (items value) details s2)
    as [stepT s3] eqn:Ht.
  apply transaction_spec in Ht as (Hw3 & _).
  destruct stepT as [[]|r|]; simpl; by rewrite Hw3.
Qed.
End World.

(** *** What the routes can change of the orders already stored *)

Lemma keepsDb_ret {A : Type} (a : A) : keepsDb (ret W a).
Proof. by intros s. Qed.

Lemma keepsDb_reply {A : Type} (r : Response) : keepsDb (reply W (A := A) r).
Proof. by intros s. Qed.

Lemma keepsDb_bind {A B : Type} (m : M W A) (k : A -> M W B) :
  keepsDb m -> (forall a, keepsDb (k a)) -> keepsDb (bind W m k).
Proof.
  intros Hm Hk s. unfold bind. specialize (Hm s).
  destruct (m s) as [[a|r|] s1]; simpl in *; try done.
  by rewrite Hk.
Qed.

Lemma keepsDb_query_items (orderId : Z) : keepsDb (query_items W fault orderId).
Proof. intros s. unfold query_items. by destruct (fault _). Qed.

Lemma keepsDb_query_orders (op : DbOp) (keep : Order.t -> bool) :
  keepsDb (query_orders W fault op keep).
Proof. intros s. unfold query_orders. by destruct (fault _). Qed.

Lemma keepsDb_fetchUserName (userId : Z) : keepsDb (fetchUserName W getUser userId).
Proof.
  intros s. unfold fetchUserName, axios_get_user.
  by destruct (getUser userId (world s)) as [[user|code|] w].
Qed.

Lemma keepsDb_enrichWithUser (rows : list Order.t) :
  forall acc, keepsDb (enrichWithUser W getUser fault rows acc).
Proof.
  induction rows as [|order rest IH]; intros acc; simpl.
  - apply keepsDb_ret.
  - apply keepsDb_bind; [apply keepsDb_query_items|]. intros itemRows.
    apply keepsDb_bind; [apply keepsDb_fetchUserName|]. intros userName. apply IH.
Qed.

Lemma keepsDb_enrich (rows : list Order.t) :
  forall acc, keepsDb (enrich W fault rows acc).
Proof.
  induction rows as [|order rest IH]; intros acc; simpl.
  - apply keepsDb_ret.
  - apply keepsDb_bind; [apply keepsDb_query_items|]. intros itemRows. apply IH.
Qed.

Lemma handle_keepsDb (m : M W Empty_set) (s : State W) :
  keepsDb m -> db (handle W m s).2 = db s.
Proof.
  intros Hm. unfold handle. specialize (Hm s). by destruct (m s) as [[x|r|] s1].
Qed.

Lemma getOrders_db (s : State W) : db (getOrders W getUser fault s).2 = db s.
Proof.
  apply handle_keepsDb.
  apply keepsDb_bind; [apply keepsDb_query_orders|]. intros rows.
  apply keepsDb_bind; [apply keepsDb_enrichWithUser|]. intros out.
  apply keepsDb_reply.
Qed.

Lemma getOrder_db (id : Z) (s : State W) : db (getOrder W getUser fault id s).2 = db s.
Proof.
  apply handle_keepsDb.
  apply keepsDb_bind; [apply keepsDb_query_orders|]. intros [|order rows].
  - apply keepsDb_reply.
  - apply keepsDb_bind; [apply keepsDb_query_items|]. intros itemRows.
    apply keepsDb_bind; [apply keepsDb_fetchUserName|]. intros userName.
    apply keepsDb_reply.
Qed.

Lemma getUserOrders_db (userId : Z) (s : State W) :
  db (getUserOrders W fault userId s).2 = db s.
Proof.
  apply handle_keepsDb.
  apply keepsDb_bind; [apply keepsDb_query_orders|]. intros rows.
  apply keepsDb_bind; [apply keepsDb_enrich|]. intros out.
  apply keepsDb_reply.
Qed.

Lemma frozen_setStatus (st : string) (id : Z) (l : list Order.t) :
  frozen <$> ((fun o => if Order.id o =? id then setStatus now st o else o) <$> l)
  = frozen <$> l.
Proof.
  rewrite <- list_fmap_compose. apply list_fmap_ext. intros i o _. simpl.
  by destruct (Order.id o =? id).
Qed.

Lemma updateOrder_db (id : Z) (b : Body) (s : State W) :
  frozen <$> orders (db (updateOrder W fault now id b s).2) = frozen <$> orders (db s)
  ∧ order_items (db (updateOrder W fault now id b s).2) = order_items (db s).
Proof.
  unfold updateOrder, handle.
  destruct (updateOrderSchema b) as [message|st]; [done|].
  unfold bind, query_update_status.
  destruct (fault UpdateStatus); [done|].
  destruct (forallb orderOk _); [|done].
  simpl.
  destruct (setStatus now st <$> filter (fun o => Order.id o = id) (orders (db s)));
    simpl; by rewrite frozen_setStatus.
Qed.

(** No route rewrites what was fixed when an order was created, nor any
    stored line: a request leaves the identity, the owner, the total and
    the creation time of every stored order in place, and every stored
    line as it is; it can only add after them. *)
Lemma app_keeps_orders (r : Request) (s : State W) :
  (frozen <$> orders (db s)) `prefix_of` (frozen <$> orders (db (app r s).2))
  ∧ order_items (db s) `prefix_of` order_items (db (app r s).2).
Proof.
  assert (Hsame : forall s' : State W, db s' = db s ->
            (frozen <$> orders (db s)) `prefix_of` (frozen <$> orders (db s'))
            ∧ order_items (db s) `prefix_of` order_items (db s')).
  { intros s' ->. done. }
  unfold OrderService.app.
  destruct (method r), (path r); try (by apply Hsame);
    try (apply Hsame; first [apply getOrders_db | apply getOrder_db | apply getUserOrders_db]).
  - destruct (createOrder_spec (reqBody r) s)
      as (httpEvs & dbEvs & _ & _ & _ & _ & [Hok|Hno]).
    + destruct Hok as (value & order & rows & _ & _ & -> & -> & _).
      split; [rewrite fmap_app|]; by apply prefix_app_r.
    + destruct Hno as (_ & -> & ->). done.
  - destruct (updateOrder_db id (reqBody r) s) as [-> ->]. done.
Qed.

(** *** The database calls of a request *)

Lemma insertItems_calls (orderId : Z) (details : gmap Z Product.t) (items : list Item.t) :
  forall (k : nat) (acc : list OrderItem.t) (s : State W),
    ∃ evs, log (insertItems k orderId items details acc s).2 = log s ++ evs
           ∧ Forall (fun e => isInsert e = true) evs
           ∧ forall r, (insertItems k orderId items details acc s).1 ≠ Reply r.
Proof.
  induction items as [|item rest IH]; intros k acc s; simpl.
  - exists []. by rewrite app_nil_r.
  - destruct (details !! Item.productId item) as [d|]; [|exists []; by rewrite app_nil_r].
    unfold bind, query_insert_item.
    destruct (fault (InsertItem k)).
    { exists [DbCall (InsertItem k)]. simpl. split; [done|]. by repeat constructor. }
    simpl. destruct (itemOk _ _).
    2:{ exists [DbCall (InsertItem k)]. simpl. split; [done|]. by repeat constructor. }
    destruct (txn s) as [[os its]|];
      match goal with
      | |- context [insertItems (S k) orderId rest details ?a ?st] =>
          destruct (IH (S k) a st) as (evs & Hlog & Hevs & Hstep)
      end;
      exists (DbCall (InsertItem k) :: evs); simpl in *;
      (split; [by rewrite Hlog, <- app_assoc|]); (split; [by constructor|done]).
Qed.

Lemma transactionBody_calls (userId totalAmount : Z) (items : list Item.t)
    (details : gmap Z Product.t) (s s' : State W) (step : Step Empty_set) :
  transactionBody userId totalAmount items details s = (step, s') ->
  ∃ mid, log s' = log s ++ DbCall Begin :: mid
         ∧ match step with
           | Reply r =>
               statusCode r = 201
               ∧ txn s' = None
               ∧ ∃ ins, mid = ins ++ [DbCall Commit] ∧ Forall (fun e => isInsert e = true) ins
           | Throw => Forall (fun e => isInsertOrCommit e = true) mid
           | Next _ => False
           end.
Proof.
  intros Hrun. unfold transactionBody in Hrun. unfold bind at 1 in Hrun.
  unfold query_begin in Hrun. destruct (fault Begin).
  { simplify_eq. by exists []. }
  unfold bind at 1 in Hrun. unfold query_insert_order in Hrun.
  destruct (fault InsertOrder).
  { simplify_eq. exists [DbCall InsertOrder]. simpl. rewrite <- app_assoc.
    split; [done|]. by repeat constructor. }
  simpl in Hrun. destruct (orderOk _).
  2:{ simplify_eq. exists [DbCall InsertOrder]. simpl. rewrite <- app_assoc.
      split; [done|]. by repeat constructor. }
  unfold visible in Hrun. simpl in Hrun.
  assert (Hweak : forall evs, Forall (fun e => isInsert e = true) evs ->
                              Forall (fun e => isInsertOrCommit e = true) evs).
  { intros evs Hevs. eapply Forall_impl; [exact Hevs|]. by intros [| |[]]. }
  destruct (txn s) as [[os its]|]; unfold bind at 1 in Hrun;
    match type of Hrun with
    | context [insertItems 0 ?o items details [] ?st] =>
        destruct (insertItems_calls o details items 0 [] st) as (evs & Hlog & Hevs & Hnr);
        destruct (insertItems 0 o items details [] st) as [[rows|r|] sI]
    end; simpl in *; try (by destruct (Hnr r)).
  all: try (simplify_eq; exists (DbCall InsertOrder :: evs);
            rewrite Hlog, <- !app_assoc; split; [done|];
            constructor; [done|by apply Hweak]).
  all: unfold bind, query_commit in Hrun; destruct (fault Commit).
  all: try (simplify_eq; simpl; exists (DbCall InsertOrder :: evs ++ [DbCall Commit]);
            rewrite Hlog, <- !app_assoc; split; [done|];
            constructor; [done|]; apply Forall_app; split; [by apply Hweak|by repeat constructor]).
  all: simpl in Hrun; destruct (txn sI) as [[os' its']|] eqn:HtxnI; unfold reply in Hrun;
    simplify_eq; simpl; exists (DbCall InsertOrder :: evs ++ [DbCall Commit]);
    rewrite Hlog, <- !app_assoc; (split; [done|]); (split; [done|]); (split; [done|]);
    exists (DbCall InsertOrder :: evs); (split; [done|by constructor]).
Qed.

Lemma transaction_calls (userId totalAmount : Z) (items : list Item.t)
    (details : gmap Z Product.t) (s s' : State W) (step : Step Empty_set) :
  transaction userId totalAmount items details s = (step, s') ->
  txn s' = None
  ∧ ∃ evs, log s' = log s ++ evs
           ∧ match step with
             | Reply r => statusCode r = 201 ∧ transactionCalls fault evs true
             | Throw => transactionCalls fault evs false
             | Next _ => False
             end.
Proof.
  intros Hrun. unfold transaction, pool_connect in Hrun.
  destruct (fault Connect) eqn:Hfc.
  { simplify_eq. simpl. split; [done|]. exists [DbCall Connect]. split; [done|]. by left. }
  match type of Hrun with
  | context [transactionBody ?u ?t ?i ?d ?st] =>
      destruct (transactionBody u t i d st) as [stepB sB] eqn:Hbody
  end.
  apply transactionBody_calls in Hbody as (mid & Hlog & Hstep). simpl in *.
  destruct stepB as [x|r|]; [done| |].
  - simplify_eq. destruct Hstep as (Hst & Htxn & ins & -> & Hins). simpl. split; [done|].
    exists (DbCall Connect :: DbCall Begin :: ins ++ [DbCall Commit; DbCall Release]).
    split; [rewrite Hlog, <- ?app_assoc; simpl; by rewrite <- ?app_assoc|].
    split; [done|]. right. left. by exists ins.
  - simplify_eq. rewrite query_rollback_state. simpl. split; [done|].
    exists (DbCall Connect :: DbCall Begin :: mid ++ [DbCall Rollback; DbCall Release]).
    split; [rewrite Hlog, <- ?app_assoc; simpl; by rewrite <- ?app_assoc|].
    right. right. by exists mid.
Qed.

(** The calls of [createOrder]: lookups, then one of the runs of the
    transaction, or none. *)
Lemma createOrder_calls (b : Body) (s : State W) :
  ∃ httpEvs dbEvs,
    log (createOrder b s).2 = log s ++ httpEvs ++ dbEvs
    ∧ Forall (fun e => isHttp e = true) httpEvs
    ∧ ((dbEvs = [] ∧ statusCode (createOrder b s).1 ≠ 201
        ∧ txn (createOrder b s).2 = txn s)
       ∨ (transactionCalls fault dbEvs true ∧ statusCode (createOrder b s).1 = 201
          ∧ txn (createOrder b s).2 = None)
       ∨ (transactionCalls fault dbEvs false
          ∧ (createOrder b s).1 = errorJson 500 "Internal server error"
          ∧ txn (createOrder b s).2 = None)).
Proof.
  destruct (createOrder b s) as [res s'] eqn:Hrun. simpl.
  unfold OrderService.createOrder, handle in Hrun.
  destruct (orderSchema b) as [message|value] eqn:Hschema.
  { unfold reply in Hrun. simplify_eq. exists [], []. rewrite !app_nil_r.
    split; [done|]. split; [done|]. by left. }
  unfold bind at 1 in Hrun. unfold OrderService.verifyUser, axios_get_user in Hrun.
  destruct (getUser (userId value) (world s)) as [ru w1] eqn:Hu.
  destruct ru as [user|code|].
  2:{ exists [HttpGetUser (userId value) (HttpStatus code)], []. rewrite app_nil_r.
      destruct (code =? 404); simpl in Hrun; simplify_eq; simpl;
        (split; [done|]); (split; [by repeat constructor|]); by left. }
  2:{ exists [HttpGetUser (userId value) HttpNoResponse], []. rewrite app_nil_r.
      simpl in Hrun. simplify_eq; simpl. split; [done|]. split; [by repeat constructor|].
      by left. }
  unfold bind at 1 in Hrun.
  match type of Hrun with
  | context [verifyProducts (items value) ∅ ?st] =>
      destruct (verifyProducts (items value) ∅ st) as [stepP s2] eqn:Hp
  end.
  apply verifyProducts_spec in Hp as (Hdb & Htxn & evs & Hlog & Hhttp & HstepP).
  simpl in Hlog, Htxn.
  assert (Hstop : forall r : Response,
             statusCode r ≠ 201 -> (res, s') = (r, s2) ->
             ∃ httpEvs dbEvs,
               log s' = log s ++ httpEvs ++ dbEvs
               ∧ Forall (fun e => isHttp e = true) httpEvs
               ∧ ((dbEvs = [] ∧ statusCode res ≠ 201 ∧ txn s' = txn s)
                  ∨ (transactionCalls fault dbEvs true ∧ statusCode res = 201
                     ∧ txn s' = None)
                  ∨ (transactionCalls fault dbEvs false
                     ∧ res = errorJson 500 "Internal server error" ∧ txn s' = None))).
  { intros r Hr [= -> ->].
    exists (HttpGetUser (userId value) (HttpOk user) :: evs), [].
    rewrite app_nil_r, Hlog, <- app_assoc. split; [done|]. split; [by constructor|].
    by left. }
  destruct stepP as [details|r|];
    [|apply (Hstop r); [by rewrite HstepP|by symmetry]
     |by apply (Hstop (errorJson 500 "Internal server error"))].
  destruct (reduceTotal details (items value)) as [totalAmount|];
    [|by apply (Hstop (errorJson 500 "Internal server error"))].
  clear Hstop.
  destruct (transaction (userId value) totalAmount (items value) details s2)
    as [stepT s3] eqn:Ht.
  apply transaction_calls in Ht as (Hnone & devs & Hlog3 & HstepT).
  exists (HttpGetUser (userId value) (HttpOk user) :: evs), devs.
  destruct stepT as [x|r|]; [done| |]; simplify_eq; simpl.
  - split; [by rewrite Hlog3, Hlog, <- !app_assoc|]. split; [by constructor|].
    right. left. by destruct HstepT.
  - split; [by rewrite Hlog3, Hlog, <- !app_assoc|]. split; [by constructor|].
    right. by right.
Qed.

(** *** The claims about order creation *)

Lemma verifyProducts_passed (pre rest : list Item.t) :
  forall (details : gmap Z Product.t) (s : State W) (w2 : W),
    linesPass getProduct pre (world s) = Some w2 ->
    ∃ details' evs,
      Forall (fun e => isHttp e = true) evs
      ∧ verifyProducts (pre ++ rest) details s
        = verifyProducts rest details' (mkState w2 (db s) (txn s) (log s ++ evs)).
Proof.
  induction pre as [|item pre IH]; intros details s w2 Hpass.
  - simpl in Hpass. simplify_eq. exists details, []. split; [done|].
    rewrite app_nil_r. by destruct s.
  - simpl in Hpass. simpl. unfold axios_get_product.
    destruct (getProduct (Item.productId item) (world s)) as [[product|code|] w];
      try done.
    destruct (Product.stock product <? Item.quantity item); [done|].
    match goal with
    | |- context [verifyProducts (pre ++ rest) ?d ?st] =>
        destruct (IH d st w2 Hpass) as (details' & evs & Hevs & ->)
    end.
    simpl.
    exists details', (HttpGetProduct (Item.productId item) (HttpOk product) :: evs).
    split; [by constructor|]. by rewrite <- app_assoc.
Qed.

(** C2.  Order creation is all or nothing, whatever the payload, the
    answers of the other services and the failures of the database calls:
    either the answer is 201, no call of the transaction failed, and the
    order row and one row per line, in the order of the lines, have been
    added to the committed tables; or the answer is not 201 and both
    committed tables are as they were.  So a request in which a call of the
    transaction fails, an insert among them, leaves both tables as they
    were.  What had been inserted is rolled back: in a request that is not
    answered 201 and has sent an insert, the database calls are connect,
    BEGIN, the inserts and perhaps the COMMIT, then ROLLBACK and release;
    whenever a database call was made no transaction is left open, and
    otherwise the transaction state is as it was. *)
Theorem createOrder_all_or_nothing (b : Body) (s : State W) :
  ((statusCode (createOrder b s).1 = 201
    ∧ ∃ value order rows,
        orderSchema b = inr value
        ∧ noFaultIn fault (length (items value))
        ∧ orders (db (createOrder b s).2) = orders (db s) ++ [order]
        ∧ order_items (db (createOrder b s).2) = order_items (db s) ++ rows
        ∧ Forall2 (fun item row =>
                     OrderItem.order_id row = Order.id order
                     ∧ OrderItem.product_id row = Item.productId item
                     ∧ OrderItem.quantity row = Item.quantity item)
            (items value) rows)
   ∨ (statusCode (createOrder b s).1 ≠ 201
      ∧ orders (db (createOrder b s).2) = orders (db s)
      ∧ order_items (db (createOrder b s).2) = order_items (db s)))
  ∧ (forall value,
       orderSchema b = inr value ->
       ¬ noFaultIn fault (length (items value)) ->
       statusCode (createOrder b s).1 ≠ 201
       ∧ orders (db (createOrder b s).2) = orders (db s)
       ∧ order_items (db (createOrder b s).2) = order_items (db s))
  ∧ ∃ httpEvs dbEvs,
      log (createOrder b s).2 = log s ++ httpEvs ++ dbEvs
      ∧ Forall (fun e => isHttp e = true) httpEvs
      ∧ (statusCode (createOrder b s).1 = 201 -> transactionCalls fault dbEvs true)
      ∧ (statusCode (createOrder b s).1 ≠ 201 ->
         dbEvs = [] ∨ transactionCalls fault dbEvs false)
      ∧ (statusCode (createOrder b s).1 ≠ 201 ->
         Exists (fun e => isInsert e = true) dbEvs ->
         ∃ mid, Forall (fun e => isInsertOrCommit e = true) mid
                ∧ dbEvs = DbCall Connect :: DbCall Begin
                          :: mid ++ [DbCall Rollback; DbCall Release])
      ∧ (dbEvs ≠ [] -> txn (createOrder b s).2 = None)
      ∧ (dbEvs = [] -> txn (createOrder b s).2 = txn s).
Proof.
  split; [|split].
  - destruct (createOrder_spec b s) as (httpEvs & dbEvs & _ & _ & _ & _ & [Hok|Hno]).
    + destruct Hok as (value & order & rows & Hv & Hres & Ho & Hi & Hst & _ & _ & _ & Hnf).
      left. split; [by rewrite Hres|]. exists value, order, rows.
      do 4 (split; [done|]).
      eapply Forall2_impl; [exact Hst|]. intros item row (H1 & H2 & H3 & _). done.
    + by right.
  - destruct (createOrder_spec b s) as (httpEvs & dbEvs & _ & _ & _ & _ & [Hok|Hno]).
    + destruct Hok as (value & order & rows & Hv & Hres & Ho & Hi & Hst & _ & _ & _ & Hnf).
      intros value' Hv' Hfault. rewrite Hv in Hv'. simplify_eq. done.
    + intros _ _ _. done.
  - destruct (createOrder_calls b s) as (httpEvs & dbEvs & Hlog & Hhttp & Hcases).
    exists httpEvs, dbEvs. split; [done|]. split; [done|].
    destruct Hcases as [(-> & Hne & Htxn)|[(Hcalls & Hst & Htxn)|(Hcalls & Hres & Htxn)]].
    + split; [done|]. split; [by left|]. split; [|done].
      intros _ Hins. by apply Exists_nil in Hins.
    + assert (Hne : dbEvs ≠ []).
      { destruct Hcalls as [(_ & -> & _)|[(ins & _ & -> & _)|(mid & _ & -> & _)]]; done. }
      split; [done|]. split; [done|]. split; [done|done].
    + assert (Hst : statusCode (createOrder b s).1 ≠ 201) by (by rewrite Hres).
      assert (Hne : dbEvs ≠ []).
      { destruct Hcalls as [(_ & -> & _)|[(ins & _ & -> & _)|(mid & _ & -> & _)]]; done. }
      split; [done|]. split; [by right|]. split; [|done].
      intros _ Hins.
      destruct Hcalls as [(_ & -> & _)|[(ins & _ & _ & Hc)|(mid & Hmid & -> & _)]].
      * apply Exists_cons in Hins as [Hins|Hins]; [done|]. by apply Exists_nil in Hins.
      * done.
      * by exists mid.
Qed.

(** C3.  When an order is created, every stored line carries the price and
    the name that the product service returned for its product during the
    request (at the last lookup of that product), the stored total is the
    sum of price times quantity over the stored lines, and after that no
    request to the service, whatever the product service answers by then,
    changes the total of a stored order or any stored line. *)
Theorem order_total_is_snapshot_sum (b : Body) (s : State W) :
  statusCode (createOrder b s).1 = 201 ->
  (∃ value order rows httpEvs dbEvs,
     orderSchema b = inr value
     ∧ log (createOrder b s).2 = log s ++ httpEvs ++ dbEvs
     ∧ Forall (fun e => isDbCall e = true) dbEvs
     ∧ orders (db (createOrder b s).2) = orders (db s) ++ [order]
     ∧ order_items (db (createOrder b s).2) = order_items (db s) ++ rows
     ∧ Forall2 (stored httpEvs (Order.id order)) (items value) rows
     ∧ Order.total_amount order = sumZ (lineAmount <$> rows))
  ∧ (forall (r : Request) (s0 : State W),
       (frozen <$> orders (db s0)) `prefix_of` (frozen <$> orders (db (app r s0).2))
       ∧ order_items (db s0) `prefix_of` order_items (db (app r s0).2)).
Proof.
  intros Hcreated. split; [|apply app_keeps_orders].
  destruct (createOrder_spec b s)
    as (httpEvs & dbEvs & Hlog & _ & Hdb & _ & [Hok|Hno]).
  - destruct Hok as (value & order & rows & Hv & _ & Ho & Hi & Hst & _ & Htot & _).
    by exists value, order, rows, httpEvs, dbEvs.
  - by destruct Hno as (Hne & _).
Qed.

(** The answer of the request when the user lookup does not return a user. *)
Lemma createOrder_user_fails (b : Body) (s : State W) (value : OrderValue)
    (r : HttpResult User.t) (w1 : W) :
  orderSchema b = inr value ->
  getUser (userId value) (world s) = (r, w1) ->
  (forall user, r ≠ HttpOk user) ->
  createOrder b s
  = (match r with
     | HttpStatus code =>
         if code =? 404 then errorJson 400 "User not found"
         else errorJson 500 "Internal server error"
     | _ => errorJson 500 "Internal server error"
     end,
     mkState w1 (db s) (txn s) (log s ++ [HttpGetUser (userId value) r])).
Proof.
  intros Hv Hu Hno. unfold createOrder, handle. rewrite Hv.
  unfold bind at 1. unfold OrderService.verifyUser, axios_get_user. rewrite Hu.
  destruct r as [user|code|]; [by destruct (Hno user)| |done].
  by destruct (code =? 404).
Qed.

(** The answer of the request when the user is found, the lines [pre] pass
    and the line after them does not. *)
Lemma createOrder_line_fails (b : Body) (s : State W) (value : OrderValue)
    (user : User.t) (w1 w2 w3 : W) (pre post : list Item.t) (item : Item.t)
    (r : HttpResult Product.t) :
  orderSchema b = inr value ->
  getUser (userId value) (world s) = (HttpOk user, w1) ->
  items value = pre ++ item :: post ->
  linesPass getProduct pre w1 = Some w2 ->
  getProduct (Item.productId item) w2 = (r, w3) ->
  (forall product, r = HttpOk product -> Product.stock product < Item.quantity item) ->
  ∃ evs, Forall (fun e => isHttp e = true) evs
         ∧ createOrder b s
           = (match r with
              | HttpOk product => errorJson 400 (insufficientStock product item)
              | HttpStatus code =>
                  if code =? 404 then errorJson 400 (productNotFound item)
                  else errorJson 500 "Internal server error"
              | HttpNoResponse => errorJson 500 "Internal server error"
              end,
              mkState w3 (db s) (txn s) (log s ++ evs)).
Proof.
  intros Hv Hu Hitems Hpass Hget Hfails.
  unfold createOrder, handle. rewrite Hv.
  unfold bind at 1. unfold OrderService.verifyUser, axios_get_user. rewrite Hu.
  cbv beta iota. unfold bind at 1. rewrite Hitems.
  match goal with
  | |- context [verifyProducts (pre ++ item :: post) ?d ?st] =>
      destruct (verifyProducts_passed pre (item :: post) d st w2 Hpass)
        as (details' & evs & Hevs & ->)
  end.
  simpl. unfold axios_get_product. simpl. rewrite Hget.
  exists (HttpGetUser (userId value) (HttpOk user)
            :: evs ++ [HttpGetProduct (Item.productId item) r]).
  split.
  { constructor; [done|]. apply Forall_app. split; [done|]. by repeat constructor. }
  destruct r as [product|code|].
  - specialize (Hfails product eq_refl).
    destruct (Product.stock product <? Item.quantity item) eqn:E; [|lia].
    simpl. by rewrite <- !app_assoc.
  - destruct (code =? 404); simpl; by rewrite <- !app_assoc.
  - simpl. by rewrite <- !app_assoc.
Qed.

(** When the lookups leave the other services as they are, a line that asks
    for more than the stock reported for its product stops the loop over the
    lines, wherever it stands. *)
Lemma verifyProducts_overstock (item : Item.t) (product : Product.t) (lines : list Item.t) :
  (forall i w, (getProduct i w).2 = w) ->
  item ∈ lines ->
  Product.stock product < Item.quantity item ->
  forall (details : gmap Z Product.t) (s : State W) (d : gmap Z Product.t),
    (getProduct (Item.productId item) (world s)).1 = HttpOk product ->
    (verifyProducts lines details s).1 ≠ Next d.
Proof.
  intros Hread Hin Hstock.
  induction lines as [|line rest IH]; intros details s d Hget.
  - by apply elem_of_nil in Hin.
  - simpl. unfold axios_get_product.
    pose proof (Hread (Item.productId line) (world s)) as Hw.
    destruct (getProduct (Item.productId line) (world s)) as [r w] eqn:Hline.
    simpl in Hw. subst w.
    destruct r as [p|code|]; [| by destruct (code =? 404) | done].
    destruct (Product.stock p <? Item.quantity line) eqn:E; [done|].
    apply elem_of_cons in Hin as [->|Hin].
    + rewrite Hline in Hget. simpl in Hget. simplify_eq. lia.
    + by apply IH.
Qed.

(** A request with such a line is answered 400 or 500 and has made lookups
    only. *)
Lemma createOrder_overstock (b : Body) (s : State W) (value : OrderValue)
    (item : Item.t) (product : Product.t) :
  orderSchema b = inr value ->
  (forall u w, (getUser u w).2 = w) ->
  (forall i w, (getProduct i w).2 = w) ->
  item ∈ items value ->
  (getProduct (Item.productId item) (world s)).1 = HttpOk product ->
  Product.stock product < Item.quantity item ->
  ∃ resp s', createOrder b s = (resp, s')
             ∧ (statusCode resp = 400 ∨ resp = errorJson 500 "Internal server error")
             ∧ lookupsOnly s s'.
Proof.
  intros Hv Hreadu Hreadp Hin Hget Hstock.
  unfold createOrder, handle. rewrite Hv.
  unfold bind at 1. unfold OrderService.verifyUser, axios_get_user.
  pose proof (Hreadu (userId value) (world s)) as Hw.
  destruct (getUser (userId value) (world s)) as [r w1]. simpl in Hw. subst w1.
  assert (Hone : forall e, isHttp e = true ->
                 lookupsOnly s (mkState (world s) (db s) (txn s) (log s ++ [e]))).
  { intros e He. split; [done|]. split; [done|]. exists [e]. split; [done|].
    by repeat constructor. }
  destruct r as [user|code|].
  - cbv beta iota. unfold bind at 1.
    match goal with
    | |- context [verifyProducts ?i ?d ?st] =>
        pose proof (verifyProducts_overstock item product i Hreadp Hin Hstock d st) as Hstop;
        destruct (verifyProducts i d st) as [stepP s2] eqn:Hp
    end.
    apply verifyProducts_spec in Hp as (Hdb & Htxn & evs & Hlog & Hevs & Hstep).
    simpl in *.
    assert (Honly : lookupsOnly s s2).
    { split; [done|]. split; [done|].
      exists (HttpGetUser (userId value) (HttpOk user) :: evs).
      split; [by rewrite Hlog, <- app_assoc|by constructor]. }
    destruct stepP as [d|resp|].
    + by destruct (Hstop d Hget).
    + exists resp, s2. split; [done|]. split; [by left|done].
    + eexists _, s2. split; [done|]. split; [by right|done].
  - destruct (code =? 404); eexists _, _; (split; [done|]);
      (split; [|by apply Hone]); [by left|by right].
  - eexists _, _. split; [done|]. split; [by right|by apply Hone].
Qed.

(** C4, as amended.  A payload that is not valid is answered with the 400
    of its validation and changes nothing.  On a valid payload:

    - when the lookups leave the other services as they are and some line,
      wherever it stands, asks for more than the stock the product service
      reports for its product, the request fails, with a 400 or with the
      500 [Internal server error], and nothing is persisted: it has made
      HTTP lookups only, and the database is as it was;
    - when the user lookup does not return a user, the answer is the 400
      [User not found] if it was answered 404 and the 500 otherwise;
    - when the user lookup succeeds and the lines before some line all pass
      their lookup and stock check, the answer is decided by that line: the
      400 that names the product, the stock and the quantity asked for if
      its lookup reports a stock below the quantity; the 400 that names the
      product id if its lookup is answered 404; and the 500 if its lookup
      fails in any other way.

    In each of these cases nothing is persisted either. *)
Theorem createOrder_insufficient_stock (b : Body) (s : State W) :
  (forall message,
     orderSchema b = inl message -> createOrder b s = (errorJson 400 message, s))
  ∧ (forall value,
       orderSchema b = inr value ->
       (forall item product,
          (forall u w, (getUser u w).2 = w) ->
          (forall i w, (getProduct i w).2 = w) ->
          item ∈ items value ->
          (getProduct (Item.productId item) (world s)).1 = HttpOk product ->
          Product.stock product < Item.quantity item ->
          (statusCode (createOrder b s).1 = 400
           ∨ (createOrder b s).1 = errorJson 500 "Internal server error")
          ∧ lookupsOnly s (createOrder b s).2)
       ∧ (forall r w1,
            getUser (userId value) (world s) = (r, w1) ->
            (forall user, r ≠ HttpOk user) ->
            (r = HttpStatus 404 -> (createOrder b s).1 = errorJson 400 "User not found")
            ∧ (r ≠ HttpStatus 404 ->
               (createOrder b s).1 = errorJson 500 "Internal server error")
            ∧ lookupsOnly s (createOrder b s).2)
       ∧ (forall user w1 w2 w3 pre post item r,
            getUser (userId value) (world s) = (HttpOk user, w1) ->
            items value = pre ++ item :: post ->
            linesPass getProduct pre w1 = Some w2 ->
            getProduct (Item.productId item) w2 = (r, w3) ->
            (forall product,
               r = HttpOk product ->
               Product.stock product < Item.quantity item ->
               (createOrder b s).1 = errorJson 400 (insufficientStock product item)
               ∧ lookupsOnly s (createOrder b s).2)
            ∧ (r = HttpStatus 404 ->
               (createOrder b s).1 = errorJson 400 (productNotFound item)
               ∧ lookupsOnly s (createOrder b s).2)
            ∧ ((forall product, r ≠ HttpOk product) ->
               r ≠ HttpStatus 404 ->
               (createOrder b s).1 = errorJson 500 "Internal server error"
               ∧ lookupsOnly s (createOrder b s).2))).
Proof.
  split.
  { intros message Hv. unfold createOrder, handle. by rewrite Hv. }
  intros value Hv. split; [|split].
  - intros item product Hreadu Hreadp Hin Hget Hstock.
    destruct (createOrder_overstock b s value item product Hv Hreadu Hreadp Hin Hget Hstock)
      as (resp & s' & -> & Hresp & Honly).
    done.
  - intros r w1 Hu Hno.
    rewrite (createOrder_user_fails b s value r w1 Hv Hu Hno). simpl.
    assert (Honly : lookupsOnly s
                      (mkState w1 (db s) (txn s) (log s ++ [HttpGetUser (userId value) r]))).
    { split; [done|]. split; [done|]. eexists [_]. split; [done|]. by repeat constructor. }
    destruct r as [user|code|]; [by destruct (Hno user)| |done].
    destruct (Z.eqb_spec code 404) as [->|Hne]; [done|].
    split; [|done]. intros [= ->]. done.
  - intros user w1 w2 w3 pre post item r Hu Hitems Hpass Hget.
    assert (Hrun : (forall product, r = HttpOk product ->
                                    Product.stock product < Item.quantity item) ->
                   ∃ evs, Forall (fun e => isHttp e = true) evs
                          ∧ createOrder b s
                            = (match r with
                               | HttpOk product => errorJson 400 (insufficientStock product item)
                               | HttpStatus code =>
                                   if code =? 404 then errorJson 400 (productNotFound item)
                                   else errorJson 500 "Internal server error"
                               | HttpNoResponse => errorJson 500 "Internal server error"
                               end,
                               mkState w3 (db s) (txn s) (log s ++ evs))).
    { by apply (createOrder_line_fails b s value user w1 w2 w3 pre post). }
    assert (Honly : forall evs, Forall (fun e => isHttp e = true) evs ->
                    lookupsOnly s (mkState w3 (db s) (txn s) (log s ++ evs))).
    { intros evs Hevs. split; [done|]. split; [done|]. by exists evs. }
    split; [|split].
    + intros product -> Hstock.
      destruct Hrun as (evs & Hevs & ->); [by intros p [= <-]|].
      split; [done|by apply Honly].
    + intros ->. destruct Hrun as (evs & Hevs & ->); [done|].
      split; [done|by apply Honly].
    + intros Hno Hne. destruct Hrun as (evs & Hevs & ->); [intros p ->; by destruct (Hno p)|].
      split; [|by apply Honly]. simpl.
      destruct r as [p|code|]; [by destruct (Hno p)| |done].
      destruct (Z.eqb_spec code 404) as [->|Hc]; done.
Qed.

(** On a valid payload the user lookup is the first call of the request. *)
Lemma createOrder_first_call (b : Body) (s : State W) (value : OrderValue) :
  orderSchema b = inr value ->
  ∃ rest, log (createOrder b s).2
          = log s ++ HttpGetUser (userId value) (getUser (userId value) (world s)).1 :: rest.
Proof.
  intros Hv. unfold createOrder, handle. rewrite Hv.
  unfold bind at 1. unfold OrderService.verifyUser, axios_get_user.
  destruct (getUser (userId value) (world s)) as [[user|code|] w1];
    [|destruct (code =? 404)|]; cbv beta iota; try (by exists []).
  unfold bind at 1.
  match goal with
  | |- context [verifyProducts ?i ?d ?st] =>
      destruct (verifyProducts i d st) as [stepP s2] eqn:Hp
  end.
  apply verifyProducts_spec in Hp as (_ & _ & evs & Hlog2 & _).
  simpl in Hlog2.
  assert (Hdone : ∃ rest, log s2 = log s ++ HttpGetUser (userId value) (HttpOk user) :: rest).
  { exists evs. by rewrite Hlog2, <- app_assoc. }
  destruct stepP as [details|r|]; cbv beta iota; try done.
  destruct (reduceTotal details (items value)) as [totalAmount|]; [|done].
  destruct (transaction (userId value) totalAmount (items value) details s2)
    as [stepT s3] eqn:Ht.
  apply transaction_spec in Ht as (_ & (devs & Hlog3 & _) & _).
  exists (evs ++ DbCall Connect :: devs).
  destruct stepT as [[]|r|]; simpl; by rewrite Hlog3, Hlog2, <- !app_assoc.
Qed.

(** C5.  The user lookup is made exactly when the payload is valid, and it
    is then the first call of the request.  If it is answered 404 the
    request ends with the 400 [User not found]; if it is answered with any
    other error status, or not answered at all, the request ends with the
    500 [Internal server error] that every thrown failure of the route ends
    with.  In all three cases the lookup is the only call made and the
    database is as it was. *)
Theorem createOrder_user_lookup_failure (b : Body) (s : State W) :
  (forall message, orderSchema b = inl message -> log (createOrder b s).2 = log s)
  ∧ (forall value,
       orderSchema b = inr value ->
       (∃ rest, log (createOrder b s).2
                = log s ++ HttpGetUser (userId value) (getUser (userId value) (world s)).1
                          :: rest)
       ∧ ((getUser (userId value) (world s)).1 = HttpStatus 404 ->
          (createOrder b s).1 = errorJson 400 "User not found")
       ∧ (forall code,
            (getUser (userId value) (world s)).1 = HttpStatus code -> code ≠ 404 ->
            (createOrder b s).1 = errorJson 500 "Internal server error")
       ∧ ((getUser (userId value) (world s)).1 = HttpNoResponse ->
          (createOrder b s).1 = errorJson 500 "Internal server error")
       ∧ ((forall user, (getUser (userId value) (world s)).1 ≠ HttpOk user) ->
          db (createOrder b s).2 = db s
          ∧ log (createOrder b s).2
            = log s ++ [HttpGetUser (userId value) (getUser (userId value) (world s)).1])).
Proof.
  split.
  { intros message Hv. unfold createOrder, handle. by rewrite Hv. }
  intros value Hv. split; [by apply createOrder_first_call|].
  unfold createOrder, handle. rewrite Hv.
  unfold bind. unfold OrderService.verifyUser, axios_get_user.
  destruct (getUser (userId value) (world s)) as [[user|code|] w1]; simpl.
  - split; [done|]. split; [done|]. split; [done|].
    intros Hno. by destruct (Hno user).
  - destruct (Z.eqb_spec code 404) as [->|Hne]; simpl.
    + split; [done|]. split; [|done]. intros c [= <-] Hc. done.
    + split; [intros [= ->]; done|]. done.
  - done.
Qed.

(** C7.  The calls of a create-order request are its HTTP lookups followed
    by its database calls, of which the first takes the connection from the
    pool: no lookup comes after that, so none falls between BEGIN and COMMIT
    or ROLLBACK.  And when a database call is made at all, the lookups
    before it are the user lookup and one lookup per line, each of them
    answered. *)
Theorem createOrder_lookups_before_transaction (b : Body) (s : State W) :
  ∃ httpEvs dbEvs,
    log (createOrder b s).2 = log s ++ httpEvs ++ dbEvs
    ∧ Forall (fun e => isHttp e = true) httpEvs
    ∧ Forall (fun e => isDbCall e = true ∧ isHttp e = false) dbEvs
    ∧ (dbEvs ≠ [] ->
       ∃ value user evs rest,
         orderSchema b = inr value
         ∧ httpEvs = HttpGetUser (userId value) (HttpOk user) :: evs
         ∧ Forall2 lookupOf (items value) evs
         ∧ dbEvs = DbCall Connect :: rest).
Proof.
  destruct (createOrder_spec b s) as (httpEvs & dbEvs & Hlog & Hhttp & Hdb & Hfull & _).
  exists httpEvs, dbEvs. repeat split; try done.
  eapply Forall_impl; [exact Hdb|]. intros [] He; done.
Qed.
End OrderServiceProperties.

(** ** The three services together *)

Section SystemProperties.
Import Vocabulary.
Variable userFault : UserService.Stmt -> bool.
Variable productFault : ProductService.Stmt -> bool.
Variable orderFault : OrderService.DbOp -> bool.
Variable userUp productUp : bool.
Variable now : Z.
Variable isEmail : string -> bool.
Variable bcrypt_hash : string -> string.
Variable bcrypt_compare : string -> string -> bool.
Variable jwt_sign : Z -> string -> string.

Local Abbreviation getUser :=
  (System.getUser userFault userUp now isEmail bcrypt_hash bcrypt_compare jwt_sign).
Local Abbreviation getProduct := (System.getProduct productFault productUp now).
Local Abbreviation createOrder :=
  (System.createOrder userFault productFault orderFault userUp productUp now
     isEmail bcrypt_hash bcrypt_compare jwt_sign).

Lemma getProduct_db (id : Z) (db : ProductService.Db) :
  (ProductService.getProduct productFault id db).2 = db.
Proof.
  unfold ProductService.getProduct.
  by destruct (ProductService.querySelectOne productFault id db) as [[|p l]|].
Qed.

Lemma getUser_db (id : Z) (db : UserService.Db) :
  (UserService.getUser userFault id db).2 = db.
Proof.
  unfold UserService.getUser. destruct (userFault _); [done|].
  by destruct (filter _ _).
Qed.

Lemma system_getProduct_keeps (id : Z) (w : System.Services) :
  (getProduct id w).2 = w.
Proof.
  unfold System.getProduct. destruct productUp; [|done]. simpl.
  pose proof (getProduct_db id (System.productDb w)) as Hdb.
  destruct (ProductService.getProduct productFault id (System.productDb w)) as [res pdb].
  simpl in *. subst. by destruct w.
Qed.

Lemma system_getUser_keeps (id : Z) (w : System.Services) :
  (getUser id w).2 = w.
Proof.
  unfold System.getUser. destruct userUp; [|done]. simpl.
  pose proof (getUser_db id (System.userDb w)) as Hdb.
  destruct (UserService.getUser userFault id (System.userDb w)) as [res udb].
  simpl in *. subst. by destruct w.
Qed.

(** C6.  With the order service calling the real user and product services,
    a create-order request, however it ends, leaves the product database
    exactly as it was; in particular every product has the stock it had.
    The request reaches the product service through GET
    [/api/products/:id] only, and that route only reads. *)
Theorem createOrder_leaves_products_alone
    (b : OrderService.Body) (s : OrderService.State System.Services) :
  System.productDb (OrderService.world (createOrder b s).2)
  = System.productDb (OrderService.world s)
  ∧ ProductService.Product.Stock
      <$> ProductService.products
            (System.productDb (OrderService.world (createOrder b s).2))
    = ProductService.Product.Stock
        <$> ProductService.products (System.productDb (OrderService.world s)).
Proof.
  assert (Hw : OrderService.world (createOrder b s).2 = OrderService.world s).
  { unfold System.createOrder.
    apply (createOrder_world System.Services getUser getProduct orderFault now
             (fun w => w = OrderService.world s)); try done.
    - intros i w ->. apply system_getUser_keeps.
    - intros i w ->. apply system_getProduct_keeps. }
  by rewrite Hw.
Qed.
End SystemProperties.

(** ** Deleting what is not there *)

Section Deletes.
Variable userFault : UserService.Stmt -> bool.
Variable productFault : ProductService.Stmt -> bool.
Variable now : Z.
Variable isEmail : string -> bool.
Variable bcrypt_hash : string -> string.
Variable bcrypt_compare : string -> string -> bool.
Variable jwt_sign : Z -> string -> string.
Variable W : Type.
Variable getUser : Z -> W -> HttpResult OrderService.User.t * W.
Variable getProduct : Z -> W -> HttpResult OrderService.Product.t * W.
Variable orderFault : OrderService.DbOp -> bool.

Local Abbreviation userService :=
  (UserService.serve userFault now isEmail bcrypt_hash bcrypt_compare jwt_sign).
Local Abbreviation productService := (ProductService.serve productFault now).
Local Abbreviation orderService := (OrderService.app W getUser getProduct orderFault now).

(** C9, as amended.  A DELETE that names an id of no row is never answered
    with a success.  The user service and the product service answer 404
    with their not-found message and delete nothing when the id is within
    the range of INTEGER and the DELETE statement is executed; when the
    statement fails they answer 500 and delete nothing; so, on a database
    that fails exactly the statements whose id is out of the range of
    INTEGER, the answer is the 404 for an id within the range and the 500
    for an id out of it.  The order service has no DELETE route: the
    request falls to its last handler, which answers 404 and touches
    nothing, whatever the id. *)
Theorem delete_of_missing_row_is_not_found (i : Z) (udb : UserService.Db)
    (pdb : ProductService.Db) (b : OrderService.Body) (s : OrderService.State W) :
  Forall (fun u => UserService.id u ≠ i) (UserService.users udb) ->
  Forall (fun p => ProductService.Product.ID p ≠ i) (ProductService.products pdb) ->
  (statusCode (userService (UserService.DELETE_user i) udb).1 ≠ 200
   ∧ (fitsInteger i = true ->
      userFault UserService.Delete = false ->
      userService (UserService.DELETE_user i) udb
      = (errorJson 404 "User not found", udb))
   ∧ (userFault UserService.Delete = true ->
      userService (UserService.DELETE_user i) udb
      = (errorJson 500 "Internal server error", udb))
   ∧ UserService.serve (Vocabulary.userDbFor i) now isEmail bcrypt_hash bcrypt_compare
       jwt_sign (UserService.DELETE_user i) udb
     = (if fitsInteger i then errorJson 404 "User not found"
        else errorJson 500 "Internal server error", udb))
  ∧ (statusCode (productService (ProductService.DELETE_product i) pdb).1 ≠ 200
     ∧ (fitsInteger i = true ->
        productFault ProductService.Delete = false ->
        productService (ProductService.DELETE_product i) pdb
        = (errorJson 404 "Product not found", pdb))
     ∧ (productFault ProductService.Delete = true ->
        productService (ProductService.DELETE_product i) pdb
        = (errorJson 500 "Failed to delete product", pdb))
     ∧ ProductService.serve (Vocabulary.productDbFor i) now
         (ProductService.DELETE_product i) pdb
       = (if fitsInteger i then errorJson 404 "Product not found"
          else errorJson 500 "Failed to delete product", pdb))
  ∧ orderService (OrderService.mkRequest OrderService.DELETE (OrderService.OrderById i) b) s
    = (errorJson 404 "Route not found", s).
Proof.
  intros Hu Hp. simpl. split; [|split; [|done]].
  - split; [|split; [|split]].
    + destruct (userFault UserService.Delete) eqn:Hf.
      * unfold UserService.deleteUser, UserService.deleteRows. by rewrite Hf.
      * by rewrite (deleteUser_no_row userFault i udb Hf Hu).
    + intros _ Hf. by apply deleteUser_no_row.
    + intros Hf. unfold UserService.deleteUser, UserService.deleteRows. by rewrite Hf.
    + destruct (fitsInteger i) eqn:Hi.
      * apply deleteUser_no_row; [|done]. simpl. by rewrite Hi.
      * unfold UserService.deleteUser, UserService.deleteRows. simpl. by rewrite Hi.
  - split; [|split; [|split]].
    + destruct (productFault ProductService.Delete) eqn:Hf.
      * unfold ProductService.deleteProduct, ProductService.queryDelete. by rewrite Hf.
      * by rewrite (deleteProduct_no_row productFault i pdb Hf Hp).
    + intros _ Hf. by apply deleteProduct_no_row.
    + intros Hf. unfold ProductService.deleteProduct, ProductService.queryDelete.
      by rewrite Hf.
    + destruct (fitsInteger i) eqn:Hi.
      * apply deleteProduct_no_row; [|done]. simpl. by rewrite Hi.
      * unfold ProductService.deleteProduct, ProductService.queryDelete. simpl.
        by rewrite Hi.
Qed.
End Deletes.

(** ** The claims at sample inputs *)

(** The end-to-end scenario of the specification: registering Alice and
    creating the widget (price 10.00, stock 5) are answered 201; an order of
    three widgets is answered 201 with a total of 30.00 and status pending;
    a second order, of ten, is answered 400 for insufficient stock, the stock
    still being 5. *)
Example end_to_end_scenario :
  statusCode (UserService.register Samples.noFault 3 Samples.anyEmail Samples.hashOf
                Samples.alice (UserService.mkDb [] 0)).1 = 201
  ∧ statusCode (ProductService.createProduct Samples.noFault 7 (ProductService.Keys Samples.newWidget)
                  (ProductService.mkDb [] 0)).1 = 201
  ∧ statusCode (Samples.shopOrder (Samples.orderWidgets 1 3) Samples.shop).1 = 201
  ∧ OrderService.orders
      (OrderService.db (Samples.shopOrder (Samples.orderWidgets 1 3) Samples.shop).2)
    = [OrderService.Order.mk 1 1 3000 "pending" 11 11]
  ∧ (Samples.shopOrder (Samples.orderWidgets 1 10)
       (Samples.shopOrder (Samples.orderWidgets 1 3) Samples.shop).2).1
    = errorJson 400 "Insufficient stock for product Widget. Available: 5, Requested: 10".
Proof. repeat split; vm_compute; reflexivity. Qed.

(** A transaction whose second insert fails: the order row and the first
    line were inserted, the rollback follows, and both tables are empty as
    before. *)
Example rollback_after_failed_insert :
  OrderService.createOrder unit Samples.knownUser Samples.widgetLookup
    Samples.failSecondInsert 11 (Samples.orderTwoLines 1 2) Samples.noOrders
  = (errorJson 500 "Internal server error",
     OrderService.mkState tt (OrderService.mkDb [] [] 1 1) None
       [OrderService.HttpGetUser 1 (HttpOk (OrderService.User.mk "Alice"));
        OrderService.HttpGetProduct 1 (HttpOk (OrderService.Product.mk 1000 "Widget" 5));
        OrderService.HttpGetProduct 1 (HttpOk (OrderService.Product.mk 1000 "Widget" 5));
        OrderService.DbCall OrderService.Connect;
        OrderService.DbCall OrderService.Begin;
        OrderService.DbCall OrderService.InsertOrder;
        OrderService.DbCall (OrderService.InsertItem 0);
        OrderService.DbCall (OrderService.InsertItem 1);
        OrderService.DbCall OrderService.Rollback;
        OrderService.DbCall OrderService.Release]).
Proof. vm_compute. reflexivity. Qed.

(** C2 where the insert of the second line fails: nothing is stored. *)
Lemma createOrder_all_or_nothing_witness :
  (OrderService.orderSchema (Samples.orderTwoLines 1 2)
   = inr (OrderService.mkValue 1 [OrderService.Item.mk 1 3; OrderService.Item.mk 1 2])
   ∧ ¬ Vocabulary.noFaultIn Samples.failSecondInsert 2)
  ∧ statusCode
      (OrderService.createOrder unit Samples.knownUser Samples.widgetLookup
         Samples.failSecondInsert 11 (Samples.orderTwoLines 1 2) Samples.noOrders).1 ≠ 201
  ∧ OrderService.orders
      (OrderService.db
         (OrderService.createOrder unit Samples.knownUser Samples.widgetLookup
            Samples.failSecondInsert 11 (Samples.orderTwoLines 1 2) Samples.noOrders).2)
    = []
  ∧ OrderService.order_items
      (OrderService.db
         (OrderService.createOrder unit Samples.knownUser Samples.widgetLookup
            Samples.failSecondInsert 11 (Samples.orderTwoLines 1 2) Samples.noOrders).2)
    = [].
Proof.
  assert (Hfails : ¬ Vocabulary.noFaultIn Samples.failSecondInsert 2).
  { intros (_ & _ & _ & Hlines & _).
    specialize (Hlines 1%nat (le_n 2)). discriminate Hlines. }
  split; [split; [reflexivity|exact Hfails]|].
  exact (proj1 (proj2 (createOrder_all_or_nothing unit Samples.knownUser Samples.widgetLookup
                         Samples.failSecondInsert 11 (Samples.orderTwoLines 1 2)
                         Samples.noOrders))
           (OrderService.mkValue 1 [OrderService.Item.mk 1 3; OrderService.Item.mk 1 2])
           eq_refl Hfails).
Defined.

(** C8 at GET [/api/users/1], on two tables that differ in the stored hash
    only, and at the registration of Alice with two passwords and two
    hashing functions. *)
Lemma user_service_never_returns_password_witness :
  (Vocabulary.isLogin (UserService.GET_user 1) = false
   ∧ Vocabulary.hidePasswords Samples.oneUserRehashed = Vocabulary.hidePasswords Samples.oneUser
   ∧ UserService.joiString "password" 6 (fun _ => true) ""
       (UserService.b_password Samples.aliceOtherPassword)
     = UserService.joiString "password" 6 (fun _ => true) ""
         (UserService.b_password Samples.alice)
   ∧ fitsVarchar 255 (Samples.hashOther "another password")
     = fitsVarchar 255 (Samples.hashOf "secret1"))
  ∧ hasKey "password"
      (body (UserService.serve Samples.noFault 11 Samples.anyEmail Samples.hashOf
               Samples.hashMatches Samples.tokenOf (UserService.GET_user 1) Samples.oneUser).1)
    = false
  ∧ (UserService.serve Samples.noFault 11 Samples.anyEmail Samples.hashOf
       Samples.hashMatches Samples.tokenOf (UserService.GET_user 1) Samples.oneUserRehashed).1
    = (UserService.serve Samples.noFault 11 Samples.anyEmail Samples.hashOf
         Samples.hashMatches Samples.tokenOf (UserService.GET_user 1) Samples.oneUser).1
  ∧ (UserService.serve Samples.noFault 11 Samples.anyEmail Samples.hashOther
       Samples.hashMatches Samples.tokenOf
       (UserService.POST_register Samples.aliceOtherPassword) (UserService.mkDb [] 0)).1
    = (UserService.serve Samples.noFault 11 Samples.anyEmail Samples.hashOf
         Samples.hashMatches Samples.tokenOf
         (UserService.POST_register Samples.alice) (UserService.mkDb [] 0)).1.
Proof.
  split; [repeat split; reflexivity|].
  destruct (user_service_never_returns_password Samples.noFault 11 Samples.anyEmail
              Samples.hashOf Samples.hashMatches Samples.tokenOf
              (UserService.GET_user 1) Samples.oneUser) as (Hkey & Hsame & _).
  split; [exact Hkey|]. split; [exact (Hsame eq_refl Samples.oneUserRehashed eq_refl)|].
  destruct (user_service_never_returns_password Samples.noFault 11 Samples.anyEmail
              Samples.hashOf Samples.hashMatches Samples.tokenOf
              (UserService.POST_register Samples.alice) (UserService.mkDb [] 0))
    as (_ & _ & _ & Hregister & _).
  exact (Hregister Samples.alice Samples.aliceOtherPassword Samples.hashOther
           (UserService.mkDb [] 0) eq_refl eq_refl eq_refl eq_refl eq_refl eq_refl).
Defined.

(** C3 at [Samples.firstOrder]. *)
Lemma order_total_is_snapshot_sum_witness :
  statusCode Samples.firstOrder.1 = 201
  ∧ ∃ order rows,
      OrderService.orders (OrderService.db Samples.firstOrder.2) = [] ++ [order]
      ∧ OrderService.order_items (OrderService.db Samples.firstOrder.2) = [] ++ rows
      ∧ OrderService.Order.total_amount order
        = Vocabulary.sumZ (Vocabulary.lineAmount <$> rows).
Proof.
  split; [reflexivity|].
  destruct (order_total_is_snapshot_sum unit Samples.knownUser Samples.widgetLookup
              Samples.noFault 11 (Samples.orderWidgets 1 3) Samples.noOrders eq_refl)
    as [(value & order & rows & httpEvs & dbEvs & _ & _ & _ & Ho & Hi & _ & Htot) _].
  exists order, rows. split; [exact Ho|]. split; [exact Hi|exact Htot].
Defined.

(** C4 as stated fails on the three services together, at the shop of the
    end-to-end scenario, where the product service stores the widget with a
    stock of five and no product 2, and the user service stores user 1
    only.  An order of ten widgets for user 2 is answered with the 400 of
    the unknown user; an order for user 1 of one unit of product 2 and then
    ten widgets is answered with the 400 of the unknown product.  Neither
    answer is the insufficient-stock one. *)
Lemma insufficient_stock_counterexample :
  Invariants.storedProduct (System.productDb (OrderService.world Samples.shop)) 1
  = Some (OrderService.Product.mk 1000 "Widget" 5)
  ∧ OrderService.Product.stock (OrderService.Product.mk 1000 "Widget" 5)
    < OrderService.Item.quantity (OrderService.Item.mk 1 10)
  ∧ (OrderService.orderSchema (Samples.orderWidgets 2 10)
     = inr (OrderService.mkValue 2 [OrderService.Item.mk 1 10])
     ∧ (Samples.shopOrder (Samples.orderWidgets 2 10) Samples.shop).1
       = errorJson 400 "User not found"
     ∧ (Samples.shopOrder (Samples.orderWidgets 2 10) Samples.shop).1
       ≠ errorJson 400
           (OrderService.insufficientStock (OrderService.Product.mk 1000 "Widget" 5)
              (OrderService.Item.mk 1 10)))
  ∧ (OrderService.orderSchema (Samples.orderMissingFirst 1 10)
     = inr (OrderService.mkValue 1 [OrderService.Item.mk 2 1; OrderService.Item.mk 1 10])
     ∧ (Samples.shopOrder (Samples.orderMissingFirst 1 10) Samples.shop).1
       = errorJson 400 "Product with ID 2 not found"
     ∧ (Samples.shopOrder (Samples.orderMissingFirst 1 10) Samples.shop).1
       ≠ errorJson 400
           (OrderService.insufficientStock (OrderService.Product.mk 1000 "Widget" 5)
              (OrderService.Item.mk 1 10))).
Proof.
  split; [vm_compute; reflexivity|]. split; [reflexivity|].
  split; (split; [vm_compute; reflexivity|]); (split; [vm_compute; reflexivity|]);
    vm_compute; discriminate.
Qed.

(** C4 as amended, at [Samples.greedyOrder]: the first line passes, the
    second asks for ten of a stock of five; and on the three services
    together, at an order of ten widgets by the stored user when the product
    service stores a stock of five. *)
Lemma createOrder_insufficient_stock_witness :
  (OrderService.orderSchema (Samples.orderTwoLines 1 10)
   = inr (OrderService.mkValue 1 [OrderService.Item.mk 1 3; OrderService.Item.mk 1 10])
   ∧ Samples.knownUser 1 tt = (HttpOk (OrderService.User.mk "Alice"), tt)
   ∧ Vocabulary.linesPass Samples.widgetLookup [OrderService.Item.mk 1 3] tt = Some tt
   ∧ Samples.widgetLookup 1 tt = (HttpOk (OrderService.Product.mk 1000 "Widget" 5), tt)
   ∧ 5 < 10
   ∧ (forall u w, (Samples.knownUser u w).2 = w)
   ∧ (forall i w, (Samples.widgetLookup i w).2 = w)
   ∧ OrderService.Item.mk 1 10 ∈ [OrderService.Item.mk 1 3; OrderService.Item.mk 1 10])
  ∧ (OrderService.orderSchema (Samples.orderWidgets 1 10)
     = inr (OrderService.mkValue 1 [OrderService.Item.mk 1 10])
     ∧ (forall u w,
          (System.getUser Samples.noFault true 11 Samples.anyEmail Samples.hashOf
             Samples.hashMatches Samples.tokenOf u w).2 = w)
     ∧ (forall i w, (System.getProduct Samples.noFault true 11 i w).2 = w)
     ∧ OrderService.Item.mk 1 10 ∈ [OrderService.Item.mk 1 10]
     ∧ (System.getProduct Samples.noFault true 11 1 (OrderService.world Samples.shop)).1
       = HttpOk (OrderService.Product.mk 1000 "Widget" 5))
  ∧ Samples.greedyOrder.1
    = errorJson 400
        (OrderService.insufficientStock (OrderService.Product.mk 1000 "Widget" 5)
           (OrderService.Item.mk 1 10))
  ∧ Vocabulary.lookupsOnly Samples.noOrders Samples.greedyOrder.2
  ∧ (statusCode Samples.greedyOrder.1 = 400
     ∨ Samples.greedyOrder.1 = errorJson 500 "Internal server error")
  ∧ (statusCode (Samples.shopOrder (Samples.orderWidgets 1 10) Samples.shop).1 = 400
     ∨ (Samples.shopOrder (Samples.orderWidgets 1 10) Samples.shop).1
       = errorJson 500 "Internal server error")
  ∧ Vocabulary.lookupsOnly Samples.shop
      (Samples.shopOrder (Samples.orderWidgets 1 10) Samples.shop).2.
Proof.
  assert (Hin : OrderService.Item.mk 1 10
                ∈ [OrderService.Item.mk 1 3; OrderService.Item.mk 1 10]).
  { apply elem_of_cons. right. apply elem_of_cons. by left. }
  assert (Hin' : OrderService.Item.mk 1 10 ∈ [OrderService.Item.mk 1 10]).
  { apply elem_of_cons. by left. }
  pose proof (system_getUser_keeps Samples.noFault true 11 Samples.anyEmail Samples.hashOf
                Samples.hashMatches Samples.tokenOf) as Hreadu.
  pose proof (system_getProduct_keeps Samples.noFault true 11) as Hreadp.
  split.
  { do 5 (split; [reflexivity|]). split; [by intros u w|]. split; [by intros i w|exact Hin]. }
  split.
  { split; [reflexivity|]. split; [exact Hreadu|]. split; [exact Hreadp|].
    split; [exact Hin'|reflexivity]. }
  destruct (createOrder_insufficient_stock unit Samples.knownUser Samples.widgetLookup
              Samples.noFault 11 (Samples.orderTwoLines 1 10) Samples.noOrders)
    as [_ Hvalid].
  destruct (Hvalid (OrderService.mkValue 1
                      [OrderService.Item.mk 1 3; OrderService.Item.mk 1 10]) eq_refl)
    as (Hany & _ & Hline).
  destruct (Hline (OrderService.User.mk "Alice") tt tt tt
              [OrderService.Item.mk 1 3] [] (OrderService.Item.mk 1 10)
              (HttpOk (OrderService.Product.mk 1000 "Widget" 5))
              eq_refl eq_refl eq_refl eq_refl) as (Hover & _ & _).
  destruct (Hover (OrderService.Product.mk 1000 "Widget" 5) eq_refl eq_refl)
    as (Hres & Honly).
  split; [exact Hres|]. split; [exact Honly|].
  split.
  { exact (proj1 (Hany (OrderService.Item.mk 1 10) (OrderService.Product.mk 1000 "Widget" 5)
                    (fun u w => eq_refl) (fun i w => eq_refl) Hin eq_refl eq_refl)). }
  destruct (createOrder_insufficient_stock System.Services
              (System.getUser Samples.noFault true 11 Samples.anyEmail Samples.hashOf
                 Samples.hashMatches Samples.tokenOf)
              (System.getProduct Samples.noFault true 11)
              Samples.noFault 11 (Samples.orderWidgets 1 10) Samples.shop)
    as [_ Hshop].
  destruct (Hshop (OrderService.mkValue 1 [OrderService.Item.mk 1 10]) eq_refl)
    as (Hanyshop & _).
  exact (Hanyshop (OrderService.Item.mk 1 10) (OrderService.Product.mk 1000 "Widget" 5)
           Hreadu Hreadp Hin' eq_refl eq_refl).
Defined.

(** C5 at [Samples.strangerOrder]. *)
Lemma createOrder_user_lookup_failure_witness :
  (OrderService.orderSchema (Samples.orderWidgets 2 10)
   = inr (OrderService.mkValue 2 [OrderService.Item.mk 1 10])
   ∧ (Samples.unknownUser 2 tt).1 = HttpStatus 404)
  ∧ Samples.strangerOrder.1 = errorJson 400 "User not found".
Proof.
  split; [split; reflexivity|].
  destruct (createOrder_user_lookup_failure unit Samples.unknownUser Samples.widgetLookup
              Samples.noFault 11 (Samples.orderWidgets 2 10) Samples.noOrders)
    as [_ Hvalid].
  destruct (Hvalid (OrderService.mkValue 2 [OrderService.Item.mk 1 10]) eq_refl)
    as (_ & Hnotfound & _).
  exact (Hnotfound eq_refl).
Defined.

(** C9 as stated fails at the id 2147483648, which no user and no product
    has: it is out of the range of INTEGER, the DELETE statement is not
    executed, and the user service and the product service answer 500, not
    their not-found failure. *)
Lemma delete_out_of_range_counterexample :
  fitsInteger 2147483648 = false
  ∧ Forall (fun u => UserService.id u ≠ 2147483648) (UserService.users Samples.oneUser)
  ∧ Forall (fun p => ProductService.Product.ID p ≠ 2147483648)
      (ProductService.products Samples.widgetDb)
  ∧ UserService.serve (Vocabulary.userDbFor 2147483648) 11 Samples.anyEmail Samples.hashOf
      Samples.hashMatches Samples.tokenOf (UserService.DELETE_user 2147483648)
      Samples.oneUser
    = (errorJson 500 "Internal server error", Samples.oneUser)
  ∧ ProductService.serve (Vocabulary.productDbFor 2147483648) 11
      (ProductService.DELETE_product 2147483648) Samples.widgetDb
    = (errorJson 500 "Failed to delete product", Samples.widgetDb)
  ∧ statusCode (errorJson 500 "Internal server error") ≠ 404
  ∧ statusCode (errorJson 500 "Failed to delete product") ≠ 404.
Proof.
  split; [reflexivity|].
  split; [repeat constructor; discriminate|].
  split; [repeat constructor; discriminate|].
  split; [reflexivity|]. split; [reflexivity|]. split; discriminate.
Qed.

(** C9 as amended, at id 2, where the only user and the only product have
    id 1. *)
Lemma delete_of_missing_row_is_not_found_witness :
  (Forall (fun u => UserService.id u ≠ 2) (UserService.users Samples.oneUser)
   ∧ Forall (fun p => ProductService.Product.ID p ≠ 2)
       (ProductService.products Samples.widgetDb)
   ∧ fitsInteger 2 = true)
  ∧ UserService.serve Samples.noFault 11 Samples.anyEmail Samples.hashOf Samples.hashMatches
      Samples.tokenOf (UserService.DELETE_user 2) Samples.oneUser
    = (errorJson 404 "User not found", Samples.oneUser)
  ∧ ProductService.serve Samples.noFault 11 (ProductService.DELETE_product 2) Samples.widgetDb
    = (errorJson 404 "Product not found", Samples.widgetDb)
  ∧ OrderService.app unit Samples.knownUser Samples.widgetLookup Samples.noFault 11
      (OrderService.mkRequest OrderService.DELETE (OrderService.OrderById 2)
         (Samples.orderWidgets 1 3)) Samples.noOrders
    = (errorJson 404 "Route not found", Samples.noOrders).
Proof.
  assert (Hu : Forall (fun u => UserService.id u ≠ 2) (UserService.users Samples.oneUser))
    by (repeat constructor; discriminate).
  assert (Hp : Forall (fun p => ProductService.Product.ID p ≠ 2)
                 (ProductService.products Samples.widgetDb))
    by (repeat constructor; discriminate).
  split; [by repeat split|].
  destruct (delete_of_missing_row_is_not_found Samples.noFault Samples.noFault 11
              Samples.anyEmail Samples.hashOf Samples.hashMatches Samples.tokenOf
              unit Samples.knownUser Samples.widgetLookup Samples.noFault
              2 Samples.oneUser Samples.widgetDb (Samples.orderWidgets 1 3) Samples.noOrders
              Hu Hp) as ((_ & Huser & _) & (_ & Hproduct & _) & Horder).
  split; [exact (Huser eq_refl eq_refl)|]. split; [exact (Hproduct eq_refl eq_refl)|exact Horder].
Defined.

(** * Further properties *)

(** ** Product service: create, read, update, delete *)

Section ProductServiceRoutes.
Import ProductService Invariants.
Variable fault : Stmt -> bool.
Variable now : Z.

Lemma validateCreate_accepted (b : ProductBody) :
  validateCreate (decodeCreate b) = [] <-> createAccepted b = true.
Proof.
  unfold validateCreate, createAccepted, requiredString, decodeCreate. simpl.
  destruct (bool_decide (default "" (name b) = ""));
    destruct (bool_decide (default "" (description b) = ""));
    destruct (bool_decide (default "" (category b) = ""));
    destruct (Z.eqb_spec (default 0 (price b)) 0) as [->|Hp];
    destruct (Z.eqb_spec (default 0 (stock b)) 0) as [->|Hs];
    simpl; try (split; [discriminate|discriminate]).
  all: destruct (default 0 (price b) >? 0) eqn:Ep;
    destruct (default 0 (stock b) >=? 0) eqn:Es;
    destruct (0 <? default 0 (price b)) eqn:Ep';
    destruct (0 <? default 0 (stock b)) eqn:Es';
    simpl; try (split; [discriminate|discriminate]); try done; lia.
Qed.

(** X1.  A create request is answered 400 exactly when its body cannot be
    decoded or misses one of the binding's demands: a string absent or
    empty, a price absent or not positive, a stock absent or not positive.
    A request answered 400 stores nothing and draws no id; for a body that
    cannot be decoded the answer carries the error of the decoder. *)
Theorem createProduct_rejected_exactly (b : ProductBody) (db : Db) :
  (statusCode (createProduct fault now (Keys b) db).1 = 400 <-> createAccepted b = false)
  ∧ (createAccepted b = false -> (createProduct fault now (Keys b) db).2 = db)
  ∧ (forall err, createProduct fault now (Undecodable err) db = (errorJson 400 err, db)).
Proof.
  pose proof (validateCreate_accepted b) as Hacc.
  unfold createProduct, ShouldBindJSON_create.
  destruct (validateCreate (decodeCreate b)) as [|e errs] eqn:Hv.
  - assert (Ha : createAccepted b = true) by by apply Hacc.
    rewrite Ha. split; [|split; [discriminate|done]].
    unfold queryInsert. destruct (fault Insert); simpl; [done|].
    by destruct (rowOk _).
  - assert (Ha : createAccepted b = false).
    { destruct (createAccepted b); [|done]. by destruct Hacc as [_ Hacc]; specialize (Hacc eq_refl). }
    rewrite Ha. by repeat split.
Qed.

Lemma assign_keeps (p : Product.t) (a : Assign) :
  Product.ID (assign now p a) = Product.ID p
  ∧ Product.CreatedAt (assign now p a) = Product.CreatedAt p.
Proof. by destruct a. Qed.

Lemma assignAll_keeps (updates : list Assign) (p : Product.t) :
  Product.ID (assignAll now updates p) = Product.ID p
  ∧ Product.CreatedAt (assignAll now updates p) = Product.CreatedAt p.
Proof.
  unfold assignAll. revert p. induction updates as [|a updates IH]; intros p; [done|].
  simpl. destruct (IH (assign now p a)) as [-> ->]. apply assign_keeps.
Qed.

Lemma buildUpdates_closed (req : UpdateProductRequest.t) (p : Product.t) :
  assignAll now (buildUpdates req ++ [SetUpdatedAtNow]) p = updatedProduct now req p.
Proof.
  unfold buildUpdates, updatedProduct, assignAll.
  rewrite Z.gtb_ltb, Z.geb_leb.
  destruct (decide (UpdateProductRequest.Name req = "")) as [Hn|Hn];
    [rewrite (bool_decide_eq_false_2 _ (fun H => H Hn)), (bool_decide_eq_true_2 _ Hn)
    |rewrite (bool_decide_eq_true_2 _ Hn), (bool_decide_eq_false_2 _ Hn)];
  (destruct (decide (UpdateProductRequest.Description req = "")) as [Hd|Hd];
    [rewrite (bool_decide_eq_false_2 _ (fun H => H Hd)), (bool_decide_eq_true_2 _ Hd)
    |rewrite (bool_decide_eq_true_2 _ Hd), (bool_decide_eq_false_2 _ Hd)]);
  (destruct (decide (UpdateProductRequest.Category req = "")) as [Hc|Hc];
    [rewrite (bool_decide_eq_false_2 _ (fun H => H Hc)), (bool_decide_eq_true_2 _ Hc)
    |rewrite (bool_decide_eq_true_2 _ Hc), (bool_decide_eq_false_2 _ Hc)]);
  destruct (0 <? UpdateProductRequest.Price req);
  destruct (0 <=? UpdateProductRequest.Stock req); reflexivity.
Qed.

Lemma buildUpdates_nil (req : UpdateProductRequest.t) :
  buildUpdates req = [] <-> nothingToSet req = true.
Proof.
  unfold buildUpdates, nothingToSet.
  rewrite Z.gtb_ltb, Z.geb_leb.
  destruct (decide (UpdateProductRequest.Name req = "")) as [Hn|Hn];
    [rewrite (bool_decide_eq_false_2 _ (fun H => H Hn)), (bool_decide_eq_true_2 _ Hn)
    |rewrite (bool_decide_eq_true_2 _ Hn), (bool_decide_eq_false_2 _ Hn)];
  (destruct (decide (UpdateProductRequest.Description req = "")) as [Hd|Hd];
    [rewrite (bool_decide_eq_false_2 _ (fun H => H Hd)), (bool_decide_eq_true_2 _ Hd)
    |rewrite (bool_decide_eq_true_2 _ Hd), (bool_decide_eq_false_2 _ Hd)]);
  (destruct (decide (UpdateProductRequest.Category req = "")) as [Hc|Hc];
    [rewrite (bool_decide_eq_false_2 _ (fun H => H Hc)), (bool_decide_eq_true_2 _ Hc)
    |rewrite (bool_decide_eq_true_2 _ Hc), (bool_decide_eq_false_2 _ Hc)]);
  destruct (0 <? UpdateProductRequest.Price req);
  destruct (0 <=? UpdateProductRequest.Stock req); simpl; split; try done; discriminate.
Qed.

(** What [updateProduct] does to the table, for a body that decodes: nothing,
    or the closed form of the update on the rows of that id. *)
Lemma updateProduct_table (id : Z) (b : ProductBody) (db : Db) :
  (statusCode (updateProduct fault now id (Keys b) db).1 ≠ 200
   ∧ (updateProduct fault now id (Keys b) db).2 = db)
  ∨ (statusCode (updateProduct fault now id (Keys b) db).1 = 200
     ∧ (updateProduct fault now id (Keys b) db).2
       = mkDb ((fun p => if hasId id p then updatedProduct now (decodeUpdate b) p else p)
                 <$> products db) (products_id_seq db)).
Proof.
  unfold updateProduct. simpl ShouldBindJSON_update. cbv beta iota.
  destruct (bool_decide (length (buildUpdates (decodeUpdate b)) = 0%nat)); [by left|].
  unfold queryUpdate. destruct (fault Update); [by left|].
  destruct (forallb rowOk _); [|by left].
  destruct (assignAll now _ <$> filter _ (products db)) as [|product rest] eqn:Hrows.
  - left. split; [done|]. simpl. destruct db as [ps sq]. simpl in *. f_equal.
    assert (Hnone : filter (fun p => hasId id p = true) ps = [])
      by (by destruct (filter _ ps)).
    clear Hrows. induction ps as [|p ps IH]; [done|].
    rewrite filter_cons in Hnone. destruct (decide (hasId id p = true)) as [Hp|Hp]; [done|].
    rewrite fmap_cons, IH by done. by destruct (hasId id p).
  - right. split; [done|]. simpl. f_equal. apply list_fmap_ext. intros i p _.
    destruct (hasId id p); [|done]. apply buildUpdates_closed.
Qed.

(** X4.  Whatever the body and however the request ends, [updateProduct]
    changes no row of another id, adds and removes no row, draws no id, and
    leaves the id and the creation time of every row as they are. *)
Theorem updateProduct_frame (id : Z) (b : RequestBody) (db : Db) :
  products_id_seq (updateProduct fault now id b db).2 = products_id_seq db
  ∧ Forall2 (fun p p' =>
               Product.ID p' = Product.ID p
               ∧ Product.CreatedAt p' = Product.CreatedAt p
               ∧ (Product.ID p ≠ id -> p' = p))
      (products db) (products (updateProduct fault now id b db).2).
Proof.
  assert (Hsame : Forall2 (fun p p' =>
                             Product.ID p' = Product.ID p
                             ∧ Product.CreatedAt p' = Product.CreatedAt p
                             ∧ (Product.ID p ≠ id -> p' = p))
                    (products db) (products db)).
  { apply Forall2_same_length_lookup_2; [done|]. intros i p p' H1 H2. by simplify_eq. }
  destruct b as [b|]; [|done].
  destruct (updateProduct_table id b db) as [[_ ->]|[_ ->]]; [done|].
  simpl. split; [done|].
  apply Forall2_fmap_r. apply Forall2_same_length_lookup_2; [done|].
  intros i p p' H1 H2. simplify_eq. unfold compose, hasId. cbv beta.
  destruct (Z.eqb_spec (Product.ID p) id) as [Heq|Hne]; [|done].
  unfold updatedProduct. by repeat split.
Qed.

(** X5.  A successful update stores, on the rows of the id, the closed form
    [updatedProduct]: a string of the body replaces the stored one when it
    is not empty, the price when it is positive, and the stock whenever the
    decoded stock is not negative.  So a body without a [stock] key, the
    empty body [{}] included, stores a stock of 0. *)
Theorem updateProduct_stores (id : Z) (b : ProductBody) (db : Db) :
  statusCode (updateProduct fault now id (Keys b) db).1 = 200 ->
  products (updateProduct fault now id (Keys b) db).2
  = (fun p => if hasId id p then updatedProduct now (decodeUpdate b) p else p) <$> products db
  ∧ (stock b = None ->
     Forall (fun p' => Product.ID p' = id -> Product.Stock p' = 0)
       (products (updateProduct fault now id (Keys b) db).2)).
Proof.
  intros Hok. destruct (updateProduct_table id b db) as [[Hne _]|[_ ->]]; [done|].
  simpl. split; [done|]. intros Hstock.
  apply Forall_fmap, Forall_forall. intros p _. simpl. unfold hasId.
  destruct (Z.eqb_spec (Product.ID p) id) as [Heq|Hne]; [|done].
  intros _. unfold updatedProduct, decodeUpdate. simpl. by rewrite Hstock.
Qed.

(** X6.  The answer 400 [No fields to update] is given exactly to the bodies
    whose decoded stock is negative and that carry no string and no positive
    price; the empty body is not among them.  It changes nothing. *)
Theorem updateProduct_no_fields (id : Z) (b : ProductBody) (db : Db) :
  ((updateProduct fault now id (Keys b) db).1 = errorJson 400 "No fields to update"
   <-> nothingToSet (decodeUpdate b) = true)
  ∧ (nothingToSet (decodeUpdate b) = true -> (updateProduct fault now id (Keys b) db).2 = db)
  ∧ nothingToSet (decodeUpdate (mkBody None None None None None)) = false.
Proof.
  pose proof (buildUpdates_nil (decodeUpdate b)) as Hnil.
  split; [|split; [|done]].
  - unfold updateProduct. simpl ShouldBindJSON_update. cbv beta iota.
    destruct (buildUpdates (decodeUpdate b)) as [|u us] eqn:Hb.
    + simpl. split; [intros _; by apply Hnil|done].
    + simpl bool_decide. cbv beta iota.
      split.
      * destruct (queryUpdate _ _ _ _ _) as [[[|product rest]|] db']; discriminate.
      * intros Hn. apply Hnil in Hn. discriminate.
  - intros Hn. apply Hnil in Hn. unfold updateProduct. simpl ShouldBindJSON_update.
    cbv beta iota. by rewrite Hn.
Qed.

Lemma filter_hasId_fresh (id : Z) (l : list Product.t) :
  Forall (fun p => Product.ID p ≠ id) l ->
  filter (fun p => hasId id p = true) l = [].
Proof.
  intros Hl. apply filter_none. eapply Forall_impl; [exact Hl|].
  intros p Hp Heq. unfold hasId in Heq. apply Hp. lia.
Qed.

(** X2.  On a table whose ids were drawn from the sequence, a create request
    that passes the binding and the constraints of the table is answered 201
    with a row of the next id, built from the body and stamped with the
    time of the insert; the row is added after the others, and a GET of its
    id then returns that very row. *)
Theorem createProduct_then_getProduct (b : ProductBody) (db : Db) (row : Product.t) :
  productsOk db ->
  createAccepted b = true ->
  fault Insert = false ->
  fault SelectOne = false ->
  row = Product.mk (products_id_seq db + 1) (default "" (name b))
          (default "" (description b)) (default 0 (price b)) (default 0 (stock b))
          (default "" (category b)) now now ->
  rowOk row = true ->
  createProduct fault now (Keys b) db
  = (mkResponse 201 (JObj [("message", JStr "Product created successfully");
                           ("product", productJson row)]),
     mkDb (products db ++ [row]) (products_id_seq db + 1))
  ∧ getProduct fault (Product.ID row) (createProduct fault now (Keys b) db).2
    = (mkResponse 200 (JObj [("product", productJson row)]),
       (createProduct fault now (Keys b) db).2).
Proof.
  intros (_ & Hseq & _) Hacc Hfi Hfs Hrow Hok.
  assert (Hcreate : createProduct fault now (Keys b) db
                    = (mkResponse 201 (JObj [("message", JStr "Product created successfully");
                                             ("product", productJson row)]),
                       mkDb (products db ++ [row]) (products_id_seq db + 1))).
  { unfold createProduct, ShouldBindJSON_create.
    apply validateCreate_accepted in Hacc. rewrite Hacc.
    unfold queryInsert. rewrite Hfi. unfold decodeCreate. simpl.
    rewrite <- Hrow, Hok. done. }
  rewrite Hcreate. split; [done|]. simpl.
  unfold getProduct, querySelectOne. rewrite Hfs. simpl.
  rewrite filter_app, filter_hasId_fresh.
  2:{ eapply Forall_impl; [exact Hseq|]. intros p Hp. subst row. simpl in *. lia. }
  rewrite filter_cons_True by (unfold hasId; lia). done.
Qed.

Lemma rowOk_fmap_if (P : Product.t -> bool) (g : Product.t -> Product.t)
    (l : list Product.t) :
  forallb rowOk (g <$> filter (fun p => P p = true) l) = true ->
  Forall (fun p => rowOk p = true) l ->
  Forall (fun p => rowOk p = true) ((fun p => if P p then g p else p) <$> l).
Proof.
  intros Hnew Hold. induction Hold as [|p l Hp _ IH]; [constructor|].
  rewrite fmap_cons. cbv beta. rewrite filter_cons in Hnew.
  destruct (P p) eqn:HP.
  - rewrite decide_True in Hnew by done. simpl in Hnew.
    apply andb_true_iff in Hnew as [H1 H2]. constructor; [done|by apply IH].
  - rewrite decide_False in Hnew by done. constructor; [done|by apply IH].
Qed.

(** X3.  Every request to the product service, whatever it is and however it
    ends, keeps the table well formed: ids stay unique and below the
    sequence, and every stored row satisfies the constraints of the table,
    a positive price and a stock that is not negative among them. *)
Theorem product_service_keeps_table (r : Request) (db : Db) :
  productsOk db -> productsOk (serve fault now r db).2.
Proof.
  intros (Hnd & Hseq & Hok). destruct r as [|id|b|id b|id]; simpl.
  - unfold getProducts. by destruct (querySelectAll fault db) as [[|p l]|].
  - unfold getProduct. by destruct (querySelectOne fault id db) as [[|p l]|].
  - unfold createProduct. destruct (ShouldBindJSON_create b) as [err|req]; [done|].
    unfold queryInsert. destruct (fault Insert); [done|].
    match goal with |- context [rowOk ?x] => set (row := x); destruct (rowOk row) eqn:Hrow end.
    + simpl. repeat split; simpl.
      * rewrite fmap_app. apply NoDup_app. split; [done|]. split; [|apply NoDup_singleton].
        intros i Hi [= ->]%list_elem_of_singleton.
        apply list_elem_of_fmap in Hi as (p & Hp & Hin).
        rewrite Forall_forall in Hseq. specialize (Hseq p Hin). subst row. simpl in Hp. lia.
      * apply Forall_app. split.
        -- eapply Forall_impl; [exact Hseq|]. intros p Hp. simpl in Hp. lia.
        -- constructor; [|constructor]. subst row. simpl. lia.
      * apply Forall_app. split; [done|]. by constructor.
    + simpl. repeat split; simpl; try done.
      eapply Forall_impl; [exact Hseq|]. intros p Hp. simpl in Hp. lia.
  - destruct b as [b|]; [|done].
    destruct (updateProduct_table id b db) as [[_ ->]|[Hst Hdb]]; [done|].
    rewrite Hdb. repeat split; simpl.
    + rewrite <- list_fmap_compose.
      rewrite (list_fmap_ext _ Product.ID (products db)); [done|].
      intros i p _. simpl. by destruct (hasId id p).
    + apply Forall_fmap. eapply Forall_impl; [exact Hseq|].
      intros p Hp. simpl. by destruct (hasId id p).
    + revert Hst. unfold updateProduct. simpl ShouldBindJSON_update. cbv beta iota.
      destruct (bool_decide _); [done|].
      unfold queryUpdate. destruct (fault Update); [done|].
      destruct (forallb rowOk _) eqn:Hnew; [|done]. intros _.
      rewrite (list_fmap_ext _
                 (fun p => if hasId id p
                           then assignAll now (buildUpdates (decodeUpdate b) ++ [SetUpdatedAtNow]) p
                           else p) (products db)).
      * by apply (rowOk_fmap_if (hasId id) _ _ Hnew).
      * intros i p _. simpl. destruct (hasId id p); [|done]. by rewrite buildUpdates_closed.
  - unfold deleteProduct, queryDelete. destruct (fault Delete); [done|].
    assert (productsOk (mkDb (filter (fun p => hasId id p = false) (products db))
                          (products_id_seq db))) as Hdel.
    { repeat split; simpl.
      - eapply sublist_NoDup; [exact Hnd|]. apply fmap_sublist, sublist_filter.
      - apply Forall_forall. intros x [_ Hx]%list_elem_of_filter.
        rewrite Forall_forall in Hseq. by apply Hseq.
      - apply Forall_forall. intros x [_ Hx]%list_elem_of_filter.
        rewrite Forall_forall in Hok. by apply Hok. }
    simpl. by destruct (_ =? 0).
Qed.

(** X7.  Deleting a stored product is answered 200; every row of that id is
    gone, every other product stays where it was, and a GET of the id is
    then answered 404. *)
Theorem deleteProduct_then_getProduct (id : Z) (db : Db) (p : Product.t) :
  p ∈ products db -> Product.ID p = id ->
  fault Delete = false -> fault SelectOne = false ->
  (deleteProduct fault id db).1
  = mkResponse 200 (JObj [("message", JStr "Product deleted successfully")])
  ∧ products (deleteProduct fault id db).2
    = filter (fun q => Product.ID q ≠ id) (products db)
  ∧ (getProduct fault id (deleteProduct fault id db).2).1
    = errorJson 404 "Product not found".
Proof.
  intros Hin Hid Hfd Hfs. unfold deleteProduct, queryDelete. rewrite Hfd.
  assert (Hsome : filter (fun q => hasId id q = true) (products db) ≠ []).
  { intros Hnil. apply (filter_nil_not_elem_of _ _ p Hnil); [|done].
    unfold hasId. by apply Z.eqb_eq. }
  destruct (filter (fun q => hasId id q = true) (products db)) as [|q qs] eqn:Hf; [done|].
  simpl length. rewrite Nat2Z.inj_succ.
  destruct (Z.eqb_spec (Z.succ (Z.of_nat (length qs))) 0) as [Hz|_]; [lia|].
  simpl. split; [done|]. split.
  - apply list_filter_iff. intros x. unfold hasId.
    destruct (Z.eqb_spec (Product.ID x) id); split; intros; congruence.
  - unfold getProduct, querySelectOne. rewrite Hfs. simpl.
    rewrite filter_hasId_fresh; [done|].
    apply Forall_forall. intros x Hx. apply list_elem_of_filter in Hx as [Hx _].
    unfold hasId in Hx. by apply Z.eqb_neq.
Qed.

Lemma insertDesc_perm {A : Type} (key : A -> Z) (x : A) (l : list A) :
  insertDesc key x l ≡ₚ x :: l.
Proof.
  induction l as [|y l IH]; [done|]. simpl.
  destruct (key y <? key x); [done|]. rewrite IH. apply Permutation_swap.
Qed.

Lemma orderByDesc_perm {A : Type} (key : A -> Z) (l : list A) :
  orderByDesc key l ≡ₚ l.
Proof.
  unfold orderByDesc. induction l as [|x l IH]; [done|].
  simpl. rewrite insertDesc_perm. by rewrite IH.
Qed.

Lemma insertDesc_newestFirst {A : Type} (key : A -> Z) (x : A) (l : list A) :
  newestFirst (key <$> l) -> newestFirst (key <$> insertDesc key x l).
Proof.
  induction l as [|y l IH]; intros Hl; simpl.
  - split; [constructor|done].
  - destruct Hl as [Hy Hl]. destruct (Z.ltb_spec (key y) (key x)) as [Hlt|Hge].
    + simpl. split; [|by split]. constructor; [lia|].
      eapply Forall_impl; [exact Hy|]. intros u Hu. simpl in Hu. lia.
    + simpl. split; [|by apply IH].
      rewrite (insertDesc_perm key x l). rewrite fmap_cons.
      constructor; [lia|done].
Qed.

Lemma orderByDesc_newestFirst {A : Type} (key : A -> Z) (l : list A) :
  newestFirst (key <$> orderByDesc key l).
Proof.
  unfold orderByDesc. induction l as [|x l IH]; [done|].
  simpl. by apply insertDesc_newestFirst.
Qed.

(** X8.  When its query is answered, the listing of the products is a 200
    whose [products] is [null] on an empty table and otherwise an array
    that holds every stored product once, the most recently created first. *)
Theorem getProducts_lists_all (db : Db) :
  fault SelectAll = false ->
  (getProducts fault db).2 = db
  ∧ (products db = [] ->
     (getProducts fault db).1 = mkResponse 200 (JObj [("products", JNull)]))
  ∧ (products db ≠ [] ->
     ∃ rows, (getProducts fault db).1
             = mkResponse 200 (JObj [("products", JArr (productJson <$> rows))])
             ∧ rows ≡ₚ products db
             ∧ newestFirst (Product.CreatedAt <$> rows)).
Proof.
  intros Hf. unfold getProducts, querySelectAll. rewrite Hf.
  pose proof (orderByDesc_perm Product.CreatedAt (products db)) as Hperm.
  pose proof (orderByDesc_newestFirst Product.CreatedAt (products db)) as Hsorted.
  destruct (orderByDesc Product.CreatedAt (products db)) as [|q qs] eqn:Hrows.
  - split; [done|]. split; [done|]. intros Hne.
    apply Permutation_nil_l in Hperm. by rewrite Hperm in Hne.
  - split; [done|]. split.
    + intros Hnil. rewrite Hnil in Hperm. by apply Permutation_nil_r in Hperm.
    + intros _. by exists (q :: qs).
Qed.
End ProductServiceRoutes.

(** ** User service: register, login, read, update, delete *)

Section UserServiceRoutes.
Import UserService Invariants.
Variable fault : Stmt -> bool.
Variable now : Z.
Variable isEmail : string -> bool.
Variable bcrypt_hash : string -> string.
Variable bcrypt_compare : string -> string -> bool.
Variable jwt_sign : Z -> string -> string.

Local Abbreviation register := (register fault now isEmail bcrypt_hash).
Local Abbreviation login := (login fault isEmail bcrypt_compare jwt_sign).
Local Abbreviation serve := (serve fault now isEmail bcrypt_hash bcrypt_compare jwt_sign).

Lemma NoDup_fmap_inj_on {A B : Type} (f : A -> B) (l : list A) (x y : A) :
  NoDup (f <$> l) -> x ∈ l -> y ∈ l -> f x = f y -> x = y.
Proof.
  induction l as [|z l IH]; intros Hnd Hx Hy Hf; [by apply elem_of_nil in Hx|].
  rewrite fmap_cons in Hnd. apply NoDup_cons in Hnd as [Hz Hnd].
  apply elem_of_cons in Hx as [->|Hx]; apply elem_of_cons in Hy as [->|Hy].
  - done.
  - exfalso. apply Hz. rewrite Hf. apply list_elem_of_fmap. by exists y.
  - exfalso. apply Hz. rewrite <- Hf. apply list_elem_of_fmap. by exists x.
  - by apply IH.
Qed.

Lemma emailTaken_false (e : string) (i : Z) (l : list UserRow) :
  emailTaken e i l = false <-> Forall (fun u => email u = e -> id u = i) l.
Proof.
  unfold emailTaken. induction l as [|u l IH]; [by split; [constructor|]|].
  simpl. rewrite orb_false_iff, IH, Forall_cons.
  assert (bool_decide (email u = e) && negb (id u =? i) = false
          <-> (email u = e -> id u = i)) as ->; [|done].
  destruct (decide (email u = e)) as [He|He].
  - rewrite (bool_decide_eq_true_2 _ He). simpl.
    destruct (Z.eqb_spec (id u) i); split; try done. intros H. by specialize (H He).
  - by rewrite (bool_decide_eq_false_2 _ He).
Qed.

Lemma joiString_none (key : string) (minLen : nat) (valid : string -> bool)
    (what : string) (v : option string) :
  joiString key minLen valid what v = None
  <-> ∃ s, v = Some s ∧ s ≠ "" ∧ valid s = true ∧ (minLen <= jsLength s)%nat.
Proof.
  unfold joiString. destruct v as [s|]; [|split; [done|by intros (s & ? & _)]].
  destruct (decide (s = "")) as [Hs|Hs].
  - rewrite (bool_decide_eq_true_2 _ Hs). split; [done|]. intros (s' & [= <-] & Hne & _). done.
  - rewrite (bool_decide_eq_false_2 _ Hs). destruct (valid s) eqn:Hv; simpl.
    + destruct (decide (jsLength s < minLen)%nat) as [Hl|Hl].
      * rewrite (bool_decide_eq_true_2 _ Hl). split; [done|].
        intros (s' & [= <-] & _ & _ & Hge). lia.
      * rewrite (bool_decide_eq_false_2 _ Hl). split; [|done]. intros _.
        exists s. split; [done|]. split; [done|]. split; [done|lia].
    + split; [done|]. intros (s' & [= <-] & _ & Hv' & _). congruence.
Qed.

Lemma userSchema_accepted (b : Body) :
  userSchema isEmail b = None <-> registerAccepted isEmail b = true.
Proof.
  unfold userSchema, registerAccepted. cbn [firstError].
  destruct (joiString "email" 0 isEmail "email" (b_email b)) as [err|] eqn:He.
  - split; [done|]. intros Hacc.
    assert (joiString "email" 0 isEmail "email" (b_email b) = None) as Hn; [|congruence].
    apply joiString_none. destruct (b_email b) as [e|]; [|done].
    destruct (b_password b); [|done]. destruct (b_name b); [|done].
    apply andb_true_iff in Hacc as [Hacc _]. apply andb_true_iff in Hacc as [Hacc _].
    apply andb_true_iff in Hacc as [Hne Hv]. exists e. repeat split; [|done|lia].
    apply negb_true_iff, bool_decide_eq_false in Hne. done.
  - apply joiString_none in He as (e & -> & Hne & Hv & _).
    destruct (joiString "password" 6 _ "" (b_password b)) as [err|] eqn:Hp.
    + split; [done|]. intros Hacc.
      assert (joiString "password" 6 (fun _ => true) "" (b_password b) = None) as Hn;
        [|congruence].
      apply joiString_none. destruct (b_password b) as [p|]; [|done].
      destruct (b_name b); [|done].
      apply andb_true_iff in Hacc as [Hacc _]. apply andb_true_iff in Hacc as [_ Hlen].
      apply Nat.leb_le in Hlen. exists p. repeat split; [|done].
      intros ->. simpl in Hlen. lia.
    + apply joiString_none in Hp as (p & -> & _ & _ & Hlen).
      destruct (joiString "name" 2 _ "" (b_name b)) as [err|] eqn:Hn.
      * split; [done|]. intros Hacc.
        assert (joiString "name" 2 (fun _ => true) "" (b_name b) = None) as Hn';
          [|congruence].
        apply joiString_none. destruct (b_name b) as [n|]; [|done].
        apply andb_true_iff in Hacc as [_ Hlen']. apply Nat.leb_le in Hlen'.
        exists n. repeat split; [|done]. intros ->. simpl in Hlen'. lia.
      * apply joiString_none in Hn as (n & -> & _ & _ & Hlen').
        split; [|done]. intros _.
        rewrite (bool_decide_eq_false_2 _ Hne), Hv. cbn [negb andb].
        apply andb_true_iff. split; by apply Nat.leb_le.
Qed.

(** X9.  A registration is answered 400 exactly when its body does not pass
    the schema: a key is absent, the email is empty or not of the form of
    one, the password is shorter than six or the name shorter than two, in
    the length of the JavaScript string.  A registration answered 400
    stores nothing and draws no id. *)
Theorem register_rejected_exactly (b : Body) (db : Db) :
  (statusCode (register b db).1 = 400 <-> registerAccepted isEmail b = false)
  ∧ (registerAccepted isEmail b = false -> (register b db).2 = db).
Proof.
  pose proof (userSchema_accepted b) as Hacc. unfold UserService.register.
  destruct (userSchema isEmail b) as [msg|] eqn:Hs.
  - assert (Ha : registerAccepted isEmail b = false).
    { destruct (registerAccepted isEmail b); [|done].
      by destruct Hacc as [_ Hacc]; specialize (Hacc eq_refl). }
    by rewrite Ha.
  - assert (Ha : registerAccepted isEmail b = true) by by apply Hacc.
    rewrite Ha. split; [|done]. split; [|done].
    unfold selectByEmail, insertUser.
    destruct (fault RegisterSelect); [done|].
    destruct (filter _ (users db)); [|done].
    destruct (fault RegisterInsert); [done|]. by destruct (_ && _).
Qed.



Lemma login_spec (b : Body) (db : Db) :
  (login b db).2 = db
  ∧ (statusCode (login b db).1 = 200 ->
     ∃ e p user,
       b_email b = Some e ∧ b_password b = Some p
       ∧ user ∈ users db ∧ email user = e
       ∧ bcrypt_compare p (password user) = true
       ∧ (login b db).1
         = mkResponse 200
             (JObj [("message", JStr "Login successful");
                    ("token", JStr (jwt_sign (id user) (email user)));
                    ("user", JObj [("id", JInt (id user));
                                   ("email", JStr (email user));
                                   ("name", JStr (name user))])]))
  ∧ (statusCode (login b db).1 = 401 ->
     (login b db).1 = errorJson 401 "Invalid credentials").
Proof.
  unfold UserService.login.
  destruct (loginSchema isEmail b) as [msg|] eqn:Hs; [by repeat split|].
  unfold loginSchema in Hs. simpl in Hs.
  destruct (joiString "email" 0 isEmail "email" (b_email b)) eqn:He; [done|].
  destruct (joiString "password" 0 _ "" (b_password b)) eqn:Hp; [done|].
  apply joiString_none in He as (e & He & _). apply joiString_none in Hp as (p & Hp & _).
  rewrite He, Hp. simpl. unfold selectByEmail.
  destruct (fault LoginSelect); [by repeat split|].
  destruct (filter (fun u => email u = e) (users db)) as [|user rest] eqn:Hf;
    [by repeat split|].
  assert (Hin : user ∈ filter (fun u => email u = e) (users db))
    by (rewrite Hf; apply elem_of_cons; by left).
  apply list_elem_of_filter in Hin as [Hemail Hin].
  destruct (bcrypt_compare p (password user)) eqn:Hc; simpl; [|by repeat split].
  split; [done|]. split; [|done]. intros _. by exists e, p, user.
Qed.

(** X11.  A login never changes the table.  It is answered 200 only when a
    stored user has the email of the body and the comparison accepts the
    password of the body against the hash stored for that user, and the
    token is then signed for that user's id and email.  Every 401 carries
    the same body, whether the email is unknown or the password wrong. *)
Theorem login_sound (b : Body) (db : Db) :
  (login b db).2 = db
  ∧ (statusCode (login b db).1 = 200 ->
     ∃ e p user,
       b_email b = Some e ∧ b_password b = Some p
       ∧ user ∈ users db ∧ email user = e
       ∧ bcrypt_compare p (password user) = true
       ∧ (login b db).1
         = mkResponse 200
             (JObj [("message", JStr "Login successful");
                    ("token", JStr (jwt_sign (id user) (email user)));
                    ("user", JObj [("id", JInt (id user));
                                   ("email", JStr (email user));
                                   ("name", JStr (name user))])]))
  ∧ (statusCode (login b db).1 = 401 ->
     (login b db).1 = errorJson 401 "Invalid credentials").
Proof. apply login_spec. Qed.

Lemma filter_one {A : Type} (f : A -> Z) (l : list A) (x : A) :
  NoDup (f <$> l) -> x ∈ l -> filter (fun y => f y = f x) l = [x].
Proof.
  induction l as [|z l IH]; intros Hnd Hx; [by apply elem_of_nil in Hx|].
  rewrite fmap_cons in Hnd. apply NoDup_cons in Hnd as [Hz Hnd].
  apply elem_of_cons in Hx as [->|Hx].
  - rewrite filter_cons_True by done. f_equal. apply filter_none, Forall_forall.
    intros y Hy Hf. apply Hz. rewrite <- Hf. apply list_elem_of_fmap. by exists y.
  - rewrite filter_cons_False; [by apply IH|].
    intros Hf. apply Hz. rewrite Hf. apply list_elem_of_fmap. by exists x.
Qed.

Lemma updateUser_table (i : Z) (b : Body) (db : Db) :
  (statusCode (updateUser fault now i b db).1 ≠ 200 ∧ (updateUser fault now i b db).2 = db)
  ∨ (statusCode (updateUser fault now i b db).1 = 200
     ∧ Forall (fun u => id u = i ->
                 assignedOk (setFields now (truthy (b_name b)) (truthy (b_email b)) u) = true
                 ∧ emailTaken
                     (email (setFields now (truthy (b_name b)) (truthy (b_email b)) u))
                     i (users db) = false) (users db)
     ∧ (updateUser fault now i b db).2
       = mkDb ((fun u => if id u =? i
                         then setFields now (truthy (b_name b)) (truthy (b_email b)) u
                         else u) <$> users db) (users_id_seq db)).
Proof.
  unfold updateUser.
  assert (Hrun : let res := match updateRows fault now (truthy (b_name b)) (truthy (b_email b))
                                    i db with
                            | (None, db') => (errorJson 500 "Internal server error", db')
                            | (Some [], db') => (errorJson 404 "User not found", db')
                            | (Some (user :: _), db') =>
                                (mkResponse 200
                                   (JObj [("message", JStr "User updated successfully");
                                          ("user", userJson user "updatedAt" (updated_at user))]),
                                 db')
                            end in
                 (statusCode res.1 ≠ 200 ∧ res.2 = db)
                 ∨ (statusCode res.1 = 200
                    ∧ Forall (fun u => id u = i ->
                                assignedOk (setFields now (truthy (b_name b))
                                              (truthy (b_email b)) u) = true
                                ∧ emailTaken
                                    (email (setFields now (truthy (b_name b))
                                              (truthy (b_email b)) u))
                                    i (users db) = false) (users db)
                    ∧ res.2
                      = mkDb ((fun u => if id u =? i
                                        then setFields now (truthy (b_name b))
                                               (truthy (b_email b)) u
                                        else u) <$> users db) (users_id_seq db))).
  { cbv zeta. unfold updateRows. destruct (fault Update); [by left|].
    destruct (forallb _ _) eqn:Hall; [|by left].
    assert (Hnew : Forall (fun u => id u = i ->
                             assignedOk (setFields now (truthy (b_name b))
                                           (truthy (b_email b)) u) = true
                             ∧ emailTaken
                                 (email (setFields now (truthy (b_name b))
                                           (truthy (b_email b)) u))
                                 i (users db) = false) (users db)).
    { apply Forall_forall. intros u Hin Hid.
      rewrite forallb_forall in Hall.
      specialize (Hall (setFields now (truthy (b_name b)) (truthy (b_email b)) u)).
      apply andb_true_iff in Hall as [H1 H2]; [by apply negb_true_iff in H2|].
      apply list_elem_of_In, list_elem_of_fmap. exists u. split; [done|].
      by apply list_elem_of_filter. }
    clear Hall.
    destruct (setFields now _ _ <$> filter _ (users db)) as [|user rest] eqn:Hrows.
    - left. split; [done|]. simpl. destruct db as [us sq]. simpl in *. f_equal.
      assert (Hnone : filter (fun u => id u = i) us = []) by (by destruct (filter _ us)).
      clear Hrows Hnew. induction us as [|u us IH]; [done|].
      rewrite filter_cons in Hnone. destruct (decide (id u = i)) as [Hu|Hu]; [done|].
      rewrite fmap_cons, IH by done. by destruct (Z.eqb_spec (id u) i).
    - right. by split. }
  destruct (truthy (b_name b)) as [nn|] eqn:Hn; [exact Hrun|].
  destruct (truthy (b_email b)) as [ne|] eqn:Hem; [exact Hrun|]. by left.
Qed.

(** X12.  Whatever the body and however the request ends, an update of user
    [i] changes no row of another id, adds and removes no row and draws no
    id; it never changes the id, the stored password or the creation time
    of a row, and a [name] or [email] that is absent or empty leaves the
    stored one as it is. *)
Theorem updateUser_frame (i : Z) (b : Body) (db : Db) :
  users_id_seq (updateUser fault now i b db).2 = users_id_seq db
  ∧ Forall2 (fun u u' =>
               id u' = id u ∧ password u' = password u ∧ created_at u' = created_at u
               ∧ (id u ≠ i -> u' = u)
               ∧ (truthy (b_name b) = None -> name u' = name u)
               ∧ (truthy (b_email b) = None -> email u' = email u))
      (users db) (users (updateUser fault now i b db).2).
Proof.
  destruct (updateUser_table i b db) as [[_ ->]|(_ & _ & ->)].
  - split; [done|]. apply Forall2_same_length_lookup_2; [done|].
    intros k u u' H1 H2. by simplify_eq.
  - simpl. split; [done|].
    apply Forall2_fmap_r. apply Forall2_same_length_lookup_2; [done|].
    intros k u u' H1 H2. simplify_eq. unfold compose. cbv beta.
    destruct (Z.eqb_spec (id u) i) as [Heq|Hne]; [|done].
    unfold setFields. simpl. repeat split; [done| |]; by intros ->.
Qed.

(** X13.  An update that would give user [i] the email of another stored
    user is answered 500 and changes nothing: the unique constraint of the
    table rejects the statement and the handler reports every failure of a
    statement as an internal error. *)
Theorem updateUser_email_taken (i : Z) (b : Body) (db : Db) (e : string) (u v : UserRow) :
  truthy (b_email b) = Some e ->
  u ∈ users db -> id u = i ->
  v ∈ users db -> id v ≠ i -> email v = e ->
  updateUser fault now i b db = (errorJson 500 "Internal server error", db).
Proof.
  intros He Hu Hid Hv Hvid Hve. unfold updateUser. rewrite He.
  assert (Hrows : forall nn, updateRows fault now nn (Some e) i db = (None, db)).
  { intros nn. unfold updateRows. destruct (fault Update); [done|].
    destruct (forallb _ _) eqn:Hall; [|done]. exfalso.
    rewrite forallb_forall in Hall.
    specialize (Hall (setFields now nn (Some e) u)).
    apply andb_true_iff in Hall as [_ Hfree].
    - apply negb_true_iff, emailTaken_false in Hfree.
      rewrite Forall_forall in Hfree. specialize (Hfree v Hv). simpl in Hfree.
      by apply Hvid, Hfree.
    - apply list_elem_of_In, list_elem_of_fmap. exists u. split; [done|].
      by apply list_elem_of_filter. }
  destruct (truthy (b_name b)); cbv beta iota; by rewrite Hrows.
Qed.

(** X27.  What suffices for an update.  On a well-formed table, an update of
    a stored user that names a new name, a new email or both is answered
    200 when the values fit and the email the user ends with is held by no
    other user; the user keeps the field the body leaves out, so a change
    of the name alone never trips over the user's own email. *)
Theorem updateUser_succeeds (i : Z) (b : Body) (db : Db) (u : UserRow) :
  usersOk db ->
  u ∈ users db -> id u = i ->
  fault Update = false ->
  (truthy (b_name b) ≠ None ∨ truthy (b_email b) ≠ None) ->
  assignedOk (setFields now (truthy (b_name b)) (truthy (b_email b)) u) = true ->
  Forall (fun v => id v ≠ i -> email v ≠ default (email u) (truthy (b_email b))) (users db) ->
  updateUser fault now i b db
  = (mkResponse 200
       (JObj [("message", JStr "User updated successfully");
              ("user", userJson (setFields now (truthy (b_name b)) (truthy (b_email b)) u)
                         "updatedAt" now)]),
     mkDb ((fun v => if id v =? i
                     then setFields now (truthy (b_name b)) (truthy (b_email b)) v
                     else v) <$> users db) (users_id_seq db)).
Proof.
  intros (Hids & _) Hu Hid Hf Hsome Hfits Hfree.
  assert (Hsel : filter (fun v => id v = i) (users db) = [u]).
  { rewrite <- Hid. by apply (filter_one id). }
  assert (Hrows : updateRows fault now (truthy (b_name b)) (truthy (b_email b)) i db
                  = (Some [setFields now (truthy (b_name b)) (truthy (b_email b)) u],
                     mkDb ((fun v => if id v =? i
                                     then setFields now (truthy (b_name b))
                                            (truthy (b_email b)) v
                                     else v) <$> users db) (users_id_seq db))).
  { unfold updateRows. rewrite Hf, Hsel. simpl. rewrite Hfits.
    assert (emailTaken (default (email u) (truthy (b_email b))) i (users db) = false) as ->.
    { apply emailTaken_false. eapply Forall_impl; [exact Hfree|]. intros v Hv He.
      destruct (decide (id v = i)); [done|]. by specialize (Hv n). }
    done. }
  unfold updateUser.
  destruct (truthy (b_name b)), (truthy (b_email b));
    try (by destruct Hsome); by rewrite Hrows.
Qed.

(** X14.  Deleting a stored user is answered 200; the rows of that id are
    gone and every other user stays where it was.  A GET of the id is then
    answered 404 and, on a table with unique emails, no login with the
    email of the deleted user is answered 200. *)
Theorem deleteUser_then_gone (i : Z) (db : Db) (u : UserRow) (b : Body) :
  usersOk db ->
  u ∈ users db -> id u = i ->
  fault Delete = false -> fault SelectOne = false ->
  b_email b = Some (email u) ->
  deleteUser fault i db
  = (mkResponse 200 (JObj [("message", JStr "User deleted successfully")]),
     mkDb (filter (fun v => id v ≠ i) (users db)) (users_id_seq db))
  ∧ (getUser fault i (deleteUser fault i db).2).1 = errorJson 404 "User not found"
  ∧ statusCode (login b (deleteUser fault i db).2).1 ≠ 200.
Proof.
  intros (Hids & Hemails & _ & _) Hu Hid Hfd Hfs Hb.
  assert (Hdel : deleteUser fault i db
                 = (mkResponse 200 (JObj [("message", JStr "User deleted successfully")]),
                    mkDb (filter (fun v => id v ≠ i) (users db)) (users_id_seq db))).
  { unfold deleteUser, deleteRows. rewrite Hfd.
    destruct (filter (fun v => id v = i) (users db)) as [|w ws] eqn:Hf; [|done].
    exfalso. by apply (filter_nil_not_elem_of _ _ u Hf). }
  rewrite Hdel. split; [done|]. simpl. split.
  - unfold getUser. rewrite Hfs. simpl.
    rewrite filter_none; [done|]. apply Forall_forall.
    by intros w [Hw _]%list_elem_of_filter.
  - intros Hok. destruct (login_spec b (mkDb (filter (fun v => id v ≠ i) (users db))
                                        (users_id_seq db)))
      as (_ & Hsound & _).
    destruct (Hsound Hok) as (e & p & w & He & _ & Hw & Hwe & _).
    simpl in Hw. apply list_elem_of_filter in Hw as [Hwi Hw].
    rewrite Hb in He. injection He as <-.
    apply Hwi. rewrite <- Hid. f_equal.
    by apply (NoDup_fmap_inj_on email (users db)).
Qed.

(** X15.  Every request to the user service, whatever it is and however it
    ends, keeps the table well formed: ids stay unique and below the
    sequence, no two users share an email, and every column fits. *)
Theorem user_service_keeps_table (r : Request) (db : Db) :
  usersOk db -> usersOk (serve r db).2.
Proof.
  intros (Hids & Hemails & Hseq & Hok). destruct r as [b|b| |i|i b|i]; simpl.
  - unfold UserService.register. destruct (userSchema isEmail b); [done|].
    unfold selectByEmail. destruct (fault RegisterSelect); [done|].
    destruct (filter _ (users db)); [|done].
    unfold insertUser. destruct (fault RegisterInsert); [done|]. cbv zeta.
    destruct (rowOk _ && negb _) eqn:Hnew; simpl.
    + apply andb_true_iff in Hnew as [Hrow Hfree].
      apply negb_true_iff, emailTaken_false in Hfree.
      repeat split; simpl.
      * rewrite fmap_app. apply NoDup_app. split; [done|]. split; [|apply NoDup_singleton].
        intros k Hk [= ->]%list_elem_of_singleton.
        apply list_elem_of_fmap in Hk as (w & Hw & Hin).
        rewrite Forall_forall in Hseq. specialize (Hseq w Hin). simpl in Hw. lia.
      * rewrite fmap_app. apply NoDup_app. split; [done|]. split; [|apply NoDup_singleton].
        intros k Hk [= ->]%list_elem_of_singleton.
        apply list_elem_of_fmap in Hk as (w & Hw & Hin).
        rewrite Forall_forall in Hseq, Hfree. specialize (Hseq w Hin).
        specialize (Hfree w Hin). simpl in Hw. symmetry in Hw. specialize (Hfree Hw). lia.
      * apply Forall_app. split.
        -- eapply Forall_impl; [exact Hseq|]. intros w Hw. simpl in Hw. lia.
        -- constructor; [|constructor]. simpl. lia.
      * apply Forall_app. split; [done|]. by constructor.
    + repeat split; simpl; try done.
      eapply Forall_impl; [exact Hseq|]. intros w Hw. simpl in Hw. lia.
  - by rewrite (proj1 (login_spec b db)).
  - unfold getUsers. by destruct (fault SelectAll).
  - unfold getUser. destruct (fault SelectOne); [done|]. by destruct (filter _ _).
  - destruct (updateUser_table i b db) as [[_ ->]|(_ & Hnew & ->)]; [done|].
    rewrite Forall_forall in Hnew.
    repeat split; simpl.
    + rewrite <- list_fmap_compose.
      rewrite (list_fmap_ext _ id (users db)); [done|].
      intros k w _. simpl. by destruct (id w =? i).
    + rewrite <- list_fmap_compose.
      apply NoDup_fmap_2_strong; [|by eapply NoDup_fmap_1].
      intros x y Hx Hy. unfold compose. cbv beta.
      destruct (Z.eqb_spec (id x) i) as [Hxi|Hxi]; destruct (Z.eqb_spec (id y) i) as [Hyi|Hyi].
      * intros _. apply (NoDup_fmap_inj_on id (users db)); [done..|congruence].
      * intros He. exfalso. destruct (Hnew x Hx Hxi) as [_ Hfree].
        apply emailTaken_false in Hfree. rewrite Forall_forall in Hfree.
        apply Hyi. by apply (Hfree y Hy).
      * intros He. exfalso. destruct (Hnew y Hy Hyi) as [_ Hfree].
        apply emailTaken_false in Hfree. rewrite Forall_forall in Hfree.
        apply Hxi. by apply (Hfree x Hx).
      * by apply (NoDup_fmap_inj_on email (users db)).
    + apply Forall_fmap. eapply Forall_impl; [exact Hseq|].
      intros w Hw. simpl. by destruct (id w =? i).
    + apply Forall_fmap, Forall_forall. intros w Hw. simpl.
      rewrite Forall_forall in Hok. specialize (Hok w Hw).
      destruct (Z.eqb_spec (id w) i) as [Hwi|Hwi]; [|done].
      destruct (Hnew w Hw Hwi) as [Hassigned _].
      unfold rowOk, assignedOk in *. simpl in *.
      apply andb_true_iff in Hassigned as [H1 H2].
      apply andb_true_iff in Hok as [Hok _]. apply andb_true_iff in Hok as [_ Hpw].
      by rewrite H1, H2, Hpw.
  - unfold deleteUser, deleteRows. destruct (fault Delete); [done|].
    assert (usersOk (mkDb (filter (fun v => id v ≠ i) (users db)) (users_id_seq db))) as Hdel.
    { repeat split; simpl.
      - eapply sublist_NoDup; [exact Hids|]. apply fmap_sublist, sublist_filter.
      - eapply sublist_NoDup; [exact Hemails|]. apply fmap_sublist, sublist_filter.
      - apply Forall_forall. intros x [_ Hx]%list_elem_of_filter.
        rewrite Forall_forall in Hseq. by apply Hseq.
      - apply Forall_forall. intros x [_ Hx]%list_elem_of_filter.
        rewrite Forall_forall in Hok. by apply Hok. }
    simpl. by destruct (id <$> filter _ _).
Qed.

(** X16.  When its query is answered, the listing of the users is a 200
    whose [users] array holds every stored user once, the most recently
    created first; on an empty table it is the empty array. *)
Theorem getUsers_lists_all (db : Db) :
  fault SelectAll = false ->
  ∃ rows, getUsers fault db
          = (mkResponse 200
               (JObj [("users", JArr ((fun u => userJson u "createdAt" (created_at u))
                                        <$> rows))]), db)
          ∧ rows ≡ₚ users db
          ∧ newestFirst (created_at <$> rows)
          ∧ (users db = [] -> rows = []).
Proof.
  intros Hf. unfold getUsers. rewrite Hf.
  exists (orderByDesc created_at (users db)). split; [done|].
  split; [apply orderByDesc_perm|]. split; [apply orderByDesc_newestFirst|].
  by intros ->.
Qed.
End UserServiceRoutes.

(** ** Order service: validation, status updates, reads *)

Section OrderServiceRoutes.
Import OrderService Vocabulary Invariants.
Variable W : Type.
Variable getUser : Z -> W -> HttpResult User.t * W.
Variable getProduct : Z -> W -> HttpResult Product.t * W.
Variable fault : DbOp -> bool.
Variable now : Z.

Local Abbreviation updateOrder := (updateOrder W fault now).
Local Abbreviation getOrder := (getOrder W getUser fault).
Local Abbreviation getUserOrders := (getUserOrders W fault).

Lemma joiPositiveInt_inr (key : string) (v : option Z) (n : Z) :
  joiPositiveInt key v = inr n <-> v = Some n ∧ 0 < n <= 9007199254740991.
Proof.
  unfold joiPositiveInt. destruct v as [m|]; [|split; [done|by intros [? _]]].
  destruct (Z.ltb_spec 9007199254740991 (Z.abs m)) as [Hbig|Hsafe].
  - split; [done|]. intros [[= ->] Hn]. lia.
  - destruct (Z.ltb_spec 0 m) as [Hpos|Hneg].
    + split; [intros [= ->]; split; [done|lia]|by intros [[= ->] _]].
    + split; [done|]. intros [[= ->] Hn]. lia.
Qed.

Lemma validateItems_inr (l : list ItemBody) :
  forall (i : nat) (its : list Item.t),
    validateItems i l = inr its <-> Forall2 validLine l its.
Proof.
  induction l as [|it rest IH]; intros i its; simpl.
  - split; [intros [= <-]; constructor|]. intros H. by inversion H.
  - destruct (joiPositiveInt _ (b_productId it)) as [e|p] eqn:Hp.
    { split; [done|]. intros H. inversion H as [|? item ? its' (Hp' & _ & Hr & _)]; subst.
      assert (joiPositiveInt (itemKey i "productId") (b_productId it)
              = inr (Item.productId item)) as Hn by (by apply joiPositiveInt_inr).
      congruence. }
    apply joiPositiveInt_inr in Hp as [Hp Hpr].
    destruct (joiPositiveInt _ (b_quantity it)) as [e|q] eqn:Hq.
    { split; [done|]. intros H. inversion H as [|? item ? its' (_ & Hq' & _ & Hr)]; subst.
      assert (joiPositiveInt (itemKey i "quantity") (b_quantity it)
              = inr (Item.quantity item)) as Hn by (by apply joiPositiveInt_inr).
      congruence. }
    apply joiPositiveInt_inr in Hq as [Hq Hqr].
    destruct (validateItems (S i) rest) as [e|its'] eqn:Hrest.
    + split; [done|]. intros H. inversion H as [|? item ? its'' _ Hrest']; subst.
      apply (proj2 (IH (S i) _)) in Hrest'. congruence.
    + apply (proj1 (IH (S i) _)) in Hrest. split.
      * intros [= <-]. constructor; [|done]. unfold validLine. simpl.
        repeat split; try done; lia.
      * intros H. inversion H as [|? item ? its'' (Hp' & Hq' & _) Hrest']; subst.
        apply (proj2 (IH (S i) _)) in Hrest'. apply (proj2 (IH (S i) _)) in Hrest.
        destruct item as [p' q']. simpl in *. congruence.
Qed.

Lemma orderSchema_valid (b : Body) (value : OrderValue) :
  orderSchema b = inr value
  <-> b_userId b = Some (userId value)
      ∧ 0 < userId value <= 9007199254740991
      ∧ (∃ l, b_items b = Some l ∧ Forall2 validLine l (items value))
      ∧ items value ≠ []
      ∧ b_status b = None.
Proof.
  unfold orderSchema.
  destruct (joiPositiveInt "userId" (b_userId b)) as [e|uid] eqn:Hu.
  { split; [done|]. intros (Hb & Hr & _).
    assert (joiPositiveInt "userId" (b_userId b) = inr (userId value)) as Hn
      by (by apply joiPositiveInt_inr).
    congruence. }
  apply joiPositiveInt_inr in Hu as [Hu Hur].
  destruct (b_items b) as [l|]; [|split; [done|by intros (_ & _ & (l & ? & _) & _)]].
  destruct (validateItems 0 l) as [e|its] eqn:Hits.
  { split; [done|]. intros (_ & _ & (l' & [= <-] & Hl) & _).
    apply (validateItems_inr l 0) in Hl. congruence. }
  apply validateItems_inr in Hits.
  destruct its as [|item its].
  { simpl. split; [done|]. intros (_ & _ & (l' & [= <-] & Hl) & Hne & _).
    inversion Hits; subst. inversion Hl; subst. done. }
  rewrite bool_decide_eq_false_2 by (simpl; lia).
  destruct (b_status b) as [st|]; [split; [done|by intros (_ & _ & _ & _ & ?)]|].
  split.
  - intros [= <-]. simpl. split; [done|]. split; [done|]. split; [by exists l|done].
  - intros (Hb & _ & (l' & [= <-] & Hl) & _ & _). destruct value as [uid' its'].
    simpl in *. simplify_eq. f_equal.
    apply (validateItems_inr l 0) in Hits. apply (validateItems_inr l 0) in Hl. congruence.
Qed.

(** X17.  A create-order payload passes validation, with the value the
    handler goes on with, exactly when its user id is a positive safe
    integer, [items] is an array of at least one line, every line carries a
    product id and a quantity that are positive safe integers, and there is
    no [status] key. *)
Theorem orderSchema_accepts (b : Body) (value : OrderValue) :
  orderSchema b = inr value
  <-> b_userId b = Some (userId value)
      ∧ 0 < userId value <= 9007199254740991
      ∧ (∃ l, b_items b = Some l ∧ Forall2 validLine l (items value))
      ∧ items value ≠ []
      ∧ b_status b = None.
Proof. apply orderSchema_valid. Qed.

Lemma status_fits (st : string) : st ∈ statuses -> fitsVarchar 50 st = true.
Proof.
  unfold statuses. intros Hst. repeat (apply elem_of_cons in Hst as [->|Hst]; [done|]).
  by apply elem_of_nil in Hst.
Qed.

(** A status update that goes through: the state it leaves. *)
Lemma updateOrder_runs (id : Z) (st : string) (s : State W) (o : Order.t) :
  st ∈ statuses ->
  fault UpdateStatus = false ->
  Forall (fun o' => orderOk o' = true) (orders (db s)) ->
  o ∈ orders (db s) -> Order.id o = id ->
  statusCode (updateOrder id (mkBody None None (Some st)) s).1 = 200
  ∧ (updateOrder id (mkBody None None (Some st)) s).2
    = mkState (world s)
        (mkDb ((fun o' => if Order.id o' =? id then setStatus now st o' else o')
                 <$> orders (db s))
           (order_items (db s)) (orders_id_seq (db s)) (order_items_id_seq (db s)))
        (txn s) (log s ++ [DbCall UpdateStatus]).
Proof.
  intros Hst Hf Hok Ho Hid. unfold OrderService.updateOrder, handle, updateOrderSchema.
  simpl. rewrite (bool_decide_eq_true_2 _ Hst). unfold bind, query_update_status.
  rewrite Hf. simpl.
  assert (Hnew : forallb orderOk
                   (setStatus now st <$> filter (fun o' => Order.id o' = id) (orders (db s)))
                 = true).
  { apply forallb_forall. intros x Hx. apply list_elem_of_In in Hx.
    apply list_elem_of_fmap in Hx as (o' & -> & Ho').
    apply list_elem_of_filter in Ho' as [_ Ho'].
    rewrite Forall_forall in Hok. specialize (Hok o' Ho').
    unfold orderOk in *. simpl.
    apply andb_true_iff in Hok as [Hok _]. apply andb_true_iff in Hok as [Hok _].
    rewrite Hok, (status_fits st Hst), (bool_decide_eq_true_2 _ Hst). done. }
  rewrite Hnew.
  destruct (filter (fun o' => Order.id o' = id) (orders (db s))) as [|o1 rest] eqn:Hf1.
  { exfalso. by apply (filter_nil_not_elem_of _ _ o Hf1). }
  simpl. done.
Qed.

(** X18.  The order service has no rule on which status may follow which:
    a body that carries one of the five statuses and nothing else sets it
    on the stored order of that id, whatever its status was, and stamps
    the time of the update; the answer is 200 and no other order changes.
    A status outside the five is answered 400 before any database call. *)
Theorem updateOrder_any_transition (id : Z) (st : string) (s : State W) (o : Order.t) :
  (st ∈ statuses ->
   fault UpdateStatus = false ->
   Forall (fun o' => orderOk o' = true) (orders (db s)) ->
   o ∈ orders (db s) -> Order.id o = id ->
   statusCode (updateOrder id (mkBody None None (Some st)) s).1 = 200
   ∧ orders (db (updateOrder id (mkBody None None (Some st)) s).2)
     = (fun o' => if Order.id o' =? id
                  then Order.mk (Order.id o') (Order.user_id o') (Order.total_amount o') st
                         (Order.created_at o') now
                  else o') <$> orders (db s))
  ∧ (st ∉ statuses ->
     forall b, b_status b = Some st ->
       statusCode (updateOrder id b s).1 = 400 ∧ (updateOrder id b s).2 = s).
Proof.
  split.
  - intros Hst Hf Hok Ho Hid.
    destruct (updateOrder_runs id st s o Hst Hf Hok Ho Hid) as [Hcode ->]. by split.
  - intros Hst b Hb. unfold OrderService.updateOrder, handle, updateOrderSchema.
    rewrite Hb, (bool_decide_eq_false_2 _ Hst). done.
Qed.

Lemma filter_eqb_id (id : Z) (l : list Order.t) :
  filter (fun o => (Order.id o =? id) = true) l = filter (fun o => Order.id o = id) l.
Proof. apply list_filter_iff. intros o. apply Z.eqb_eq. Qed.

(** The read of a stored order. *)
Lemma getOrder_runs (s : State W) (order : Order.t) :
  fault SelectOrder = false ->
  NoDup (Order.id <$> orders (db s)) ->
  order ∈ orders (db s) ->
  fault (SelectItems (Order.id order)) = false ->
  (getOrder (Order.id order) s).1
  = mkResponse 200
      (JObj [("order",
              withItems order
                [("userName", JStr (shownName (getUser (Order.user_id order) (world s)).1))]
                (filter (fun r => OrderItem.order_id r = Order.id order)
                   (order_items (db s))))]).
Proof.
  intros Hf Hnd Hin Hfi.
  unfold OrderService.getOrder, handle, bind, query_orders. rewrite Hf.
  simpl. rewrite filter_eqb_id.
  rewrite (filter_one Order.id _ order) by done.
  unfold query_items. rewrite Hfi. simpl.
  unfold fetchUserName, axios_get_user. simpl.
  by destruct (getUser (Order.user_id order) (world s)) as [[user|code|] w].
Qed.

(** X19.  Reading one order.  When no stored order has the id, the answer is
    404 and neither the lines nor the user service are asked.  When the
    order is stored (ids being unique) the answer is 200 with that order,
    the stored lines that belong to it, and the name the user service gives
    for its owner; when the user service answers anything but a user, or
    does not answer, the read still succeeds and shows [Unknown User]. *)
Theorem getOrder_found_or_not (id : Z) (s : State W) :
  fault SelectOrder = false ->
  (Forall (fun o => Order.id o ≠ id) (orders (db s)) ->
   getOrder id s
   = (errorJson 404 "Order not found",
      mkState (world s) (db s) (txn s) (log s ++ [DbCall SelectOrder])))
  ∧ (forall order,
       NoDup (Order.id <$> orders (db s)) ->
       order ∈ orders (db s) -> Order.id order = id ->
       fault (SelectItems id) = false ->
       (getOrder id s).1
       = mkResponse 200
           (JObj [("order",
                   withItems order
                     [("userName",
                       JStr (shownName (getUser (Order.user_id order) (world s)).1))]
                     (filter (fun r => OrderItem.order_id r = id) (order_items (db s))))])).
Proof.
  intros Hf. split.
  - intros Hnone. unfold OrderService.getOrder, handle, bind, query_orders. rewrite Hf.
    simpl. rewrite filter_eqb_id, filter_none by done. done.
  - intros order Hnd Hin Hid Hfi. subst id. by apply getOrder_runs.
Qed.

(** X30.  A status update is seen by the next read: after an update that
    goes through, GET of the same id answers 200 with the order carrying the
    new status and the time of the update, and the owner, the total, the
    creation time and the lines as they were. *)
Theorem updateOrder_then_getOrder (id : Z) (st : string) (s : State W) (o : Order.t) :
  st ∈ statuses ->
  fault UpdateStatus = false -> fault SelectOrder = false ->
  fault (SelectItems id) = false ->
  NoDup (Order.id <$> orders (db s)) ->
  Forall (fun o' => orderOk o' = true) (orders (db s)) ->
  o ∈ orders (db s) -> Order.id o = id ->
  (getOrder id (updateOrder id (mkBody None None (Some st)) s).2).1
  = mkResponse 200
      (JObj [("order",
              withItems
                (Order.mk id (Order.user_id o) (Order.total_amount o) st
                   (Order.created_at o) now)
                [("userName", JStr (shownName (getUser (Order.user_id o) (world s)).1))]
                (filter (fun r => OrderItem.order_id r = id) (order_items (db s))))]).
Proof.
  intros Hst Hfu Hfs Hfi Hnd Hok Ho Hid.
  destruct (updateOrder_runs id st s o Hst Hfu Hok Ho Hid) as [_ ->]. subst id.
  set (s1 := mkState _ _ _ _).
  assert (Hin : setStatus now st o ∈ orders (db s1)).
  { simpl. apply list_elem_of_fmap. exists o. split; [|done]. by rewrite Z.eqb_refl. }
  assert (Hnd1 : NoDup (Order.id <$> orders (db s1))).
  { simpl. rewrite <- list_fmap_compose.
    rewrite (list_fmap_ext _ Order.id (orders (db s))); [done|].
    intros k o' _. simpl. by destruct (Order.id o' =? Order.id o). }
  exact (getOrder_runs s1 (setStatus now st o) Hfs Hnd1 Hin Hfi).
Qed.

Lemma enrich_spec (rows : list Order.t) :
  forall (acc : list Json) (s : State W),
    Forall (fun o => fault (SelectItems (Order.id o)) = false) rows ->
    enrich W fault rows acc s
    = (Next (acc ++ ((fun o => withItems o []
                                 (filter (fun r => OrderItem.order_id r = Order.id o)
                                    (order_items (db s)))) <$> rows)),
       mkState (world s) (db s) (txn s)
         (log s ++ ((fun o => DbCall (SelectItems (Order.id o))) <$> rows))).
Proof.
  induction rows as [|o rows IH]; intros acc s Hf; simpl.
  - rewrite !app_nil_r. by destruct s.
  - apply Forall_cons in Hf as [Ho Hf]. unfold bind at 1. unfold query_items at 1.
    rewrite Ho. simpl. rewrite IH by done. simpl. by rewrite <- !app_assoc.
Qed.

(** X20.  The orders of a user.  When the queries are answered, the answer
    is 200 with the stored orders whose owner is that user, and only those,
    the most recently created first, each with its stored lines; the user
    service and the product service are not asked, and the database is
    left as it is. *)
Theorem getUserOrders_lists_own (userId : Z) (s : State W) :
  fault SelectUserOrders = false ->
  (forall id, fault (SelectItems id) = false) ->
  ∃ rows,
    rows ≡ₚ filter (fun o => Order.user_id o = userId) (orders (db s))
    ∧ newestFirst (Order.created_at <$> rows)
    ∧ getUserOrders userId s
      = (mkResponse 200
           (JObj [("orders",
                   JArr ((fun o => withItems o []
                                     (filter (fun r => OrderItem.order_id r = Order.id o)
                                        (order_items (db s)))) <$> rows))]),
         mkState (world s) (db s) (txn s)
           (log s ++ DbCall SelectUserOrders
              :: ((fun o => DbCall (SelectItems (Order.id o))) <$> rows))).
Proof.
  intros Hf Hfi.
  exists (orderByDesc Order.created_at
            (filter (fun o => (Order.user_id o =? userId) = true) (orders (db s)))).
  split; [|split].
  - rewrite orderByDesc_perm. erewrite list_filter_iff; [done|].
    intros o. apply Z.eqb_eq.
  - apply orderByDesc_newestFirst.
  - unfold OrderService.getUserOrders, handle. unfold bind at 1. unfold query_orders.
    rewrite Hf. unfold bind. rewrite enrich_spec by (apply Forall_forall; intros; apply Hfi).
    simpl. by rewrite <- app_assoc.
Qed.

Lemma enrichWithUser_spec (rows : list Order.t) :
  (forall i w, (getUser i w).2 = w) ->
  forall (acc : list Json) (s : State W),
    Forall (fun o => fault (SelectItems (Order.id o)) = false) rows ->
    ∃ s',
      enrichWithUser W getUser fault rows acc s
      = (Next (acc ++ ((fun o =>
                          withItems o
                            [("userName",
                              JStr (shownName (getUser (Order.user_id o) (world s)).1))]
                            (filter (fun r => OrderItem.order_id r = Order.id o)
                               (order_items (db s)))) <$> rows)), s')
      ∧ world s' = world s ∧ db s' = db s ∧ txn s' = txn s.
Proof.
  intros Hread. induction rows as [|o rows IH]; intros acc s Hf; simpl.
  - exists s. by rewrite app_nil_r.
  - apply Forall_cons in Hf as [Ho Hf]. unfold bind at 1. unfold query_items at 1.
    rewrite Ho. unfold bind at 1. unfold fetchUserName, axios_get_user. simpl.
    pose proof (Hread (Order.user_id o) (world s)) as Hw.
    destruct (getUser (Order.user_id o) (world s)) as [r w] eqn:Hget. simpl in Hw. subst w.
    destruct r as [user|code|]; simpl;
      match goal with
      | |- context [enrichWithUser W getUser fault rows ?a ?st] =>
          destruct (IH a st Hf) as (s' & Hrun & Hw' & Hdb & Htxn)
      end;
      simpl in *; exists s'; (split; [|done]); by rewrite Hrun, <- app_assoc.
Qed.

Lemma filter_all_true {A : Type} (l : list A) : filter (fun _ => true = true) l = l.
Proof.
  induction l as [|x l IH]; [done|]. by rewrite filter_cons_True, IH.
Qed.

(** X26.  The listing of all orders.  When the queries are answered and the
    user lookups leave the user service as it is, the answer is 200 with
    every stored order once, the most recently created first, each with
    its stored lines and the name of its owner; an owner the user service
    does not return is shown as [Unknown User] and the listing still
    succeeds.  The database is left as it is. *)
Theorem getOrders_lists_all (s : State W) :
  (forall i w, (getUser i w).2 = w) ->
  fault SelectOrders = false ->
  (forall id, fault (SelectItems id) = false) ->
  ∃ rows,
    rows ≡ₚ orders (db s)
    ∧ newestFirst (Order.created_at <$> rows)
    ∧ (OrderService.getOrders W getUser fault s).1
      = mkResponse 200
          (JObj [("orders",
                  JArr ((fun o =>
                           withItems o
                             [("userName",
                               JStr (shownName (getUser (Order.user_id o) (world s)).1))]
                             (filter (fun r => OrderItem.order_id r = Order.id o)
                                (order_items (db s)))) <$> rows))])
    ∧ db (OrderService.getOrders W getUser fault s).2 = db s.
Proof.
  intros Hread Hf Hfi.
  exists (orderByDesc Order.created_at (orders (db s))).
  split; [apply orderByDesc_perm|]. split; [apply orderByDesc_newestFirst|].
  set (s1 := emit W (DbCall SelectOrders) s).
  destruct (enrichWithUser_spec (orderByDesc Order.created_at (orders (db s))) Hread [] s1)
    as (s' & Hrun & _ & Hdb & _).
  { apply Forall_forall. intros; apply Hfi. }
  assert (Hall : OrderService.getOrders W getUser fault s
                 = (mkResponse 200
                      (JObj [("orders",
                              JArr ((fun o =>
                                       withItems o
                                         [("userName",
                                           JStr (shownName
                                                   (getUser (Order.user_id o) (world s)).1))]
                                         (filter (fun r => OrderItem.order_id r = Order.id o)
                                            (order_items (db s))))
                                      <$> orderByDesc Order.created_at (orders (db s))))]),
                    s')).
  { unfold OrderService.getOrders, handle. unfold bind at 1. unfold query_orders.
    rewrite Hf. simpl. rewrite filter_all_true. fold s1. unfold bind. by rewrite Hrun. }
  rewrite Hall. by split.
Qed.
End OrderServiceRoutes.

(** ** Order service: what the tables keep *)

Section OrderServiceTables.
Import OrderService Vocabulary Invariants.
Variable W : Type.
Variable getUser : Z -> W -> HttpResult User.t * W.
Variable getProduct : Z -> W -> HttpResult Product.t * W.
Variable fault : DbOp -> bool.
Variable now : Z.

Lemma itemOk_more (os os' : list Order.t) (r : OrderItem.t) :
  (forall k, existsb (fun o => Order.id o =? k) os = true ->
             existsb (fun o => Order.id o =? k) os' = true) ->
  itemOk os r = true -> itemOk os' r = true.
Proof.
  unfold itemOk. intros Hsub H.
  destruct (existsb _ os) eqn:E; [|done]. by rewrite (Hsub _ E).
Qed.

Lemma tablesOk_seq (t : Tables) (a b a' b' : Z) :
  a <= a' -> b <= b' -> tablesOk t a b -> tablesOk t a' b'.
Proof.
  intros Ha Hb (H1 & H2 & H3 & H4 & H5 & H6). repeat split; try done.
  - eapply Forall_impl; [exact H2|]. intros o Ho. simpl in Ho. lia.
  - eapply Forall_impl; [exact H5|]. intros r Hr. simpl in Hr. lia.
Qed.

Lemma tablesOk_order (os : list Order.t) (its : list OrderItem.t) (a b : Z) (row : Order.t) :
  tablesOk (os, its) a b -> orderOk row = true -> Order.id row = a + 1 ->
  tablesOk (os ++ [row], its) (a + 1) b.
Proof.
  intros (H1 & H2 & H3 & H4 & H5 & H6) Hrow Hid. simpl in *. repeat split; simpl; try done.
  - rewrite fmap_app. apply NoDup_app. split; [done|]. split; [|apply NoDup_singleton].
    intros k Hk [= ->]%list_elem_of_singleton.
    apply list_elem_of_fmap in Hk as (o & Ho & Hin).
    rewrite Forall_forall in H2. specialize (H2 o Hin). simpl in H2. lia.
  - apply Forall_app. split.
    + eapply Forall_impl; [exact H2|]. intros o Ho. simpl in Ho. lia.
    + constructor; [lia|constructor].
  - apply Forall_app. split; [done|]. by constructor.
  - eapply Forall_impl; [exact H6|]. intros r. apply itemOk_more.
    intros k Hk. by rewrite existsb_app, Hk.
Qed.

Lemma tablesOk_item (os : list Order.t) (its : list OrderItem.t) (a b : Z)
    (row : OrderItem.t) :
  tablesOk (os, its) a b -> itemOk os row = true -> OrderItem.id row = b + 1 ->
  tablesOk (os, its ++ [row]) a (b + 1).
Proof.
  intros (H1 & H2 & H3 & H4 & H5 & H6) Hrow Hid. simpl in *. repeat split; simpl; try done.
  - rewrite fmap_app. apply NoDup_app. split; [done|]. split; [|apply NoDup_singleton].
    intros k Hk [= ->]%list_elem_of_singleton.
    apply list_elem_of_fmap in Hk as (r & Hr & Hin).
    rewrite Forall_forall in H5. specialize (H5 r Hin). simpl in H5. lia.
  - apply Forall_app. split.
    + eapply Forall_impl; [exact H5|]. intros r Hr. simpl in Hr. lia.
    + constructor; [lia|constructor].
  - apply Forall_app. split; [done|]. by constructor.
Qed.

Lemma tablesOk_status (os : list Order.t) (its : list OrderItem.t) (a b : Z)
    (st : string) (id : Z) :
  tablesOk (os, its) a b ->
  forallb orderOk (setStatus now st <$> filter (fun o => Order.id o = id) os) = true ->
  tablesOk ((fun o => if Order.id o =? id then setStatus now st o else o) <$> os, its) a b.
Proof.
  intros (H1 & H2 & H3 & H4 & H5 & H6) Hnew. simpl in *.
  assert (Hids : Order.id <$> ((fun o => if Order.id o =? id then setStatus now st o else o)
                                 <$> os) = Order.id <$> os).
  { rewrite <- list_fmap_compose. apply list_fmap_ext. intros k o _. simpl.
    by destruct (Order.id o =? id). }
  repeat split; simpl; try done.
  - by rewrite Hids.
  - apply Forall_fmap. eapply Forall_impl; [exact H2|]. intros o Ho. simpl.
    by destruct (Order.id o =? id).
  - apply Forall_fmap, Forall_forall. intros o Ho. simpl.
    destruct (Z.eqb_spec (Order.id o) id) as [Heq|Hne].
    + rewrite forallb_forall in Hnew. apply Hnew.
      apply list_elem_of_In, list_elem_of_fmap. exists o. split; [done|].
      by apply list_elem_of_filter.
    + rewrite Forall_forall in H3. by apply H3.
  - eapply Forall_impl; [exact H6|]. intros r. apply itemOk_more. intros k Hk.
    clear -Hk. induction os as [|o os IH]; [done|]. simpl in *.
    apply orb_true_iff in Hk as [Hk|Hk].
    + apply orb_true_iff. left. by destruct (Order.id o =? id).
    + apply orb_true_iff. right. by apply IH.
Qed.

Lemma stateOk_same (s s' : State W) :
  db s' = db s -> txn s' = txn s -> stateOk s -> stateOk s'.
Proof. unfold stateOk. by intros -> ->. Qed.

Lemma stateOk_closed (s : State W) (w : W) (l : list Event) :
  stateOk s -> stateOk (mkState w (db s) None l).
Proof. intros [Hdb _]. split; [done|]. by intros t. Qed.

Lemma keepsOk_ret {A : Type} (a : A) : keepsOk (ret W a).
Proof. by intros s. Qed.

Lemma keepsOk_reply {A : Type} (r : Response) : keepsOk (reply W (A := A) r).
Proof. by intros s. Qed.

Lemma keepsOk_throw {A : Type} : keepsOk (throw W (A := A)).
Proof. by intros s. Qed.

Lemma keepsOk_bind {A B : Type} (m : M W A) (k : A -> M W B) :
  keepsOk m -> (forall a, keepsOk (k a)) -> keepsOk (bind W m k).
Proof.
  intros Hm Hk s Hs. unfold bind. specialize (Hm s Hs).
  destruct (m s) as [[a|r|] s1]; simpl in *; try done. by apply Hk.
Qed.

Lemma handle_keepsOk (m : M W Empty_set) (s : State W) :
  keepsOk m -> stateOk s -> stateOk (handle W m s).2.
Proof.
  intros Hm Hs. unfold handle. specialize (Hm s Hs). by destruct (m s) as [[x|r|] s1].
Qed.

Lemma keepsOk_verifyUser (userId : Z) : keepsOk (verifyUser W getUser userId).
Proof.
  intros s Hs. unfold verifyUser, axios_get_user.
  destruct (getUser userId (world s)) as [[user|code|] w]; simpl; try done.
  by destruct (code =? 404).
Qed.

Lemma keepsOk_verifyProducts (items : list Item.t) (details : gmap Z Product.t) :
  keepsOk (verifyProducts W getProduct items details).
Proof.
  intros s Hs.
  destruct (verifyProducts W getProduct items details s) as [step s'] eqn:Hrun.
  apply verifyProducts_spec in Hrun as (Hdb & Htxn & _). simpl.
  by apply (stateOk_same s).
Qed.

Lemma keepsOk_fetchUserName (userId : Z) : keepsOk (fetchUserName W getUser userId).
Proof.
  intros s Hs. unfold fetchUserName, axios_get_user.
  by destruct (getUser userId (world s)) as [[user|code|] w].
Qed.

Lemma keepsOk_query_items (orderId : Z) : keepsOk (query_items W fault orderId).
Proof. intros s Hs. unfold query_items. by destruct (fault _). Qed.

Lemma keepsOk_query_orders (op : DbOp) (keep : Order.t -> bool) :
  keepsOk (query_orders W fault op keep).
Proof. intros s Hs. unfold query_orders. by destruct (fault _). Qed.

Lemma keepsOk_enrichWithUser (rows : list Order.t) :
  forall acc, keepsOk (enrichWithUser W getUser fault rows acc).
Proof.
  induction rows as [|order rest IH]; intros acc; simpl.
  - apply keepsOk_ret.
  - apply keepsOk_bind; [apply keepsOk_query_items|]. intros itemRows.
    apply keepsOk_bind; [apply keepsOk_fetchUserName|]. intros userName. apply IH.
Qed.

Lemma keepsOk_enrich (rows : list Order.t) :
  forall acc, keepsOk (enrich W fault rows acc).
Proof.
  induction rows as [|order rest IH]; intros acc; simpl.
  - apply keepsOk_ret.
  - apply keepsOk_bind; [apply keepsOk_query_items|]. intros itemRows. apply IH.
Qed.

Lemma keepsOk_pool_connect : keepsOk (pool_connect W fault).
Proof.
  intros s Hs. unfold pool_connect.
  destruct (fault Connect); simpl; by apply stateOk_closed.
Qed.

Lemma keepsOk_query_rollback : keepsOk (query_rollback W fault).
Proof.
  intros s Hs. unfold query_rollback.
  destruct (fault Rollback); simpl; by apply stateOk_closed.
Qed.

Lemma stateOk_release (s : State W) : stateOk s -> stateOk (release W s).
Proof. intros [Hdb Htxn]. unfold release. by split. Qed.

Lemma keepsOk_query_begin : keepsOk (query_begin W fault).
Proof.
  intros s [Hdb Htxn]. unfold query_begin. destruct (fault Begin); simpl; [done|].
  split; [done|]. simpl. intros t [= <-]. unfold visible. simpl.
  destruct (txn s) as [t|] eqn:Ht; [by apply Htxn|done].
Qed.

Lemma keepsOk_query_insert_order (userId totalAmount : Z) (st : string) :
  keepsOk (query_insert_order W fault now userId totalAmount st).
Proof.
  intros s [Hdb Htxn]. unfold query_insert_order.
  destruct (fault InsertOrder); simpl; [done|].
  destruct (orderOk _) eqn:Hrow; simpl.
  - destruct (txn s) as [[os its]|] eqn:Ht; simpl.
    + split; simpl.
      * apply (tablesOk_seq _ (orders_id_seq (db s)) (order_items_id_seq (db s)));
          [lia|lia|done].
      * intros t [= <-]. apply tablesOk_order; [by apply Htxn|done|done].
    + split; simpl; [|done]. by apply tablesOk_order.
  - split; simpl.
    + apply (tablesOk_seq _ (orders_id_seq (db s)) (order_items_id_seq (db s)));
        [lia|lia|done].
    + intros t Ht.
      apply (tablesOk_seq _ (orders_id_seq (db s)) (order_items_id_seq (db s)));
        [lia|lia|by apply Htxn].
Qed.

Lemma keepsOk_query_insert_item (k : nat) (orderId productId quantity price : Z)
    (productName : string) :
  keepsOk (query_insert_item W fault now k orderId productId quantity price productName).
Proof.
  intros s [Hdb Htxn]. unfold query_insert_item.
  destruct (fault (InsertItem k)); simpl; [done|]. unfold visible. simpl.
  destruct (txn s) as [[os its]|] eqn:Ht; simpl.
  - destruct (itemOk os _) eqn:Hrow; simpl.
    + split; simpl.
      * apply (tablesOk_seq _ (orders_id_seq (db s)) (order_items_id_seq (db s)));
          [lia|lia|done].
      * intros t [= <-]. apply tablesOk_item; [by apply Htxn|done|done].
    + split; simpl.
      * apply (tablesOk_seq _ (orders_id_seq (db s)) (order_items_id_seq (db s)));
          [lia|lia|done].
      * intros t [= <-].
        apply (tablesOk_seq _ (orders_id_seq (db s)) (order_items_id_seq (db s)));
          [lia|lia|by apply Htxn].
  - destruct (itemOk (orders (db s)) _) eqn:Hrow; simpl.
    + split; simpl; [|done]. by apply tablesOk_item.
    + split; simpl; [|done].
      apply (tablesOk_seq _ (orders_id_seq (db s)) (order_items_id_seq (db s)));
        [lia|lia|done].
Qed.

Lemma keepsOk_query_commit : keepsOk (query_commit W fault).
Proof.
  intros s [Hdb Htxn]. unfold query_commit. destruct (fault Commit); simpl; [done|].
  destruct (txn s) as [[os its]|] eqn:Ht; simpl.
  - split; simpl; [by apply Htxn|done].
  - split; [done|]. simpl. intros t Ht'. congruence.
Qed.

Lemma keepsOk_insertItems (items : list Item.t) (orderId : Z) (details : gmap Z Product.t) :
  forall k acc, keepsOk (insertItems W fault now k orderId items details acc).
Proof.
  induction items as [|item rest IH]; intros k acc; simpl.
  - apply keepsOk_ret.
  - destruct (details !! Item.productId item); [|apply keepsOk_throw].
    apply keepsOk_bind; [apply keepsOk_query_insert_item|]. intros row. apply IH.
Qed.

Lemma keepsOk_transaction (userId totalAmount : Z) (items : list Item.t)
    (details : gmap Z Product.t) :
  keepsOk (transaction W fault now userId totalAmount items details).
Proof.
  intros s Hs. unfold transaction.
  pose proof (keepsOk_pool_connect s Hs) as H1.
  destruct (pool_connect W fault s) as [[[]|r|] s1]; simpl in *; try done.
  assert (keepsOk (transactionBody W fault now userId totalAmount items details)) as Hbody.
  { unfold transactionBody.
    apply keepsOk_bind; [apply keepsOk_query_begin|]. intros _.
    apply keepsOk_bind; [apply keepsOk_query_insert_order|]. intros order.
    apply keepsOk_bind; [apply keepsOk_insertItems|]. intros orderItems.
    apply keepsOk_bind; [apply keepsOk_query_commit|]. intros _. apply keepsOk_reply. }
  specialize (Hbody s1 H1).
  destruct (transactionBody W fault now userId totalAmount items details s1)
    as [[x|r|] s2]; simpl in *.
  - by apply stateOk_release.
  - by apply stateOk_release.
  - by apply stateOk_release, keepsOk_query_rollback.
Qed.

Lemma keepsOk_query_update_status (st : string) (id : Z) :
  keepsOk (query_update_status W fault now st id).
Proof.
  intros s [Hdb Htxn]. unfold query_update_status.
  destruct (fault UpdateStatus); simpl; [done|].
  destruct (forallb orderOk _) eqn:Hnew; simpl; [|done].
  split; simpl; [by apply tablesOk_status|done].
Qed.

(** X21.  Every request to the order service, whatever it is, whatever the
    other services answer and whichever database calls fail, keeps the two
    tables well formed: ids stay unique and below their sequences, every
    order has a positive total and one of the five statuses, and every line
    has a positive quantity and price and belongs to a stored order. *)
Theorem order_service_keeps_tables (r : Request) (s : State W) :
  stateOk s -> stateOk (app W getUser getProduct fault now r s).2.
Proof.
  intros Hs. unfold app.
  assert (Hcreate : stateOk (createOrder W getUser getProduct fault now (reqBody r) s).2).
  { apply handle_keepsOk; [|done].
    destruct (orderSchema (reqBody r)) as [message|value]; [apply keepsOk_reply|].
    apply keepsOk_bind; [apply keepsOk_verifyUser|]. intros _.
    apply keepsOk_bind; [apply keepsOk_verifyProducts|]. intros details.
    destruct (reduceTotal details (items value)); [|apply keepsOk_throw].
    apply keepsOk_transaction. }
  assert (Hlist : stateOk (getOrders W getUser fault s).2).
  { apply handle_keepsOk; [|done].
    apply keepsOk_bind; [apply keepsOk_query_orders|]. intros rows.
    apply keepsOk_bind; [apply keepsOk_enrichWithUser|]. intros out. apply keepsOk_reply. }
  assert (Hone : forall id, stateOk (getOrder W getUser fault id s).2).
  { intros id. apply handle_keepsOk; [|done].
    apply keepsOk_bind; [apply keepsOk_query_orders|]. intros [|order rows].
    - apply keepsOk_reply.
    - apply keepsOk_bind; [apply keepsOk_query_items|]. intros itemRows.
      apply keepsOk_bind; [apply keepsOk_fetchUserName|]. intros userName.
      apply keepsOk_reply. }
  assert (Hput : forall id, stateOk (updateOrder W fault now id (reqBody r) s).2).
  { intros id. apply handle_keepsOk; [|done].
    destruct (updateOrderSchema (reqBody r)) as [message|st]; [apply keepsOk_reply|].
    apply keepsOk_bind; [apply keepsOk_query_update_status|]. intros [|order rows];
      apply keepsOk_reply. }
  assert (Hown : forall userId, stateOk (getUserOrders W fault userId s).2).
  { intros userId. apply handle_keepsOk; [|done].
    apply keepsOk_bind; [apply keepsOk_query_orders|]. intros rows.
    apply keepsOk_bind; [apply keepsOk_enrich|]. intros out. apply keepsOk_reply. }
  destruct (method r), (path r); try done.
Qed.
End OrderServiceTables.

(** ** Order service: when an order is created *)

Section OrderServiceCreate.
Import OrderService Vocabulary Invariants.
Variable W : Type.
Variable getUser : Z -> W -> HttpResult User.t * W.
Variable getProduct : Z -> W -> HttpResult Product.t * W.
Variable fault : DbOp -> bool.
Variable now : Z.

Local Abbreviation createOrder := (createOrder W getUser getProduct fault now).

Lemma lineOk_inv (product : Z -> option Product.t) (item : Item.t) :
  lineOk product item = true ->
  ∃ p, product (Item.productId item) = Some p
       ∧ Item.quantity item <= Product.stock p
       ∧ fitsInteger (Item.productId item) = true
       ∧ fitsInteger (Item.quantity item) = true
       ∧ fitsDecimal_10_2 (Product.price p) = true
       ∧ 0 < Product.price p
       ∧ fitsVarchar 255 (Product.name p) = true.
Proof.
  unfold lineOk. destruct (product (Item.productId item)) as [p|]; [|done].
  intros H. exists p.
  apply andb_true_iff in H as [H H6]. apply andb_true_iff in H as [H H5].
  apply andb_true_iff in H as [H H4]. apply andb_true_iff in H as [H H3].
  apply andb_true_iff in H as [H1 H2].
  repeat split; try done; lia.
Qed.

(** The product loop when every line finds its product with enough stock
    and the lookups leave the product service as it is. *)
Lemma verifyProducts_runs (w1 : W) (items : list Item.t) :
  (forall i, (getProduct i w1).2 = w1) ->
  Forall (fun item => lineOk (productAt getProduct w1) item = true) items ->
  forall (details : gmap Z Product.t) (s : State W),
    world s = w1 ->
    (forall i d, details !! i = Some d -> productAt getProduct w1 i = Some d) ->
    ∃ details' s',
      verifyProducts W getProduct items details s = (Next details', s')
      ∧ world s' = w1 ∧ db s' = db s ∧ txn s' = txn s
      ∧ (forall i d, details' !! i = Some d -> productAt getProduct w1 i = Some d)
      ∧ (forall i, is_Some (details !! i) -> is_Some (details' !! i))
      ∧ Forall (fun item => is_Some (details' !! Item.productId item)) items.
Proof.
  intros Hread Hlines. induction Hlines as [|item rest Hitem _ IH]; intros details s Hw Hagree.
  - exists details, s. simpl. by repeat split.
  - apply lineOk_inv in Hitem as (p & Hp & Hstock & _).
    unfold productAt in Hp. simpl. unfold axios_get_product. rewrite Hw.
    pose proof (Hread (Item.productId item)) as Hsame.
    destruct (getProduct (Item.productId item) w1) as [r w] eqn:Hget.
    simpl in Hp, Hsame. subst w. destruct r as [p'|code|]; simpl in Hp; try done.
    injection Hp as ->.
    destruct (Z.ltb_spec (Product.stock p) (Item.quantity item)) as [Hlt|_]; [lia|].
    rewrite product_eta.
    match goal with
    | |- context [verifyProducts W getProduct rest ?d ?st] =>
        destruct (IH d st) as (details' & s' & Hrun & Hw' & Hdb & Htxn & Hagree' & Hmono & Hall)
    end.
    + done.
    + intros i d. destruct (Z.eq_dec (Item.productId item) i) as [<-|Hne].
      * rewrite lookup_insert_eq. intros [= <-]. unfold productAt. by rewrite Hget.
      * rewrite lookup_insert_ne by done. apply Hagree.
    + exists details', s'. rewrite Hrun. repeat split; try done.
      * intros i Hi. apply Hmono. destruct (Z.eq_dec (Item.productId item) i) as [<-|Hne].
        -- by rewrite lookup_insert_eq.
        -- by rewrite lookup_insert_ne.
      * constructor; [|done]. apply Hmono. by rewrite lookup_insert_eq.
Qed.

Lemma sumZ_app (l1 l2 : list Z) : sumZ (l1 ++ l2) = sumZ l1 + sumZ l2.
Proof.
  unfold sumZ. induction l1 as [|x l1 IH]; simpl; [done|]. rewrite IH. lia.
Qed.

Lemma sumZ_lineRows (orderId firstId : Z) (product : Z -> option Product.t)
    (items : list Item.t) :
  sumZ (lineAmount <$> lineRows now orderId product firstId items)
  = orderTotal product items.
Proof.
  unfold orderTotal. revert firstId. induction items as [|item rest IH]; intros firstId; [done|].
  cbn [lineRows]. rewrite fmap_app, sumZ_app, (IH (firstId + 1)), fmap_cons.
  destruct (product (Item.productId item)) as [p|]; unfold sumZ, lineAmount; simpl; lia.
Qed.

Lemma reduceTotal_runs (details : gmap Z Product.t) (product : Z -> option Product.t)
    (items : list Item.t) :
  Forall (fun item => details !! Item.productId item = product (Item.productId item)
                      ∧ lineOk product item = true) items ->
  reduceTotal details items = Some (orderTotal product items).
Proof.
  unfold reduceTotal, orderTotal.
  assert (forall t,
             Forall (fun item => details !! Item.productId item = product (Item.productId item)
                                 ∧ lineOk product item = true) items ->
             foldl (addLine details) (Some t) items
             = Some (t + sumZ ((fun item =>
                                  match product (Item.productId item) with
                                  | Some p => Product.price p * Item.quantity item
                                  | None => 0
                                  end) <$> items))) as Hfrom.
  { induction items as [|item rest IH]; intros t Hall.
    - simpl. unfold sumZ. simpl. f_equal. lia.
    - apply Forall_cons in Hall as [[Hd Hok] Hall].
      apply lineOk_inv in Hok as (p & Hp & _).
      cbn [foldl]. unfold addLine at 2. rewrite Hd, Hp. rewrite IH by done.
      rewrite fmap_cons. unfold sumZ. simpl. rewrite Hp. f_equal. lia. }
  intros Hall. by rewrite Hfrom.
Qed.

Lemma orderTotal_positive (product : Z -> option Product.t) (items : list Item.t) :
  items ≠ [] ->
  Forall (fun item => lineOk product item = true ∧ 0 < Item.quantity item) items ->
  0 < orderTotal product items.
Proof.
  unfold orderTotal, sumZ. intros Hne Hall.
  assert (Hge : forall l,
             Forall (fun item => lineOk product item = true ∧ 0 < Item.quantity item) l ->
             0 <= foldr Z.add 0
                    ((fun item =>
                        match product (Item.productId item) with
                        | Some p => Product.price p * Item.quantity item
                        | None => 0
                        end) <$> l)).
  { induction l as [|item rest IH]; intros Hl; [done|].
    apply Forall_cons in Hl as [[Hok Hq] Hl].
    apply lineOk_inv in Hok as (p & Hp & _ & _ & _ & _ & Hprice & _).
    rewrite fmap_cons. cbn [foldr]. rewrite Hp. specialize (IH Hl). nia. }
  destruct items as [|item rest]; [done|].
  apply Forall_cons in Hall as [[Hok Hq] Hall].
  apply lineOk_inv in Hok as (p & Hp & _ & _ & _ & _ & Hprice & _).
  rewrite fmap_cons. cbn [foldr]. rewrite Hp. specialize (Hge rest Hall). nia.
Qed.

(** The insert loop inside an open transaction when no insert fails. *)
Lemma insertItems_runs (orderId : Z) (details : gmap Z Product.t)
    (product : Z -> option Product.t) (items : list Item.t) :
  forall (k : nat) (acc : list OrderItem.t) (s : State W) (os : list Order.t)
         (its : list OrderItem.t),
    txn s = Some (os, its) ->
    existsb (fun o => Order.id o =? orderId) os = true ->
    (forall j, (j < length items)%nat -> fault (InsertItem (k + j)) = false) ->
    Forall (fun item => details !! Item.productId item = product (Item.productId item)
                        ∧ lineOk product item = true ∧ 0 < Item.quantity item) items ->
    ∃ s',
      insertItems W fault now k orderId items details acc s
      = (Next (acc ++ lineRows now orderId product (order_items_id_seq (db s) + 1) items), s')
      ∧ world s' = world s
      ∧ txn s'
        = Some (os, its ++ lineRows now orderId product (order_items_id_seq (db s) + 1) items)
      ∧ db s' = mkDb (orders (db s)) (order_items (db s)) (orders_id_seq (db s))
                  (order_items_id_seq (db s) + Z.of_nat (length items)).
Proof.
  induction items as [|item rest IH]; intros k acc s os its Htxn Hfk Hfault Hall.
  - exists s. simpl. rewrite !app_nil_r, Z.add_0_r. repeat split; try done. by destruct (db s).
  - apply Forall_cons in Hall as [(Hd & Hok & Hq) Hall].
    apply lineOk_inv in Hok as (p & Hp & _ & H1 & H2 & H3 & H4 & H5).
    simpl. rewrite Hd, Hp. unfold bind.
    set (row := OrderItem.mk (order_items_id_seq (db s) + 1) orderId (Item.productId item)
                  (Item.quantity item) (Product.price p) (Product.name p) now).
    set (s1 := mkState (world s)
                 (mkDb (orders (db s)) (order_items (db s)) (orders_id_seq (db s))
                    (order_items_id_seq (db s) + 1))
                 (Some (os, its ++ [row])) (log s ++ [DbCall (InsertItem k)])).
    assert (Hins : query_insert_item W fault now k orderId (Item.productId item)
                     (Item.quantity item) (Product.price p) (Product.name p) s
                   = (Next row, s1)).
    { unfold query_insert_item.
      specialize (Hfault 0%nat). rewrite Nat.add_0_r in Hfault.
      rewrite Hfault by (simpl; lia). unfold visible. simpl. rewrite Htxn. simpl.
      unfold itemOk. simpl. rewrite Hfk, H1, H2, H3, H5. simpl.
      destruct (Z.ltb_spec 0 (Item.quantity item)) as [_|?]; [|lia].
      destruct (Z.ltb_spec 0 (Product.price p)) as [_|?]; [|lia]. done. }
    rewrite Hins.
    destruct (IH (S k) (acc ++ [row]) s1 os (its ++ [row])) as (s' & Hrun & Hw & Htxn' & Hdb);
      try done.
    { intros j Hj. rewrite Nat.add_succ_comm. apply Hfault. simpl. lia. }
    exists s'. rewrite Hrun. simpl in *. rewrite <- !app_assoc. simpl.
    repeat split; try done.
    + by rewrite Htxn', <- app_assoc.
    + rewrite Hdb. f_equal. lia.
Qed.

(** The transaction when none of its calls fails and the rows are accepted. *)
Lemma transaction_runs (userId totalAmount : Z) (items : list Item.t)
    (details : gmap Z Product.t) (product : Z -> option Product.t) (s : State W) :
  noFaultIn fault (length items) ->
  orderOk (Order.mk (orders_id_seq (db s) + 1) userId totalAmount "pending" now now) = true ->
  Forall (fun item => details !! Item.productId item = product (Item.productId item)
                      ∧ lineOk product item = true ∧ 0 < Item.quantity item) items ->
  ∃ s',
    transaction W fault now userId totalAmount items details s
    = (Reply (created (Order.mk (orders_id_seq (db s) + 1) userId totalAmount "pending" now now)
                (lineRows now (orders_id_seq (db s) + 1) product
                   (order_items_id_seq (db s) + 1) items)), s')
    ∧ world s' = world s ∧ txn s' = None
    ∧ db s' = mkDb (orders (db s)
                      ++ [Order.mk (orders_id_seq (db s) + 1) userId totalAmount "pending"
                            now now])
                (order_items (db s)
                   ++ lineRows now (orders_id_seq (db s) + 1) product
                        (order_items_id_seq (db s) + 1) items)
                (orders_id_seq (db s) + 1)
                (order_items_id_seq (db s) + Z.of_nat (length items)).
Proof.
  intros (Hc & Hb & Hio & Hii & Hcm) Horder Hall.
  unfold transaction, pool_connect. rewrite Hc.
  unfold transactionBody. unfold bind at 1. unfold query_begin. rewrite Hb.
  unfold bind at 1. unfold query_insert_order. rewrite Hio. simpl.
  rewrite Horder. unfold visible. simpl. unfold bind at 1.
  match goal with
  | |- context [insertItems W fault now 0 ?oid items details [] ?st] =>
      destruct (insertItems_runs oid details product items 0 [] st
                  (orders (db s)
                     ++ [Order.mk (orders_id_seq (db s) + 1) userId totalAmount "pending"
                           now now])
                  (order_items (db s)))
        as (s' & Hrun & Hw & Htxn & Hdb)
  end; try done.
  { rewrite existsb_app. simpl. by rewrite Z.eqb_refl, orb_true_r. }
  rewrite Hrun. simpl in *. unfold bind, query_commit. rewrite Hcm. simpl. rewrite Htxn.
  eexists. split; [reflexivity|]. simpl. rewrite Hw, Hdb. simpl. done.
Qed.

Lemma validLine_positive (l : list ItemBody) (items : list Item.t) :
  Forall2 validLine l items -> Forall (fun item => 0 < Item.quantity item) items.
Proof.
  induction 1 as [|it item l items (_ & _ & _ & Hq) _ IH]; constructor; [lia|done].
Qed.

(** The whole of [createOrder] when nothing stands in the way. *)
Lemma createOrder_runs (b : Body) (s : State W) (value : OrderValue) (user : User.t)
    (w1 : W) :
  orderSchema b = inr value ->
  getUser (userId value) (world s) = (HttpOk user, w1) ->
  (forall i, (getProduct i w1).2 = w1) ->
  Forall (fun item => lineOk (productAt getProduct w1) item = true) (items value) ->
  fitsInteger (userId value) = true ->
  fitsDecimal_10_2 (orderTotal (productAt getProduct w1) (items value)) = true ->
  noFaultIn fault (length (items value)) ->
  ∃ s',
    createOrder b s
    = (created (Order.mk (orders_id_seq (db s) + 1) (userId value)
                  (orderTotal (productAt getProduct w1) (items value)) "pending" now now)
         (lineRows now (orders_id_seq (db s) + 1) (productAt getProduct w1)
            (order_items_id_seq (db s) + 1) (items value)), s')
    ∧ db s'
      = mkDb (orders (db s)
                ++ [Order.mk (orders_id_seq (db s) + 1) (userId value)
                      (orderTotal (productAt getProduct w1) (items value)) "pending" now now])
          (order_items (db s)
             ++ lineRows now (orders_id_seq (db s) + 1) (productAt getProduct w1)
                  (order_items_id_seq (db s) + 1) (items value))
          (orders_id_seq (db s) + 1)
          (order_items_id_seq (db s) + Z.of_nat (length (items value)))
    ∧ world s' = w1
    ∧ txn s' = None.
Proof.
  intros Hschema Hu Hread Hlines Huid Htotal Hnf.
  assert (Hvalid : Forall (fun item => 0 < Item.quantity item) (items value)
                   ∧ items value ≠ []).
  { destruct (proj1 (orderSchema_valid b value) Hschema)
      as (_ & _ & (l & _ & Hvalid) & Hne & _).
    split; [by eapply validLine_positive|done]. }
  destruct Hvalid as [Hvalid Hne].
  set (s1 := mkState w1 (db s) (txn s)
               (log s ++ [HttpGetUser (userId value) (HttpOk user)])).
  destruct (verifyProducts_runs w1 (items value) Hread Hlines ∅ s1)
    as (details & s2 & Hrun & Hw2 & Hdb2 & Htxn2 & Hagree & _ & Hall);
    [done|by intros i d; rewrite lookup_empty|].
  assert (Hrows : Forall (fun item =>
                            details !! Item.productId item
                            = productAt getProduct w1 (Item.productId item)
                            ∧ lineOk (productAt getProduct w1) item = true
                            ∧ 0 < Item.quantity item) (items value)).
  { rewrite Forall_forall in Hall, Hlines, Hvalid. apply Forall_forall. intros item Hin.
    split; [|split; [by apply Hlines|by apply Hvalid]].
    destruct (Hall item Hin) as [d Hd]. rewrite Hd. symmetry. by apply Hagree. }
  assert (Htot : reduceTotal details (items value)
                 = Some (orderTotal (productAt getProduct w1) (items value))).
  { apply reduceTotal_runs. eapply Forall_impl; [exact Hrows|]. by intros item (? & ? & _). }
  destruct (transaction_runs (userId value)
              (orderTotal (productAt getProduct w1) (items value)) (items value) details
              (productAt getProduct w1) s2 Hnf) as (s3 & Ht & Hw3 & Htxn3 & Hdb3);
    [|done|].
  { unfold orderOk. simpl. rewrite Huid, Htotal. simpl.
    destruct (Z.ltb_spec 0 (orderTotal (productAt getProduct w1) (items value))) as [_|Hle];
      [done|].
    assert (0 < orderTotal (productAt getProduct w1) (items value)); [|lia].
    apply (orderTotal_positive _ _ Hne).
    rewrite Forall_forall in Hlines, Hvalid. apply Forall_forall.
    intros item Hin. split; [by apply Hlines|by apply Hvalid]. }
  simpl in Hdb2. rewrite Hdb2 in Ht, Hdb3.
  exists s3. split; [|split; [done|split; [congruence|done]]].
  unfold OrderService.createOrder, handle. rewrite Hschema.
  unfold bind at 1. unfold verifyUser, axios_get_user. rewrite Hu.
  unfold bind. fold s1. by rewrite Hrun, Htot, Ht.
Qed.

(** X22.  What suffices for an order to be created.  When the payload
    passes validation, the user service finds the user, the lookups leave
    the product service as it is and find every product of the lines with
    a stock of at least the quantity of the line, the values fit the
    columns, and no call of the transaction fails, then the answer is 201
    with an order of the next id, status pending, and as total the sum of
    price times quantity over the lines, and one row per line under the
    next ids; the order and the rows are appended to the tables.  Nothing
    else is asked: neither what the stored orders hold nor how much of the
    stock they already claim. *)
Theorem createOrder_succeeds (b : Body) (s : State W) (value : OrderValue) (user : User.t)
    (w1 : W) :
  orderSchema b = inr value ->
  getUser (userId value) (world s) = (HttpOk user, w1) ->
  (forall i, (getProduct i w1).2 = w1) ->
  Forall (fun item => lineOk (productAt getProduct w1) item = true) (items value) ->
  fitsInteger (userId value) = true ->
  fitsDecimal_10_2 (orderTotal (productAt getProduct w1) (items value)) = true ->
  noFaultIn fault (length (items value)) ->
  (createOrder b s).1
  = created (Order.mk (orders_id_seq (db s) + 1) (userId value)
               (orderTotal (productAt getProduct w1) (items value)) "pending" now now)
      (lineRows now (orders_id_seq (db s) + 1) (productAt getProduct w1)
         (order_items_id_seq (db s) + 1) (items value))
  ∧ db (createOrder b s).2
    = mkDb (orders (db s)
              ++ [Order.mk (orders_id_seq (db s) + 1) (userId value)
                    (orderTotal (productAt getProduct w1) (items value)) "pending" now now])
        (order_items (db s)
           ++ lineRows now (orders_id_seq (db s) + 1) (productAt getProduct w1)
                (order_items_id_seq (db s) + 1) (items value))
        (orders_id_seq (db s) + 1)
        (order_items_id_seq (db s) + Z.of_nat (length (items value)))
  ∧ world (createOrder b s).2 = w1.
Proof.
  intros Hschema Hu Hread Hlines Huid Htotal Hnf.
  destruct (createOrder_runs b s value user w1 Hschema Hu Hread Hlines Huid Htotal Hnf)
    as (s' & -> & Hdb & Hw & _).
  done.
Qed.

(** X23.  The service neither reserves stock nor recognises a request it has
    already served: under the conditions of X22, with a user lookup that
    leaves the user service as it is, the same request sent again is
    answered 201 again and stores a second order for the same user with
    the same total, however little stock the first order left. *)
Theorem createOrder_repeats (b : Body) (s : State W) (value : OrderValue) (user : User.t) :
  orderSchema b = inr value ->
  getUser (userId value) (world s) = (HttpOk user, world s) ->
  (forall i, (getProduct i (world s)).2 = world s) ->
  Forall (fun item => lineOk (productAt getProduct (world s)) item = true) (items value) ->
  fitsInteger (userId value) = true ->
  fitsDecimal_10_2 (orderTotal (productAt getProduct (world s)) (items value)) = true ->
  noFaultIn fault (length (items value)) ->
  statusCode (createOrder b s).1 = 201
  ∧ statusCode (createOrder b (createOrder b s).2).1 = 201
  ∧ orders (db (createOrder b (createOrder b s).2).2)
    = orders (db s)
        ++ [Order.mk (orders_id_seq (db s) + 1) (userId value)
              (orderTotal (productAt getProduct (world s)) (items value)) "pending" now now;
            Order.mk (orders_id_seq (db s) + 2) (userId value)
              (orderTotal (productAt getProduct (world s)) (items value)) "pending" now now].
Proof.
  intros Hschema Hu Hread Hlines Huid Htotal Hnf.
  destruct (createOrder_runs b s value user (world s) Hschema Hu Hread Hlines Huid
              Htotal Hnf) as (s1 & -> & Hdb & Hw & _).
  simpl. rewrite <- Hw in Hu, Hread, Hlines, Htotal.
  destruct (createOrder_runs b s1 value user (world s1) Hschema Hu Hread Hlines Huid
              Htotal Hnf) as (s2 & -> & Hdb' & _).
  simpl. split; [done|]. split; [done|].
  rewrite Hdb', Hdb, Hw. simpl. rewrite <- app_assoc. simpl.
  by replace (orders_id_seq (db s) + 1 + 1) with (orders_id_seq (db s) + 2) by lia.
Qed.

(** X29.  A line whose product lookup fails.  When the payload is valid, the
    user lookup succeeds and the lines before some line pass, a lookup of
    that line answered 404 gives the 400 that names the product id; any
    other status, or no response, gives the 500 of every thrown failure.
    Either way the lookup is the last call of the request: the lines after
    it are not looked up and the database is not touched. *)
Theorem createOrder_product_lookup_failure (b : Body) (s : State W) (value : OrderValue)
    (user : User.t) (w1 w2 w3 : W) (pre post : list Item.t) (item : Item.t)
    (r : HttpResult Product.t) :
  orderSchema b = inr value ->
  getUser (userId value) (world s) = (HttpOk user, w1) ->
  items value = pre ++ item :: post ->
  linesPass getProduct pre w1 = Some w2 ->
  getProduct (Item.productId item) w2 = (r, w3) ->
  found r = None ->
  (createOrder b s).1
  = match r with
    | HttpStatus 404 => errorJson 400 (productNotFound item)
    | _ => errorJson 500 "Internal server error"
    end
  ∧ db (createOrder b s).2 = db s
  ∧ ∃ evs, log (createOrder b s).2
           = log s ++ evs ++ [HttpGetProduct (Item.productId item) r]
           ∧ Forall (fun e => isHttp e = true) evs.
Proof.
  intros Hv Hu Hitems Hpass Hget Hr.
  assert (∃ evs, Forall (fun e => isHttp e = true) evs
                 ∧ createOrder b s
                   = (match r with
                      | HttpStatus 404 => errorJson 400 (productNotFound item)
                      | _ => errorJson 500 "Internal server error"
                      end,
                      mkState w3 (db s) (txn s)
                        (log s ++ evs ++ [HttpGetProduct (Item.productId item) r])))
    as (evs & Hevs & ->).
  { unfold OrderService.createOrder, handle. rewrite Hv.
    unfold bind at 1. unfold verifyUser, axios_get_user. rewrite Hu.
    cbv beta iota. unfold bind at 1. rewrite Hitems.
    match goal with
    | |- context [verifyProducts W getProduct (pre ++ item :: post) ?d ?st] =>
        destruct (verifyProducts_passed W getProduct pre (item :: post) d st w2 Hpass)
          as (details' & evs & Hevs & ->)
    end.
    simpl. unfold axios_get_product. simpl. rewrite Hget.
    exists (HttpGetUser (userId value) (HttpOk user) :: evs).
    split; [by constructor|].
    destruct r as [product|code|]; [done| |].
    - destruct (Z.eqb_spec code 404) as [->|Hne]; simpl.
      + by rewrite <- !app_assoc.
      + rewrite <- !app_assoc. simpl.
        destruct code as [|p|p]; try done.
        repeat (destruct p as [p|p|]; try done).
    - simpl. by rewrite <- !app_assoc. }
  simpl. repeat split; try done. by exists evs.
Qed.

(** X28.  Order creation leaves no transaction open and no client
    unreleased.  The calls of a request are lookups over HTTP followed by
    database calls, and the database calls are: none, with an answer that
    is not 201; or a connect that fails, alone; or connect, BEGIN, the
    inserts, COMMIT and release, with the answer 201; or connect, BEGIN,
    some of the inserts and perhaps the COMMIT, then ROLLBACK and release.
    Whenever the client was taken it is released last, and a run whose
    transaction is not committed is answered 500. *)
Theorem createOrder_closes_transaction (b : Body) (s : State W) :
  ∃ httpEvs dbEvs,
    log (createOrder b s).2 = log s ++ httpEvs ++ dbEvs
    ∧ Forall (fun e => isHttp e = true) httpEvs
    ∧ ((dbEvs = [] ∧ statusCode (createOrder b s).1 ≠ 201
        ∧ txn (createOrder b s).2 = txn s)
       ∨ (transactionCalls fault dbEvs true ∧ statusCode (createOrder b s).1 = 201
          ∧ txn (createOrder b s).2 = None)
       ∨ (transactionCalls fault dbEvs false
          ∧ (createOrder b s).1 = errorJson 500 "Internal server error"
          ∧ txn (createOrder b s).2 = None)).
Proof. apply createOrder_calls. Qed.
End OrderServiceCreate.

(** ** The three services together: lookups and the creation of an order *)

Section SystemRoutes.
Import Vocabulary Invariants.
Variable userFault : UserService.Stmt -> bool.
Variable productFault : ProductService.Stmt -> bool.
Variable orderFault : OrderService.DbOp -> bool.
Variable userUp productUp : bool.
Variable now : Z.
Variable isEmail : string -> bool.
Variable bcrypt_hash : string -> string.
Variable bcrypt_compare : string -> string -> bool.
Variable jwt_sign : Z -> string -> string.

Local Abbreviation getUser :=
  (System.getUser userFault userUp now isEmail bcrypt_hash bcrypt_compare jwt_sign).
Local Abbreviation getProduct := (System.getProduct productFault productUp now).
Local Abbreviation createOrder :=
  (System.createOrder userFault productFault orderFault userUp productUp now
     isEmail bcrypt_hash bcrypt_compare jwt_sign).

Lemma system_getProduct_eq (i : Z) (w : System.Services) :
  getProduct i w
  = (if productUp then
       if productFault ProductService.SelectOne then HttpStatus 500
       else match storedProduct (System.productDb w) i with
            | Some p => HttpOk p
            | None => HttpStatus 404
            end
     else HttpNoResponse, w).
Proof.
  unfold System.getProduct, storedProduct. destruct productUp; [|done]. simpl.
  unfold ProductService.getProduct, ProductService.querySelectOne.
  destruct (productFault ProductService.SelectOne); [by destruct w|].
  destruct (filter _ (ProductService.products (System.productDb w))) as [|p rest];
    by destruct w.
Qed.

Lemma system_getUser_eq (i : Z) (w : System.Services) :
  getUser i w
  = (if userUp then
       if userFault UserService.SelectOne then HttpStatus 500
       else match storedUser (System.userDb w) i with
            | Some u => HttpOk u
            | None => HttpStatus 404
            end
     else HttpNoResponse, w).
Proof.
  unfold System.getUser, storedUser. destruct userUp; [|done]. simpl.
  unfold UserService.getUser.
  destruct (userFault UserService.SelectOne); [by destruct w|].
  destruct (filter _ (UserService.users (System.userDb w))) as [|u rest];
    by destruct w.
Qed.

(** X24.  What the order service gets from the other two.  A lookup of a
    product returns the price, the name and the stock of the stored product
    of that id exactly as the product service stores them, a 404 when there
    is none, a 500 when the query of the product service fails, and no
    response when the service cannot be reached; likewise the name of the
    stored user.  Neither lookup changes either database. *)
Theorem system_lookups_answer (i : Z) (w : System.Services) :
  getProduct i w
  = (if productUp then
       if productFault ProductService.SelectOne then HttpStatus 500
       else match storedProduct (System.productDb w) i with
            | Some p => HttpOk p
            | None => HttpStatus 404
            end
     else HttpNoResponse, w)
  ∧ getUser i w
    = (if userUp then
         if userFault UserService.SelectOne then HttpStatus 500
         else match storedUser (System.userDb w) i with
              | Some u => HttpOk u
              | None => HttpStatus 404
              end
       else HttpNoResponse, w).
Proof. split; [apply system_getProduct_eq|apply system_getUser_eq]. Qed.

(** X25.  The three services together.  When both other services are up and
    answer their queries, the user of the payload is stored, every line
    names a stored product whose stock is at least the quantity of the
    line, the values fit the columns and no call of the transaction fails,
    the order is created: the answer is 201, the total is the sum over the
    lines of the stored price times the quantity, and the users and
    products are left exactly as they were, the stock included. *)
Theorem system_createOrder_succeeds (b : OrderService.Body)
    (s : OrderService.State System.Services) (value : OrderService.OrderValue) :
  OrderService.orderSchema b = inr value ->
  userUp = true -> productUp = true ->
  userFault UserService.SelectOne = false ->
  productFault ProductService.SelectOne = false ->
  is_Some (storedUser (System.userDb (OrderService.world s)) (OrderService.userId value)) ->
  Forall (fun item =>
            lineOk (storedProduct (System.productDb (OrderService.world s))) item = true)
    (OrderService.items value) ->
  fitsInteger (OrderService.userId value) = true ->
  fitsDecimal_10_2
    (orderTotal (storedProduct (System.productDb (OrderService.world s)))
       (OrderService.items value)) = true ->
  noFaultIn orderFault (length (OrderService.items value)) ->
  (createOrder b s).1
  = OrderService.created
      (OrderService.Order.mk (OrderService.orders_id_seq (OrderService.db s) + 1)
         (OrderService.userId value)
         (orderTotal (storedProduct (System.productDb (OrderService.world s)))
            (OrderService.items value)) "pending" now now)
      (lineRows now (OrderService.orders_id_seq (OrderService.db s) + 1)
         (storedProduct (System.productDb (OrderService.world s)))
         (OrderService.order_items_id_seq (OrderService.db s) + 1)
         (OrderService.items value))
  ∧ OrderService.world (createOrder b s).2 = OrderService.world s.
Proof.
  intros Hschema Hup Hpp Hfu Hfp [user Huser] Hlines Huid Htotal Hnf.
  assert (Hcat : forall i,
             productAt getProduct (OrderService.world s) i
             = storedProduct (System.productDb (OrderService.world s)) i).
  { intros i. unfold productAt. rewrite system_getProduct_eq, Hpp, Hfp. simpl.
    by destruct (storedProduct _ i). }
  assert (Hrows : forall items,
             lineRows now (OrderService.orders_id_seq (OrderService.db s) + 1)
               (productAt getProduct (OrderService.world s))
               (OrderService.order_items_id_seq (OrderService.db s) + 1) items
             = lineRows now (OrderService.orders_id_seq (OrderService.db s) + 1)
                 (storedProduct (System.productDb (OrderService.world s)))
                 (OrderService.order_items_id_seq (OrderService.db s) + 1) items).
  { intros items. generalize (OrderService.order_items_id_seq (OrderService.db s) + 1).
    induction items as [|item rest IH]; intros k; [done|]. simpl. by rewrite Hcat, IH. }
  assert (Htot : forall items,
             orderTotal (productAt getProduct (OrderService.world s)) items
             = orderTotal (storedProduct (System.productDb (OrderService.world s))) items).
  { intros items. unfold orderTotal. f_equal. apply list_fmap_ext. intros k item _.
    by rewrite Hcat. }
  destruct (createOrder_runs System.Services getUser getProduct orderFault now b s value
              user (OrderService.world s)) as (s' & Hrun & _ & Hw & _); try done.
  - by rewrite system_getUser_eq, Hup, Hfu, Huser.
  - intros i. apply system_getProduct_keeps.
  - eapply Forall_impl; [exact Hlines|]. intros item Hitem. simpl.
    unfold lineOk in *. by rewrite Hcat.
  - by rewrite Htot.
  - unfold System.createOrder. rewrite Hrun. simpl. by rewrite Htot, Hrows.
Qed.
End SystemRoutes.

(** ** The further properties at sample inputs *)

Section Instances.
Import Invariants.

Lemma widgetDb_ok : productsOk Samples.widgetDb.
Proof. unfold productsOk. compute_done. Qed.

Lemma twoUsers_ok : usersOk Cases.twoUsers.
Proof. unfold usersOk. compute_done. Qed.

Lemma oneOrder_ok : stateOk Cases.oneOrder.
Proof. split; [unfold tablesOk; compute_done|]. by intros t. Qed.

Lemma noFault_in (n : nat) : Vocabulary.noFaultIn Samples.noFault n.
Proof. by repeat split. Qed.

(** X2 on the table of the widget: a second widget gets id 2 and is found
    under it. *)
Lemma createProduct_then_getProduct_witness :
  (productsOk Samples.widgetDb ∧ createAccepted Samples.newWidget = true)
  ∧ ProductService.getProduct Samples.noFault 2
      (ProductService.createProduct Samples.noFault 11 (ProductService.Keys Samples.newWidget)
         Samples.widgetDb).2
    = (mkResponse 200
         (JObj [("product",
                 ProductService.productJson
                   (ProductService.Product.mk 2 "Widget" "A widget" 1000 5 "Tools" 11 11))]),
       (ProductService.createProduct Samples.noFault 11 (ProductService.Keys Samples.newWidget)
          Samples.widgetDb).2).
Proof.
  split; [split; [exact widgetDb_ok|reflexivity]|].
  exact (proj2 (createProduct_then_getProduct Samples.noFault 11 Samples.newWidget
                  Samples.widgetDb
                  (ProductService.Product.mk 2 "Widget" "A widget" 1000 5 "Tools" 11 11)
                  widgetDb_ok eq_refl eq_refl eq_refl eq_refl eq_refl)).
Defined.

(** X3 at the deletion of the widget. *)
Lemma product_service_keeps_table_witness :
  productsOk Samples.widgetDb
  ∧ productsOk (ProductService.serve Samples.noFault 11 (ProductService.DELETE_product 1)
                  Samples.widgetDb).2.
Proof.
  split; [exact widgetDb_ok|].
  exact (product_service_keeps_table Samples.noFault 11 (ProductService.DELETE_product 1)
           Samples.widgetDb widgetDb_ok).
Defined.

(** X5 at the price-only update of the widget: price 150.00, stock 0. *)
Lemma updateProduct_stores_witness :
  statusCode (ProductService.updateProduct Samples.noFault 11 1 (ProductService.Keys Samples.priceOnly)
                Samples.widgetDb).1 = 200
  ∧ ProductService.products
      (ProductService.updateProduct Samples.noFault 11 1 (ProductService.Keys Samples.priceOnly)
         Samples.widgetDb).2
    = [ProductService.Product.mk 1 "Widget" "A widget" 15000 0 "Tools" 7 11].
Proof.
  split; [reflexivity|].
  exact (proj1 (updateProduct_stores Samples.noFault 11 1 Samples.priceOnly Samples.widgetDb
                  eq_refl)).
Defined.

(** X7 at the deletion of the widget. *)
Lemma deleteProduct_then_getProduct_witness :
  Samples.widget ∈ ProductService.products Samples.widgetDb
  ∧ (ProductService.getProduct Samples.noFault 1
       (ProductService.deleteProduct Samples.noFault 1 Samples.widgetDb).2).1
    = errorJson 404 "Product not found".
Proof.
  assert (Hin : Samples.widget ∈ ProductService.products Samples.widgetDb)
    by (apply elem_of_cons; by left).
  split; [exact Hin|].
  exact (proj2 (proj2 (deleteProduct_then_getProduct Samples.noFault 1 Samples.widgetDb
                         Samples.widget Hin eq_refl eq_refl eq_refl))).
Defined.

(** X8 on the table of the widget. *)
Lemma getProducts_lists_all_witness :
  Samples.noFault ProductService.SelectAll = false
  ∧ ∃ rows, (ProductService.getProducts Samples.noFault Samples.widgetDb).1
            = mkResponse 200
                (JObj [("products", JArr (ProductService.productJson <$> rows))])
            ∧ rows ≡ₚ [Samples.widget].
Proof.
  split; [reflexivity|].
  destruct (getProducts_lists_all Samples.noFault Samples.widgetDb eq_refl)
    as (_ & _ & Hrows).
  destruct Hrows as (rows & Hres & Hperm & _); [discriminate|].
  exists rows. split; [exact Hres|exact Hperm].
Defined.


(** X11 at the login of Alice. *)
Lemma login_sound_witness :
  statusCode (UserService.login Samples.noFault Samples.anyEmail Samples.hashMatches
                Samples.tokenOf Cases.aliceLogin Cases.twoUsers).1 = 200
  ∧ ∃ user, user ∈ UserService.users Cases.twoUsers
            ∧ UserService.email user = "a@x.com"
            ∧ Samples.hashMatches "secret1" (UserService.password user) = true.
Proof.
  split; [reflexivity|].
  destruct (login_sound Samples.noFault Samples.anyEmail Samples.hashMatches Samples.tokenOf
              Cases.aliceLogin Cases.twoUsers) as (_ & Hsound & _).
  destruct (Hsound eq_refl) as (e & p & user & He & Hp & Hin & Hemail & Hcmp & _).
  injection He as <-. injection Hp as <-.
  exists user. split; [exact Hin|]. split; [exact Hemail|exact Hcmp].
Defined.

(** X13: Bob asks for the email of Alice. *)
Lemma updateUser_email_taken_witness :
  (UserService.truthy (UserService.b_email Cases.takeAliceEmail) = Some "a@x.com"
   ∧ Cases.bobRow ∈ UserService.users Cases.twoUsers
   ∧ Cases.aliceRow ∈ UserService.users Cases.twoUsers)
  ∧ UserService.updateUser Samples.noFault 11 2 Cases.takeAliceEmail Cases.twoUsers
    = (errorJson 500 "Internal server error", Cases.twoUsers).
Proof.
  assert (Hb : Cases.bobRow ∈ UserService.users Cases.twoUsers)
    by (apply elem_of_cons; right; apply elem_of_cons; by left).
  assert (Ha : Cases.aliceRow ∈ UserService.users Cases.twoUsers)
    by (apply elem_of_cons; by left).
  split; [split; [reflexivity|split; [exact Hb|exact Ha]]|].
  apply (updateUser_email_taken Samples.noFault 11 2 Cases.takeAliceEmail Cases.twoUsers
           "a@x.com" Cases.bobRow Cases.aliceRow eq_refl Hb eq_refl Ha); [|reflexivity].
  discriminate.
Defined.

(** X14 at the deletion of Alice. *)
Lemma deleteUser_then_gone_witness :
  (usersOk Cases.twoUsers ∧ Cases.aliceRow ∈ UserService.users Cases.twoUsers)
  ∧ (UserService.getUser Samples.noFault 1
       (UserService.deleteUser Samples.noFault 1 Cases.twoUsers).2).1
    = errorJson 404 "User not found"
  ∧ statusCode (UserService.login Samples.noFault Samples.anyEmail Samples.hashMatches
                  Samples.tokenOf Cases.aliceLogin
                  (UserService.deleteUser Samples.noFault 1 Cases.twoUsers).2).1 ≠ 200.
Proof.
  assert (Ha : Cases.aliceRow ∈ UserService.users Cases.twoUsers)
    by (apply elem_of_cons; by left).
  split; [split; [exact twoUsers_ok|exact Ha]|].
  exact (proj2 (deleteUser_then_gone Samples.noFault Samples.anyEmail Samples.hashMatches
                  Samples.tokenOf 1 Cases.twoUsers Cases.aliceRow Cases.aliceLogin
                  twoUsers_ok Ha eq_refl eq_refl eq_refl eq_refl)).
Defined.

(** X15 at the renaming of Alice. *)
Lemma user_service_keeps_table_witness :
  usersOk Cases.twoUsers
  ∧ usersOk (UserService.serve Samples.noFault 11 Samples.anyEmail Samples.hashOf
               Samples.hashMatches Samples.tokenOf
               (UserService.PUT_user 1 Cases.renameAlice) Cases.twoUsers).2.
Proof.
  split; [exact twoUsers_ok|].
  exact (user_service_keeps_table Samples.noFault 11 Samples.anyEmail Samples.hashOf
           Samples.hashMatches Samples.tokenOf (UserService.PUT_user 1 Cases.renameAlice)
           Cases.twoUsers twoUsers_ok).
Defined.

(** X16 on the table of Alice and Bob: Bob, registered last, comes first. *)
Lemma getUsers_lists_all_witness :
  Samples.noFault UserService.SelectAll = false
  ∧ ∃ rows, rows ≡ₚ [Cases.aliceRow; Cases.bobRow]
            ∧ newestFirst (UserService.created_at <$> rows)
            ∧ (UserService.getUsers Samples.noFault Cases.twoUsers).1
              = mkResponse 200
                  (JObj [("users",
                          JArr ((fun u => UserService.userJson u "createdAt"
                                            (UserService.created_at u)) <$> rows))]).
Proof.
  split; [reflexivity|].
  destruct (getUsers_lists_all Samples.noFault Cases.twoUsers eq_refl)
    as (rows & Hres & Hperm & Hsorted & _).
  exists rows. split; [exact Hperm|]. split; [exact Hsorted|]. by rewrite Hres.
Defined.

(** X27 at the renaming of Alice. *)
Lemma updateUser_succeeds_witness :
  (usersOk Cases.twoUsers ∧ Cases.aliceRow ∈ UserService.users Cases.twoUsers)
  ∧ UserService.users
      (UserService.updateUser Samples.noFault 11 1 Cases.renameAlice Cases.twoUsers).2
    = [UserService.mkUser 1 "a@x.com" "$secret1" "Alicia" 3 11; Cases.bobRow].
Proof.
  assert (Ha : Cases.aliceRow ∈ UserService.users Cases.twoUsers)
    by (apply elem_of_cons; by left).
  split; [split; [exact twoUsers_ok|exact Ha]|].
  assert (Hfree : Forall (fun v => UserService.id v ≠ 1 ->
                            UserService.email v
                            ≠ default (UserService.email Cases.aliceRow)
                                (UserService.truthy (UserService.b_email Cases.renameAlice)))
                    (UserService.users Cases.twoUsers)) by compute_done.
  assert (Hsome : UserService.truthy (UserService.b_name Cases.renameAlice) ≠ None
                  ∨ UserService.truthy (UserService.b_email Cases.renameAlice) ≠ None)
    by (left; discriminate).
  by rewrite (updateUser_succeeds Samples.noFault 11 1 Cases.renameAlice Cases.twoUsers
                Cases.aliceRow twoUsers_ok Ha eq_refl eq_refl Hsome eq_refl Hfree).
Defined.

(** X18: a delivered order is set back to pending. *)
Lemma updateOrder_any_transition_witness :
  ("pending" ∈ OrderService.statuses
   ∧ OrderService.Order.status Cases.deliveredOrder = "delivered")
  ∧ statusCode (OrderService.updateOrder unit Samples.noFault 12 1 (Cases.setTo "pending")
                  Cases.oneOrder).1 = 200
  ∧ OrderService.orders
      (OrderService.db (OrderService.updateOrder unit Samples.noFault 12 1
                          (Cases.setTo "pending") Cases.oneOrder).2)
    = [OrderService.Order.mk 1 1 3000 "pending" 11 12].
Proof.
  assert (Hst : "pending" ∈ OrderService.statuses) by compute_done.
  assert (Hok : Forall (fun o => OrderService.orderOk o = true)
                  (OrderService.orders (OrderService.db Cases.oneOrder))) by compute_done.
  assert (Hin : Cases.deliveredOrder ∈ OrderService.orders (OrderService.db Cases.oneOrder))
    by (apply elem_of_cons; by left).
  split; [split; [exact Hst|reflexivity]|].
  exact (proj1 (updateOrder_any_transition unit Samples.noFault 12 1 "pending" Cases.oneOrder
                  Cases.deliveredOrder) Hst eq_refl Hok Hin eq_refl).
Defined.

(** X19: the stored order is read while the user service knows no user. *)
Lemma getOrder_found_or_not_witness :
  (Samples.noFault OrderService.SelectOrder = false
   ∧ Cases.deliveredOrder ∈ OrderService.orders (OrderService.db Cases.oneOrder))
  ∧ (OrderService.getOrder unit Samples.unknownUser Samples.noFault 1 Cases.oneOrder).1
    = mkResponse 200
        (JObj [("order",
                OrderService.withItems Cases.deliveredOrder
                  [("userName", JStr "Unknown User")]
                  [OrderService.OrderItem.mk 1 1 1 3 1000 "Widget" 11])]).
Proof.
  assert (Hin : Cases.deliveredOrder ∈ OrderService.orders (OrderService.db Cases.oneOrder))
    by (apply elem_of_cons; by left).
  assert (Hnd : NoDup (OrderService.Order.id
                         <$> OrderService.orders (OrderService.db Cases.oneOrder)))
    by compute_done.
  split; [split; [reflexivity|exact Hin]|].
  exact (proj2 (getOrder_found_or_not unit Samples.unknownUser Samples.noFault 1
                  Cases.oneOrder eq_refl) Cases.deliveredOrder Hnd Hin eq_refl eq_refl).
Defined.

(** X20: the orders of user 1. *)
Lemma getUserOrders_lists_own_witness :
  Samples.noFault OrderService.SelectUserOrders = false
  ∧ ∃ rows,
      rows ≡ₚ [Cases.deliveredOrder]
      ∧ (OrderService.getUserOrders unit Samples.noFault 1 Cases.oneOrder).1
        = mkResponse 200
            (JObj [("orders",
                    JArr ((fun o =>
                             OrderService.withItems o []
                               (filter (fun r => OrderService.OrderItem.order_id r
                                                 = OrderService.Order.id o)
                                  (OrderService.order_items (OrderService.db Cases.oneOrder))))
                            <$> rows))]).
Proof.
  split; [reflexivity|].
  destruct (getUserOrders_lists_own unit Samples.noFault 1 Cases.oneOrder eq_refl
              (fun _ => eq_refl)) as (rows & Hperm & _ & Hres).
  exists rows. split; [exact Hperm|]. by rewrite Hres.
Defined.

(** X26: the listing of all orders while the user service knows no user. *)
Lemma getOrders_lists_all_witness :
  (forall i w, (Samples.unknownUser i w).2 = w)
  ∧ ∃ rows,
      rows ≡ₚ [Cases.deliveredOrder]
      ∧ (OrderService.getOrders unit Samples.unknownUser Samples.noFault Cases.oneOrder).1
        = mkResponse 200
            (JObj [("orders",
                    JArr ((fun o =>
                             OrderService.withItems o [("userName", JStr "Unknown User")]
                               (filter (fun r => OrderService.OrderItem.order_id r
                                                 = OrderService.Order.id o)
                                  (OrderService.order_items (OrderService.db Cases.oneOrder))))
                            <$> rows))]).
Proof.
  assert (Hread : forall i w, (Samples.unknownUser i w).2 = w) by (by intros i []).
  split; [exact Hread|].
  destruct (getOrders_lists_all unit Samples.unknownUser Samples.noFault Cases.oneOrder
              Hread eq_refl (fun _ => eq_refl)) as (rows & Hperm & _ & Hres & _).
  exists rows. split; [exact Hperm|exact Hres].
Defined.

(** X21 at the creation of an order beside the stored one. *)
Lemma order_service_keeps_tables_witness :
  stateOk Cases.oneOrder
  ∧ stateOk (OrderService.app unit Samples.knownUser Samples.widgetLookup Samples.noFault 11
               (Cases.postOrder (Samples.orderWidgets 1 3)) Cases.oneOrder).2.
Proof.
  split; [exact oneOrder_ok|].
  exact (order_service_keeps_tables unit Samples.knownUser Samples.widgetLookup
           Samples.noFault 11 (Cases.postOrder (Samples.orderWidgets 1 3)) Cases.oneOrder
           oneOrder_ok).
Defined.

(** X22 at the first order of three widgets. *)
Lemma createOrder_succeeds_witness :
  (OrderService.orderSchema (Samples.orderWidgets 1 3)
   = inr (OrderService.mkValue 1 [OrderService.Item.mk 1 3])
   ∧ lineOk (productAt Samples.widgetLookup tt) (OrderService.Item.mk 1 3) = true)
  ∧ (Cases.widgetShop (Samples.orderWidgets 1 3) Samples.noOrders).1
    = OrderService.created (OrderService.Order.mk 1 1 3000 "pending" 11 11)
        [OrderService.OrderItem.mk 1 1 1 3 1000 "Widget" 11].
Proof.
  split; [split; reflexivity|].
  assert (Hlines : Forall (fun item => lineOk (productAt Samples.widgetLookup tt) item = true)
                     [OrderService.Item.mk 1 3]) by (by repeat constructor).
  exact (proj1 (createOrder_succeeds unit Samples.knownUser Samples.widgetLookup
                  Samples.noFault 11 (Samples.orderWidgets 1 3) Samples.noOrders
                  (OrderService.mkValue 1 [OrderService.Item.mk 1 3])
                  (OrderService.User.mk "Alice") tt
                  eq_refl eq_refl (fun _ => eq_refl) Hlines eq_refl eq_refl (noFault_in 1))).
Defined.

(** X23: three widgets ordered twice out of a stock of five. *)
Lemma createOrder_repeats_witness :
  (OrderService.orderSchema (Samples.orderWidgets 1 3)
   = inr (OrderService.mkValue 1 [OrderService.Item.mk 1 3])
   ∧ (Samples.widgetLookup 1 tt).1 = HttpOk (OrderService.Product.mk 1000 "Widget" 5))
  ∧ OrderService.orders
      (OrderService.db
         (Cases.widgetShop (Samples.orderWidgets 1 3)
            (Cases.widgetShop (Samples.orderWidgets 1 3) Samples.noOrders).2).2)
    = [OrderService.Order.mk 1 1 3000 "pending" 11 11;
       OrderService.Order.mk 2 1 3000 "pending" 11 11].
Proof.
  split; [split; reflexivity|].
  assert (Hlines : Forall (fun item => lineOk (productAt Samples.widgetLookup tt) item = true)
                     [OrderService.Item.mk 1 3]) by (by repeat constructor).
  exact (proj2 (proj2 (createOrder_repeats unit Samples.knownUser Samples.widgetLookup
                         Samples.noFault 11 (Samples.orderWidgets 1 3) Samples.noOrders
                         (OrderService.mkValue 1 [OrderService.Item.mk 1 3])
                         (OrderService.User.mk "Alice")
                         eq_refl eq_refl (fun _ => eq_refl) Hlines eq_refl eq_refl
                         (noFault_in 1)))).
Defined.

(** X25 at the first order of the shop. *)
Lemma system_createOrder_succeeds_witness :
  (OrderService.orderSchema (Samples.orderWidgets 1 3)
   = inr (OrderService.mkValue 1 [OrderService.Item.mk 1 3])
   ∧ storedProduct (System.productDb (OrderService.world Samples.shop)) 1
     = Some (OrderService.Product.mk 1000 "Widget" 5))
  ∧ (Samples.shopOrder (Samples.orderWidgets 1 3) Samples.shop).1
    = OrderService.created (OrderService.Order.mk 1 1 3000 "pending" 11 11)
        [OrderService.OrderItem.mk 1 1 1 3 1000 "Widget" 11]
  ∧ OrderService.world (Samples.shopOrder (Samples.orderWidgets 1 3) Samples.shop).2
    = OrderService.world Samples.shop.
Proof.
  split; [split; reflexivity|].
  assert (Huser : is_Some (storedUser (System.userDb (OrderService.world Samples.shop)) 1))
    by (by eexists).
  assert (Hlines : Forall (fun item =>
                             lineOk (storedProduct
                                       (System.productDb (OrderService.world Samples.shop)))
                               item = true) [OrderService.Item.mk 1 3])
    by (by repeat constructor).
  exact (system_createOrder_succeeds Samples.noFault Samples.noFault Samples.noFault true true
           11 Samples.anyEmail Samples.hashOf Samples.hashMatches Samples.tokenOf
           (Samples.orderWidgets 1 3) Samples.shop
           (OrderService.mkValue 1 [OrderService.Item.mk 1 3])
           eq_refl eq_refl eq_refl eq_refl eq_refl Huser Hlines eq_refl eq_refl
           (noFault_in 1)).
Defined.
(** X29: the widget is ordered from a product service that knows none. *)
Lemma createOrder_product_lookup_failure_witness :
  (OrderService.orderSchema (Samples.orderWidgets 1 3)
   = inr (OrderService.mkValue 1 [OrderService.Item.mk 1 3])
   ∧ Cases.noProduct 1 tt = (HttpStatus 404, tt))
  ∧ (OrderService.createOrder unit Samples.knownUser Cases.noProduct Samples.noFault 11
       (Samples.orderWidgets 1 3) Samples.noOrders).1
    = errorJson 400 "Product with ID 1 not found".
Proof.
  split; [split; reflexivity|].
  exact (proj1 (createOrder_product_lookup_failure unit Samples.knownUser Cases.noProduct
                  Samples.noFault 11 (Samples.orderWidgets 1 3) Samples.noOrders
                  (OrderService.mkValue 1 [OrderService.Item.mk 1 3])
                  (OrderService.User.mk "Alice") tt tt tt [] [] (OrderService.Item.mk 1 3)
                  (HttpStatus 404) eq_refl eq_refl eq_refl eq_refl eq_refl eq_refl)).
Defined.

(** X30: the delivered order is set back to pending and read. *)
Lemma updateOrder_then_getOrder_witness :
  ("pending" ∈ OrderService.statuses
   ∧ Cases.deliveredOrder ∈ OrderService.orders (OrderService.db Cases.oneOrder))
  ∧ (OrderService.getOrder unit Samples.knownUser Samples.noFault 1
       (OrderService.updateOrder unit Samples.noFault 12 1 (Cases.setTo "pending")
          Cases.oneOrder).2).1
    = mkResponse 200
        (JObj [("order",
                OrderService.withItems (OrderService.Order.mk 1 1 3000 "pending" 11 12)
                  [("userName", JStr "Alice")]
                  [OrderService.OrderItem.mk 1 1 1 3 1000 "Widget" 11])]).
Proof.
  assert (Hst : "pending" ∈ OrderService.statuses) by compute_done.
  assert (Hok : Forall (fun o => OrderService.orderOk o = true)
                  (OrderService.orders (OrderService.db Cases.oneOrder))) by compute_done.
  assert (Hnd : NoDup (OrderService.Order.id
                         <$> OrderService.orders (OrderService.db Cases.oneOrder)))
    by compute_done.
  assert (Hin : Cases.deliveredOrder ∈ OrderService.orders (OrderService.db Cases.oneOrder))
    by (apply elem_of_cons; by left).
  split; [split; [exact Hst|exact Hin]|].
  exact (updateOrder_then_getOrder unit Samples.knownUser Samples.noFault 12 1 "pending"
           Cases.oneOrder Cases.deliveredOrder Hst eq_refl eq_refl eq_refl Hnd Hok Hin
           eq_refl).
Defined.
End Instances.
